(** * ecobot: the generator, the trainer and the forecast path

    A shallow embedding of [generator.py], [trainer.py] and
    [predict_user.py], and the properties of the specification proved (or
    refuted) on it.

    Numbers.  The Python code computes on binary64 floats.  Every function is
    written once, over an interface [PyFloat] of the operations it uses, and
    run at two instances: [float] (Rocq's primitive binary64 numbers, the
    arithmetic Python performs) and [Q] (exact rationals, the arithmetic the
    formulas of the specification are written in).  Structural facts are
    proved for every instance; facts about order and sign are proved on [Q],
    or from the order laws of [PyOrder], which both instances satisfy.

    Effects.  Files, standard output and exceptions are threaded through the
    monad [M]: a computation maps a [world] to a result or an exception, and
    a new world.  What the code reaches through the network or scikit-learn
    is a parameter of the section that uses it. *)

From Stdlib Require Import ZArith QArith Qabs Qround Qpower Floats Lia Lqa String List.
From stdpp Require Import base option list gmap strings.
Import ListNotations.

#[local] Set Warnings "-inexact-float".
#[local] Open Scope string_scope.

(** ** Numbers *)

(** The operations the sources apply to numbers.  [lit q] is the number a
    decimal literal or an [int] denotes, and the quotient [a / b] of two
    [int]s ([q = a # b]); [py_int] is [int(x)], which truncates toward zero
    and raises on an infinity or a NaN. *)
Class PyFloat (F : Type) := {
  lit : Q -> F;
  fadd : F -> F -> F;
  fsub : F -> F -> F;
  fmul : F -> F -> F;
  fdiv : F -> F -> F;
  fltb : F -> F -> bool;
  fleb : F -> F -> bool;
  fabs : F -> F;
  fis_zero : F -> bool;
  py_int : F -> option Z;
}.
Arguments lit {F _} q%_Q.

Declare Scope py_scope.
Delimit Scope py_scope with py.
Infix "+" := fadd : py_scope.
Infix "-" := fsub : py_scope.
Infix "*" := fmul : py_scope.
Infix "/" := fdiv : py_scope.
Infix "<?" := fltb : py_scope.
Infix "<=?" := fleb : py_scope.

(** [round(x, ndigits)]: the nearest multiple of [10^-ndigits], a tie going
    to the even one.  Only the generator rounds. *)
Class PyRound (F : Type) := {
  py_round : F -> Z -> F;
}.

(** What the clamp of the generator needs of the comparisons: [<] implies
    [<=], and [<=] only relates numbers that compare to themselves (on
    floats: that are not NaN). *)
Class PyOrder (F : Type) `{PyFloat F} := {
  fltb_fleb : forall a b : F, fltb a b = true -> fleb a b = true;
  fleb_refl_l : forall a b : F, fleb a b = true -> fleb a a = true;
  fleb_refl_r : forall a b : F, fleb a b = true -> fleb b b = true;
}.

(** *** Exact rationals *)

Definition Qtrunc (x : Q) : Z := Z.quot (Qnum x) (Zpos (Qden x)).

(** Rounding half to even to an integer. *)
Definition Qround_half_even (x : Q) : Z :=
  let f := Qfloor x in
  match Qcompare (x - inject_Z f)%Q (1 # 2)%Q with
  | Lt => f
  | Gt => (f + 1)%Z
  | Eq => if Z.even f then f else (f + 1)%Z
  end.

Definition Qpow10 (n : Z) : Q := Qpower 10%Q n.

#[export] Instance Q_float : PyFloat Q := {|
  lit q := q;
  fadd := Qplus;
  fsub := Qminus;
  fmul := Qmult;
  fdiv := Qdiv;
  fltb a b := negb (Qle_bool b a);
  fleb := Qle_bool;
  fabs := Qabs;
  fis_zero x := Qeq_bool x 0%Q;
  py_int x := Some (Qtrunc x);
|}.

#[export] Instance Q_round : PyRound Q := {|
  py_round x n := (inject_Z (Qround_half_even (x * Qpow10 n)) / Qpow10 n)%Q;
|}.

(** *** binary64 *)

Definition Z2SF (n : Z) : spec_float :=
  match n with
  | Z0 => S754_zero false
  | Zpos p => S754_finite false p 0
  | Zneg p => S754_finite true p 0
  end.

(** The float nearest to [q], by the correctly rounded division of the
    IEEE 754 specification. *)
Definition float_of_Q (q : Q) : float :=
  SF2Prim (SFdiv prec emax (Z2SF (Qnum q)) (Z2SF (Zpos (Qden q)))).

Definition float_trunc (x : float) : option Z :=
  match Prim2SF x with
  | S754_zero _ => Some 0%Z
  | S754_finite s m e =>
      let a := match e with
               | Zneg k => Z.shiftr (Zpos m) (Zpos k)
               | _ => Z.shiftl (Zpos m) e
               end in
      Some (if s then Z.opp a else a)
  | S754_infinity _ | S754_nan => None
  end.

#[export] Instance float_float : PyFloat float := {|
  lit := float_of_Q;
  fadd := PrimFloat.add;
  fsub := PrimFloat.sub;
  fmul := PrimFloat.mul;
  fdiv := PrimFloat.div;
  fltb := PrimFloat.ltb;
  fleb := PrimFloat.leb;
  fabs := PrimFloat.abs;
  fis_zero x := PrimFloat.eqb x 0%float;
  py_int := float_trunc;
|}.

(** The rational a finite float denotes. *)
Definition float_to_Q (x : float) : option Q :=
  match Prim2SF x with
  | S754_zero _ => Some 0%Q
  | S754_finite s m e =>
      let a := (inject_Z (Zpos m) * Qpower 2 e)%Q in
      Some (if s then Qopp a else a)
  | S754_infinity _ | S754_nan => None
  end.

(** [round] on a Python float: the decimal nearest to the exact value,
    read back as a float; an infinity or a NaN is returned as it is. *)
#[export] Instance float_round : PyRound float := {|
  py_round x n :=
    match float_to_Q x with
    | Some q => float_of_Q (inject_Z (Qround_half_even (q * Qpow10 n)) / Qpow10 n)%Q
    | None => x
    end;
|}.

(** ** Exceptions, output and files *)

Inductive exn :=
| KeyError (key : string)
| IndexError
| CannotConvert              (* int(): OverflowError on an infinity, ValueError on a NaN *)
| ZeroDivisionError
| LoadError (path : string)  (* joblib.load or pandas.read_csv on a missing or foreign file *)
| RuntimeError               (* raised by the network helpers *)
| OverflowError              (* a [timedelta] or a [datetime] out of range *)
| ValueError                 (* [strptime] on a string that does not match the format *)
| SystemExit (code : Z).     (* exit(): not caught by [except Exception] *)

Definition is_Exception (e : exn) : bool :=
  match e with SystemExit _ => false | _ => true end.

(** A computation on a state [S]: it returns a value or raises, and leaves a
    state either way. *)
Definition M (S A : Type) : Type := S -> (exn + A) * S.

#[export] Instance M_ret {S} : MRet (M S) := fun A x w => (inr x, w).
#[export] Instance M_bind {S} : MBind (M S) := fun A B k m w =>
  match m w with
  | (inr x, w') => k x w'
  | (inl e, w') => (inl e, w')
  end.

Definition raise {S A} (e : exn) : M S A := fun w => (inl e, w).

Definition lift_result {S A} (r : exn + A) : M S A := fun w => (r, w).

(** [try: c except Exception: h] *)
Definition try_except {S A} (c : M S A) (h : exn -> M S A) : M S A := fun w =>
  match c w with
  | (inl e, w') => if is_Exception e then h e w' else (inl e, w')
  | r => r
  end.

(** [for x in l: body x] *)
Fixpoint for_each {S A} (l : list A) (body : A -> M S unit) : M S unit :=
  match l with
  | [] => mret tt
  | x :: l' => body x;; for_each l' body
  end.

(** A Python dict with string keys, in insertion order. *)
Definition pydict (V : Type) : Type := list (string * V).

Fixpoint dict_find {V} (d : pydict V) (k : string) : option V :=
  match d with
  | [] => None
  | (k', v) :: d' => if String.eqb k' k then Some v else dict_find d' k
  end.

(** [d.get(k, default)] and [d[k]] *)
Definition dict_get {V} (d : pydict V) (k : string) (default : V) : V :=
  match dict_find d k with Some v => v | None => default end.

Definition dict_item {S V} (d : pydict V) (k : string) : M S V :=
  match dict_find d k with Some v => mret v | None => raise (KeyError k) end.

(** [l[i]] *)
Definition list_item {S A} (l : list A) (i : nat) : M S A :=
  match l !! i with Some v => mret v | None => raise IndexError end.

(** ** Names, dates and small helpers of the three programs *)

Definition CSV_FILE : string := "plant_data.csv".
Definition BACKUP_CSV_FILE : string := "backup.csv".

Definition HEADERS : list string := [
  "timestamp"; "fuel_type"; "max_capacity_mw"; "current_generation_mw"; "run_hours";
  "temp_C"; "humidity_%"; "pressure_hPa"; "predicted_efficiency";
  "recommended_generation_mw"; "adjustment_pct"; "fuel_per_kwh"; "fuel_unit";
  "heat_rate_kcal_per_kwh"; "fuel_used_current"; "fuel_used_recommended";
  "fuel_saved"; "fuel_cost_per_unit"; "cost_saved"; "co2_saved_tonnes"
].

(** A [datetime] is held as the second it denotes, counted from
    2020-01-01 00:00:00: what [strftime("%Y-%m-%d %H:%M:%S")] keeps of it. *)
Definition datetime : Type := Z.

Definition dt_hour (dt : datetime) : Z := ((dt / 3600) mod 24)%Z.

(** [(dt - datetime(2020, 1, 1)).days] *)
Definition dt_days (dt : datetime) : Z := (dt / 86400)%Z.

(** The month of the Gregorian calendar day [d] days after 2020-01-01. *)
Definition month_of_days (d : Z) : Z :=
  (let z := d + 737730 in
   let era := z / 146097 in
   let doe := z - era * 146097 in
   let yoe := (doe - doe / 1460 + doe / 36524 - doe / 146096) / 365 in
   let doy := doe - (365 * yoe + yoe / 4 - yoe / 100) in
   let mp := (5 * doy + 2) / 153 in
   if mp <? 10 then mp + 3 else mp - 9)%Z.

Definition dt_month (dt : datetime) : Z := month_of_days (dt_days dt).

(** [datetime.min] and [datetime.max], the first second of the year 1 and
    the last of the year 9999, and the first second of the year 1000,
    counted like every [datetime] from 2020-01-01 00:00:00. *)
Definition datetime_min : datetime := (-737424 * 86400)%Z.
Definition datetime_max : datetime := (2914634 * 86400 + 86399)%Z.
Definition year_1000 : datetime := (-372547 * 86400)%Z.

Definition FEATURES : list string :=
  ["max_capacity_mw"; "run_hours"; "temp_C"; "humidity_%"; "pressure_hPa"].

(** The arguments [RandomForestRegressor] is built with. *)
Record RandomForestRegressor := {
  n_estimators : Z;
  random_state : Z;
  n_jobs : Z;
  max_depth : Z;
}.

(** [Series.unique()]: the values in order of first appearance. *)
Fixpoint unique_from (seen l : list string) : list string :=
  match l with
  | [] => []
  | x :: l' =>
      if decide (x ∈ seen) then unique_from seen l'
      else x :: unique_from (x :: seen) l'
  end.

Definition unique (l : list string) : list string := unique_from [] l.

(** ** The data of the three programs *)

Section Program.
Context {F : Type} `{PyFloat F}.

(** A fitted regressor as joblib stores it, and [model.predict] on one row
    of features (scikit-learn's; not part of the repository). *)
Variable Model : Type.
Variable predict : Model -> list F -> F.

#[local] Open Scope py_scope.

(** One line of [plant_data.csv], under the columns of [HEADERS]; the
    timestamp is held as the second it denotes (see [datetime]). *)
Record OperatingSample := {
  s_timestamp : Z;
  s_fuel_type : string;
  s_max_capacity_mw : F;
  s_current_generation_mw : F;
  s_run_hours : Z;
  s_temp_C : F;
  s_humidity : F;
  s_pressure_hPa : F;
  s_predicted_efficiency : F;
  s_recommended_generation_mw : F;
  s_adjustment_pct : F;
  s_fuel_per_kwh : F;
  s_fuel_unit : string;
  s_heat_rate_kcal_per_kwh : F;
  s_fuel_used_current : F;
  s_fuel_used_recommended : F;
  s_fuel_saved : F;
  s_fuel_cost_per_unit : F;
  s_cost_saved : F;
  s_co2_saved_tonnes : F;
}.

Inductive file :=
| EmptyFile
| CsvFile (columns : list string) (rows : list OperatingSample)
| JoblibFile (m : Model).

(** What the programs print, one constructor per [print]; the lines of a
    forecast day go together, and so do the two of a failed forecast. *)
Inductive msg :=
| NoModelFound (fuel : string)
| FetchingLocation
| CurrentLocation (lat lon : F)
| LocationFailed
| FetchingForecast
| ForecastFailed (e : exn)
| ForecastHeading
| DayReport (date : string) (generation fuel_use fuel_saved cost_saved co2_saved : F)
| NoTrainingData
| Skipping (fuel : string) (samples : nat)
| Trained (fuel : string) (r2 mae : F)
| DataCleared.

Record world := { fs : gmap string file; stdout : list msg }.

Definition print (m : msg) : M world unit := fun w =>
  (inr tt, {| fs := fs w; stdout := stdout w ++ [m] |}).

Definition write_file (path : string) (f : file) : M world unit := fun w =>
  (inr tt, {| fs := <[path := f]> (fs w); stdout := stdout w |}).

Definition joblib_load (path : string) : M world Model := fun w =>
  match fs w !! path with
  | Some (JoblibFile m) => (inr m, w)
  | _ => (inl (LoadError path), w)
  end.

Definition joblib_dump (m : Model) (path : string) : M world unit :=
  write_file path (JoblibFile m).

(** [generator.py], lines 19 to 21: on import both files are overwritten
    with the header. *)
Definition write_headers : M world unit :=
  for_each [CSV_FILE; BACKUP_CSV_FILE] (fun fname => write_file fname (CsvFile HEADERS [])).

(** ** predict_user.py *)

(** The dict the caller passes.  Its numbers are floats here: an [int] the
    caller gives is taken as the float it converts to in the first
    operation that meets it. *)
Record sample_input := {
  fuel_type : string;
  max_capacity_mw : F;
  run_hours : F;
  fuel_used_current : F;
}.

(** [sample_input.copy()] with the three keys of the day set. *)
Record input_data := {
  inputs :> sample_input;
  temp_C : F;
  humidity : F;
  pressure_hPa : F;
}.

Record forecast_day := {
  date : string;
  day_temp_C : F;
  day_humidity : F;
  day_pressure_hPa : F;
}.

Definition calc_recommended_efficiency (fuel_type : string) (temp_C humidity pressure_hPa : F) : F :=
  let base_eff :=
    dict_get [("coal", lit 0.38); ("oil", lit 0.42); ("natural_gas", lit 0.50)] fuel_type (lit 0.40) in
  let temp_factor := lit 1 - lit 0.002 * (temp_C - lit 25) in
  let humidity_factor := lit 1 - lit 0.001 * (humidity - lit 40) in
  let pressure_factor := lit 1 + lit 0.0005 * (pressure_hPa - lit 1013.25) in
  base_eff * temp_factor * humidity_factor * pressure_factor.

(** The model of [predict_outputs]: the one loaded, or the [DummyModel]
    defined in the handler, which closes over [input_data]. *)
Inductive model_obj :=
| Loaded (m : Model)
| DummyModel (d : input_data).

Definition model_predict (model : model_obj) (X : list (list F)) : list F :=
  match model with
  | Loaded m => map (predict m) X
  | DummyModel d => [max_capacity_mw d * lit 0.7]
  end.

(** Lines 59 to 70 of [predict_outputs]: the model and its prediction. *)
Definition current_generation_mw (input_data : input_data) : M world F :=
  let fuel_type := fuel_type input_data in
  model ← try_except
    (m ← joblib_load ("model_" +:+ fuel_type +:+ ".joblib"); mret (Loaded m))
    (fun _ => print (NoModelFound fuel_type);; mret (DummyModel input_data));
  let X := [[max_capacity_mw input_data; run_hours input_data; temp_C input_data;
             humidity input_data; pressure_hPa input_data]] in
  list_item (model_predict model X) 0.

(** Lines 72 to 107: the recommended scenario and the savings, which read
    [input_data] only. *)
Definition recommended_outputs (input_data : input_data) : pydict F :=
  let fuel_type := fuel_type input_data in
  let max_capacity := max_capacity_mw input_data in
  let run_hours := run_hours input_data in
  let fuel_used_current := fuel_used_current input_data in
  let recommended_efficiency :=
    calc_recommended_efficiency fuel_type (temp_C input_data) (humidity input_data)
      (pressure_hPa input_data) in
  let recommended_generation_mw := max_capacity * recommended_efficiency in
  let recommended_energy_kwh := recommended_generation_mw * lit 1000 * run_hours in
  let fuel_per_kwh_map := [("coal", lit 0.35); ("oil", lit 0.25); ("natural_gas", lit 0.20)] in
  let fuel_per_kwh := dict_get fuel_per_kwh_map fuel_type (lit 0.3) in
  let fuel_used_recommended := recommended_energy_kwh * fuel_per_kwh / lit 1000 in
  let fuel_saved := fuel_used_current - fuel_used_recommended in
  let fuel_cost_map := [("coal", lit 6000); ("oil", lit 700); ("natural_gas", lit 300)] in
  let fuel_cost_per_unit := dict_get fuel_cost_map fuel_type (lit 500) in
  let cost_saved := fuel_saved * fuel_cost_per_unit in
  let co2_factor_map := [("coal", lit 2.42); ("oil", lit 2.96); ("natural_gas", lit 2.0)] in
  let co2_factor := dict_get co2_factor_map fuel_type (lit 2.5) in
  let co2_saved_tonnes := fuel_saved * co2_factor in
  [
    ("recommended_generation_mw", recommended_generation_mw);
    ("fuel_used_recommended", fuel_used_recommended);
    ("fuel_saved", fuel_saved);
    ("cost_saved", cost_saved);
    ("co2_saved_tonnes", co2_saved_tonnes);
    ("recommended_efficiency", recommended_efficiency)
  ].

Definition predict_outputs (input_data : input_data) : M world (pydict F) :=
  current_generation_mw ← current_generation_mw input_data;
  let outputs := recommended_outputs input_data in
  mret outputs.

Definition f2 (no : F) : exn + F :=
  match py_int (no * lit 100) with
  | Some n => inr (lit (Qmake n 100))
  | None => inl CannotConvert
  end.

(** The two network helpers of [func1], as the results they give: the
    location, and the forecast for a location and a number of days. *)
Variable get_gps_location : exn + (F * F).
Variable fetch_weather_forecast : F -> F -> Z -> exn + list forecast_day.

(** A row of the list [func1] returns: the date and the six numbers. *)
Definition outcome : Type := string * list F.

Definition func1_day (sample_input : sample_input) (day : forecast_day) : M world outcome :=
  let input_data := {| inputs := sample_input; temp_C := day_temp_C day;
                       humidity := day_humidity day; pressure_hPa := day_pressure_hPa day |} in
  outputs ← predict_outputs input_data;
  generation ← dict_item outputs "recommended_generation_mw";
  fuel_use ← dict_item outputs "fuel_used_recommended";
  fuel_saved ← dict_item outputs "fuel_saved";
  cost_saved ← dict_item outputs "cost_saved";
  co2_saved ← dict_item outputs "co2_saved_tonnes";
  print (DayReport (date day) generation fuel_use fuel_saved cost_saved co2_saved);;
  a ← lift_result (f2 generation);
  b ← lift_result (f2 fuel_use);
  c ← lift_result (f2 fuel_saved);
  d ← lift_result (f2 cost_saved);
  e ← lift_result (f2 co2_saved);
  efficiency ← dict_item outputs "recommended_efficiency";
  f ← lift_result (f2 efficiency);
  mret (date day, [a; b; c; d; e; f]).

(** The loop of [func1], with the list [l] it appends to. *)
Fixpoint func1_loop (sample_input : sample_input) (forecast : list forecast_day)
    (l : list outcome) : M world (list outcome) :=
  match forecast with
  | [] => mret l
  | day :: forecast' =>
      row ← func1_day sample_input day;
      func1_loop sample_input forecast' (l ++ [row])
  end.

Definition func1 (sample_input : sample_input) : M world (list outcome) :=
  print FetchingLocation;;
  '(lat, lon) ← try_except
    ('(lat, lon) ← lift_result get_gps_location;
     print (CurrentLocation lat lon);;
     mret (lat, lon))
    (fun e => print LocationFailed;; mret (lit 13.0895, lit 80.2739));
  print FetchingForecast;;
  forecast ← try_except
    (lift_result (fetch_weather_forecast lat lon 7))
    (fun e => print (ForecastFailed e);; raise (SystemExit 1));
  print ForecastHeading;;
  func1_loop sample_input forecast [].

End Program.

Arguments OperatingSample F : clear implicits.
Arguments file F Model : clear implicits.
Arguments msg F : clear implicits.
Arguments world F Model : clear implicits.
Arguments sample_input F : clear implicits.
Arguments input_data F : clear implicits.
Arguments forecast_day F : clear implicits.
Arguments outcome F : clear implicits.
Arguments fs {F Model}.
Arguments stdout {F Model}.
Arguments Build_world {F Model}.
Arguments EmptyFile {F Model}.
Arguments CsvFile {F Model}.
Arguments JoblibFile {F Model}.
Arguments print {F Model}.
Arguments write_file {F Model}.
Arguments joblib_load {F Model}.
Arguments joblib_dump {F Model}.

(** ** generator.py *)

Section Generator.
Context {F : Type} `{PyFloat F} `{PyRound F}.

(** The state behind [random] and [datetime.now()], and the three calls
    the generator makes on it; [np.sin] and [np.pi]. *)
Variable env : Type.
Variable random_random : M env F.
Variable random_randint : Z -> Z -> M env Z.
Variable datetime_now : M env datetime.
Variable np_sin : F -> F.
Variable np_pi : F.

#[local] Open Scope py_scope.

Definition of_int (n : Z) : F := lit (inject_Z n).

(** [a / b] on floats: a zero divisor raises. *)
Definition py_div {S} (a b : F) : M S F :=
  if fis_zero b then raise ZeroDivisionError else mret (a / b).

(** [min(a, b)] and [max(a, b)]: the first argument unless the second is
    smaller (larger). *)
Definition py_min (a b : F) : F := if b <? a then b else a.
Definition py_max (a b : F) : F := if a <? b then b else a.

(** [random.uniform(a, b)] *)
Definition random_uniform (a b : F) : M env F :=
  u ← random_random; mret (a + (b - a) * u).

Record fuel_config := {
  efficiency_range : F * F;
  heat_rate_range : F * F;
  capacity_range : F * F;
  temp_sensitivity : F;
  humidity_sensitivity : F;
  pressure_sensitivity : F;
  fuel_lhv : F;
  fuel_unit : string;
  fuel_cost_range : F * F;
  co2_factor : F;
  density : F;
}.

Definition fuel_types : pydict fuel_config := [
  ("coal", {|
    efficiency_range := (lit 0.32, lit 0.46);
    heat_rate_range := (lit 2000, lit 2600);
    capacity_range := (lit 200, lit 800);
    temp_sensitivity := lit 0.0018;
    humidity_sensitivity := lit 0.0008;
    pressure_sensitivity := lit 0.0006;
    fuel_lhv := lit 7000;
    fuel_unit := "kg";
    fuel_cost_range := (lit 5000, lit 7000);
    co2_factor := lit 2.42;
    density := lit 1.0 |});
  ("oil", {|
    efficiency_range := (lit 0.36, lit 0.42);
    heat_rate_range := (lit 2100, lit 2400);
    capacity_range := (lit 100, lit 400);
    temp_sensitivity := lit 0.0015;
    humidity_sensitivity := lit 0.0007;
    pressure_sensitivity := lit 0.0005;
    fuel_lhv := lit 10000;
    fuel_unit := "liters";
    fuel_cost_range := (lit 600, lit 900);
    co2_factor := lit 2.96;
    density := lit 0.85 |});
  ("natural_gas", {|
    efficiency_range := (lit 0.40, lit 0.60);
    heat_rate_range := (lit 1430, lit 2150);
    capacity_range := (lit 50, lit 600);
    temp_sensitivity := lit 0.0012;
    humidity_sensitivity := lit 0.0005;
    pressure_sensitivity := lit 0.0008;
    fuel_lhv := lit 8500;
    fuel_unit := "Nm3";
    fuel_cost_range := (lit 200, lit 400);
    co2_factor := lit 2.0;
    density := lit 0.72 |})
].

Definition seasonal_temp_base : pydict F :=
  [("winter", lit 15); ("spring", lit 22); ("summer", lit 32); ("autumn", lit 25)].

Definition get_seasonal_temperature (timestamp : datetime) : M env F :=
  let dt := timestamp in
  let month := dt_month dt in
  let season :=
    if existsb (Z.eqb month) [12; 1; 2]%Z then "winter"
    else if existsb (Z.eqb month) [3; 4; 5]%Z then "spring"
    else if existsb (Z.eqb month) [6; 7; 8]%Z then "summer"
    else "autumn" in
  base_temp ← dict_item seasonal_temp_base season;
  let daily_variation := lit 6 * np_sin (lit 2 * np_pi * of_int (dt_hour dt) / lit 24) in
  random_noise ← random_uniform (lit (-1)) (lit 1);
  mret (base_temp + daily_variation + random_noise).

(** [calculate_efficiency] up to the line that clips: the value before the
    noise. *)
Definition clipped_efficiency (config : fuel_config) (temp_C humidity pressure_hPa : F)
    (run_hours : Z) (timestamp : datetime) (load_factor : F) : F :=
  let base_efficiency := (fst (efficiency_range config) + snd (efficiency_range config)) / lit 2 in
  let load_factor_adj := lit 1 - fabs (load_factor - lit 0.9) * lit 0.08 in
  let base_efficiency := base_efficiency * load_factor_adj in
  let temp_factor := lit 1 - temp_sensitivity config * (temp_C - lit 25) in
  let humidity_factor := lit 1 - humidity_sensitivity config * (humidity - lit 40) in
  let pressure_factor := lit 1 + pressure_sensitivity config * (pressure_hPa - lit 1013.25) in
  let hours_factor :=
    if (run_hours <? 4)%Z then lit 0.95
    else if (run_hours <? 8)%Z then lit 0.98
    else lit 1.0 + lit 0.00005 * of_int (run_hours - 8) in
  let days_since_start := dt_days timestamp in
  let degradation_factor := lit 1 - of_int days_since_start * lit 0.00005 in
  let efficiency := base_efficiency * temp_factor * humidity_factor * pressure_factor
                    * hours_factor * degradation_factor in
  let '(min_eff, max_eff) := efficiency_range config in
  py_max min_eff (py_min max_eff efficiency).

Definition calculate_efficiency (config : fuel_config) (temp_C humidity pressure_hPa : F)
    (run_hours : Z) (timestamp : datetime) (load_factor : F) : M env F :=
  let efficiency :=
    clipped_efficiency config temp_C humidity pressure_hPa run_hours timestamp load_factor in
  noise ← random_uniform (lit 0.995) (lit 1.005);
  let efficiency := efficiency * noise in
  mret (py_round efficiency 4).

(** The locals the branch on [fuel_type] sets. *)
Record fuel_figures := {
  fuel_per_kwh : F;
  fuel_used_current_ : F;
  fuel_used_recommended : F;
  fuel_cost_per_unit : F;
  fuel_unit_ : string;
  co2_saved : F;
}.

(** Lines 148 to 173: the calculations of one fuel; [None] is [continue]. *)
Definition fuel_calculations (fuel_type : string) (config : fuel_config)
    (current_generation_mw base_generation heat_rate_kcal_per_kwh : F) (run_hours : Z)
    : M env (option fuel_figures) :=
  if String.eqb fuel_type "coal" then
    fuel_per_kwh ← py_div heat_rate_kcal_per_kwh (fuel_lhv config);
    let fuel_used_current :=
      (current_generation_mw * lit 1000) * fuel_per_kwh * of_int run_hours / lit 1000 in
    let fuel_used_recommended :=
      (base_generation * lit 1000) * fuel_per_kwh * of_int run_hours / lit 1000 in
    fuel_cost_per_unit ← random_uniform (fst (fuel_cost_range config)) (snd (fuel_cost_range config));
    let fuel_unit := "ton" in
    let co2_saved := (fuel_used_current - fuel_used_recommended) * co2_factor config in
    mret (Some {| fuel_per_kwh := fuel_per_kwh; fuel_used_current_ := fuel_used_current;
                  fuel_used_recommended := fuel_used_recommended;
                  fuel_cost_per_unit := fuel_cost_per_unit; fuel_unit_ := fuel_unit;
                  co2_saved := co2_saved |})
  else if String.eqb fuel_type "oil" then
    fuel_per_kwh ← py_div heat_rate_kcal_per_kwh (fuel_lhv config * density config);
    let fuel_used_current :=
      (current_generation_mw * lit 1000) * fuel_per_kwh * of_int run_hours / lit 1000 in
    let fuel_used_recommended :=
      (base_generation * lit 1000) * fuel_per_kwh * of_int run_hours / lit 1000 in
    fuel_cost_per_unit ← random_uniform (fst (fuel_cost_range config)) (snd (fuel_cost_range config));
    let fuel_unit := "barrel" in
    let fuel_used_current_tonnes := fuel_used_current * density config / lit 1000 in
    let fuel_used_recommended_tonnes := fuel_used_recommended * density config / lit 1000 in
    let co2_saved :=
      (fuel_used_current_tonnes - fuel_used_recommended_tonnes) * co2_factor config in
    mret (Some {| fuel_per_kwh := fuel_per_kwh; fuel_used_current_ := fuel_used_current;
                  fuel_used_recommended := fuel_used_recommended;
                  fuel_cost_per_unit := fuel_cost_per_unit; fuel_unit_ := fuel_unit;
                  co2_saved := co2_saved |})
  else if String.eqb fuel_type "natural_gas" then
    fuel_per_kwh ← py_div heat_rate_kcal_per_kwh (fuel_lhv config);
    let fuel_used_current :=
      (current_generation_mw * lit 1000) * fuel_per_kwh * of_int run_hours / lit 1000 in
    let fuel_used_recommended :=
      (base_generation * lit 1000) * fuel_per_kwh * of_int run_hours / lit 1000 in
    fuel_cost_per_unit ← random_uniform (fst (fuel_cost_range config)) (snd (fuel_cost_range config));
    let fuel_unit := "1000Nm3" in
    let co2_saved :=
      (fuel_used_current - fuel_used_recommended) * co2_factor config / lit 1000 in
    mret (Some {| fuel_per_kwh := fuel_per_kwh; fuel_used_current_ := fuel_used_current;
                  fuel_used_recommended := fuel_used_recommended;
                  fuel_cost_per_unit := fuel_cost_per_unit; fuel_unit_ := fuel_unit;
                  co2_saved := co2_saved |})
  else mret None.

(** The body of the inner loop: the row of one fuel at one timestamp,
    appended to [data]. *)
Definition generate_row (timestamp_str : datetime) (fuel_type : string)
    (data : list (OperatingSample F)) : M env (list (OperatingSample F)) :=
  config ← dict_item fuel_types fuel_type;
  max_capacity_mw ← random_uniform (fst (capacity_range config)) (snd (capacity_range config));
  temp_C ← get_seasonal_temperature timestamp_str;
  humidity ← random_uniform (lit 30) (lit 70);
  d ← random_uniform (lit (-10)) (lit 10);
  let pressure_hPa := lit 1013.25 + d in
  run_hours ← random_randint 12 24;
  load_factor ← random_uniform (lit 0.6) (lit 1.0);
  predicted_efficiency ←
    calculate_efficiency config temp_C humidity pressure_hPa run_hours timestamp_str load_factor;
  let base_generation := max_capacity_mw * predicted_efficiency in
  let current_generation_mw := max_capacity_mw * load_factor in
  heat_rate_kcal_per_kwh ← py_div (lit 860) predicted_efficiency;
  figures ← fuel_calculations fuel_type config current_generation_mw base_generation
              heat_rate_kcal_per_kwh run_hours;
  match figures with
  | None => mret data
  | Some g =>
      q ← py_div (base_generation - current_generation_mw) max_capacity_mw;
      let adjustment_pct := q * lit 100 in
      let fuel_saved := fuel_used_current_ g - fuel_used_recommended g in
      let cost_saved := fuel_saved * fuel_cost_per_unit g in
      mret (data ++ [{|
        s_timestamp := timestamp_str;
        s_fuel_type := fuel_type;
        s_max_capacity_mw := py_round max_capacity_mw 2;
        s_current_generation_mw := py_round current_generation_mw 3;
        s_run_hours := run_hours;
        s_temp_C := py_round temp_C 2;
        s_humidity := py_round humidity 2;
        s_pressure_hPa := py_round pressure_hPa 2;
        s_predicted_efficiency := predicted_efficiency;
        s_recommended_generation_mw := py_round base_generation 3;
        s_adjustment_pct := py_round adjustment_pct 2;
        s_fuel_per_kwh := py_round (fuel_per_kwh g) 4;
        s_fuel_unit := fuel_unit_ g;
        s_heat_rate_kcal_per_kwh := py_round heat_rate_kcal_per_kwh 2;
        s_fuel_used_current := py_round (fuel_used_current_ g) 4;
        s_fuel_used_recommended := py_round (fuel_used_recommended g) 4;
        s_fuel_saved := py_round fuel_saved 4;
        s_fuel_cost_per_unit := py_round (fuel_cost_per_unit g) 2;
        s_cost_saved := py_round cost_saved 2;
        s_co2_saved_tonnes := py_round (co2_saved g) 4;
      |}])%list
  end.

Fixpoint generate_fuels (timestamp_str : datetime) (fuel_types : list string)
    (data : list (OperatingSample F)) : M env (list (OperatingSample F)) :=
  match fuel_types with
  | [] => mret data
  | fuel_type :: rest =>
      data ← generate_row timestamp_str fuel_type data;
      generate_fuels timestamp_str rest data
  end.

(** [timedelta(hours=hours)], in seconds: more than 999999999 days
    overflow. *)
Definition timedelta_hours (hours : Z) : M env Z :=
  if (999999999 <? Z.abs (hours / 24))%Z then raise OverflowError
  else mret (3600 * hours)%Z.

(** [dt - delta]: a result before [datetime.min] or after [datetime.max]
    overflows. *)
Definition datetime_sub (dt : datetime) (delta : Z) : M env datetime :=
  let result := (dt - delta)%Z in
  if (result <? datetime_min)%Z || (datetime_max <? result)%Z then raise OverflowError
  else mret result.

(** [timestamp.strftime("%Y-%m-%d %H:%M:%S")], as [strptime] with the same
    format reads the string: the second the datetime denotes, for a year of
    four digits.  The C library prints a year below 1000 without its leading
    zeros (glibc does), and [strptime] refuses such a string: [None]. *)
Definition strftime (timestamp : datetime) : option datetime :=
  if (timestamp <? year_1000)%Z then None else Some timestamp.

(** The inner loop on a timestamp string that [strptime] refuses: the first
    fuel has its profile looked up and its capacity drawn, and
    [get_seasonal_temperature] raises at its first line. *)
Definition generate_fuels_unreadable (fuel_types' : list string)
    (data : list (OperatingSample F)) : M env (list (OperatingSample F)) :=
  match fuel_types' with
  | [] => mret data
  | fuel_type :: _ =>
      config ← dict_item fuel_types fuel_type;
      max_capacity_mw ← random_uniform (fst (capacity_range config)) (snd (capacity_range config));
      raise ValueError
  end.

(** The outer loop over [range(num_samples)], from [i] with [todo] turns
    left. *)
Fixpoint generate_samples (num_samples : Z) (i : Z) (todo : nat)
    (data : list (OperatingSample F)) : M env (list (OperatingSample F)) :=
  match todo with
  | O => mret data
  | S todo' =>
      now ← datetime_now;
      delta ← timedelta_hours (num_samples - i);
      timestamp ← datetime_sub now delta;
      data ← match strftime timestamp with
             | Some timestamp_str => generate_fuels timestamp_str (map fst fuel_types) data
             | None => generate_fuels_unreadable (map fst fuel_types) data
             end;
      generate_samples num_samples (i + 1)%Z todo' data
  end.

Definition generate_realistic_data (num_samples : Z) : M env (list (OperatingSample F)) :=
  generate_samples num_samples 0 (Z.to_nat num_samples) [].

End Generator.

Arguments fuel_config F : clear implicits.
Arguments fuel_figures F : clear implicits.

(** ** trainer.py *)

Section Trainer.
Context {F : Type} `{PyFloat F}.
Variable Model : Type.
Variable predict : Model -> list F -> F.

(** scikit-learn: the split of features and labels (with [test_size] and
    [random_state]), the fit of a forest, and the two scores. *)
Variable train_test_split :
  list (list F) -> list F -> Q -> Z -> list (list F) * list (list F) * list F * list F.
Variable fit : RandomForestRegressor -> list (list F) -> list F -> Model.
Variable r2_score : list F -> list F -> F.
Variable mean_absolute_error : list F -> list F -> F.

(** A frame as [read_csv] gives it: the header of the file, and the rows,
    each held under the columns of [HEADERS]. *)
Record DataFrame := {
  df_columns : list string;
  df_rows : list (OperatingSample F);
}.

(** The numeric columns of a row, by name. *)
Definition numeric_columns : pydict (OperatingSample F -> F) := [
  ("max_capacity_mw", s_max_capacity_mw);
  ("current_generation_mw", s_current_generation_mw);
  ("run_hours", fun r => lit (inject_Z (s_run_hours r)));
  ("temp_C", s_temp_C);
  ("humidity_%", s_humidity);
  ("pressure_hPa", s_pressure_hPa);
  ("predicted_efficiency", s_predicted_efficiency);
  ("recommended_generation_mw", s_recommended_generation_mw);
  ("adjustment_pct", s_adjustment_pct);
  ("fuel_per_kwh", s_fuel_per_kwh);
  ("heat_rate_kcal_per_kwh", s_heat_rate_kcal_per_kwh);
  ("fuel_used_current", s_fuel_used_current);
  ("fuel_used_recommended", s_fuel_used_recommended);
  ("fuel_saved", s_fuel_saved);
  ("fuel_cost_per_unit", s_fuel_cost_per_unit);
  ("cost_saved", s_cost_saved);
  ("co2_saved_tonnes", s_co2_saved_tonnes)
].

(** [df[name]] for a numeric column, and [df[names]]: a [KeyError] for a
    name that is not a column. *)
Definition df_series (df : DataFrame) (name : string) : M (world F Model) (list F) :=
  if decide (name ∈ df_columns df) then
    get ← dict_item numeric_columns name;
    mret (map get (df_rows df))
  else raise (KeyError name).

Fixpoint df_getters (df : DataFrame) (names : list string)
    : M (world F Model) (list (OperatingSample F -> F)) :=
  match names with
  | [] => mret []
  | name :: names' =>
      if decide (name ∈ df_columns df) then
        get ← dict_item numeric_columns name;
        gets ← df_getters df names';
        mret (get :: gets)
      else raise (KeyError name)
  end.

Definition df_select (df : DataFrame) (names : list string) : M (world F Model) (list (list F)) :=
  gets ← df_getters df names;
  mret (map (fun r => map (fun get => get r) gets) (df_rows df)).

(** [df['fuel_type']] *)
Definition df_fuel_type (df : DataFrame) : M (world F Model) (list string) :=
  if decide ("fuel_type" ∈ df_columns df) then mret (map s_fuel_type (df_rows df))
  else raise (KeyError "fuel_type").

Definition read_csv (path : string) : M (world F Model) DataFrame := fun w =>
  match fs w !! path with
  | Some (CsvFile columns rows) => (inr {| df_columns := columns; df_rows := rows |}, w)
  | _ => (inl (LoadError path), w)
  end.

(** [df.iloc[0:0].to_csv(path, index=False)] *)
Definition to_csv_no_rows (df : DataFrame) (path : string) : M (world F Model) unit :=
  write_file path (CsvFile (df_columns df) []).

(** [not os.path.exists(path) or os.stat(path).st_size == 0] *)
Definition missing_or_empty (path : string) : M (world F Model) bool := fun w =>
  (inr match fs w !! path with
       | None | Some EmptyFile => true
       | _ => false
       end, w).

(** The body of the loop over the fuel types. *)
Definition train_fuel (df : DataFrame) (fuel : string) : M (world F Model) unit :=
  let fuel_df := {| df_columns := df_columns df;
                    df_rows := filter (fun r => s_fuel_type r = fuel) (df_rows df) |} in
  if (length (df_rows fuel_df) <? 5)%nat then
    print (Skipping fuel (length (df_rows fuel_df)))
  else
    X ← df_select fuel_df FEATURES;
    y ← df_series fuel_df "current_generation_mw";
    let '(X_train, X_test, y_train, y_test) := train_test_split X y 0.2 42 in
    let model := fit {| n_estimators := 200; random_state := 42; n_jobs := -1;
                        max_depth := 12 |} X_train y_train in
    let y_pred := map (predict model) X_test in
    let r2 := r2_score y_test y_pred in
    let mae := mean_absolute_error y_test y_pred in
    print (Trained fuel r2 mae);;
    joblib_dump model ("model_" +:+ fuel +:+ ".joblib").

(** The loop, after the frame is read. *)
Definition train_all (df : DataFrame) : M (world F Model) unit :=
  fuels ← df_fuel_type df;
  for_each (unique fuels) (train_fuel df).

Definition trainer : M (world F Model) unit :=
  no_data ← missing_or_empty CSV_FILE;
  if no_data : bool then
    print NoTrainingData;;
    raise (SystemExit 0)
  else
    df ← read_csv CSV_FILE;
    train_all df;;
    to_csv_no_rows df CSV_FILE;;
    print DataCleared.

End Trainer.

(** ** Definitions the statements use *)

(** The world after one more line of output. *)
Definition say {F Model} (w : world F Model) (m : msg F) : world F Model :=
  {| fs := fs w; stdout := stdout w ++ [m] |}.

(** The input of the engine for a day of the forecast. *)
Definition day_input {F} (s : sample_input F) (day : forecast_day F) : input_data F :=
  {| inputs := s; temp_C := day_temp_C day; humidity := day_humidity day;
     pressure_hPa := day_pressure_hPa day |}.

(** The keys of the dict [predict_outputs] returns. *)
Definition output_keys : list string :=
  ["recommended_generation_mw"; "fuel_used_recommended"; "fuel_saved"; "cost_saved";
   "co2_saved_tonnes"; "recommended_efficiency"].

(** [x] lies in the efficiency range of a fuel profile. *)
Definition in_efficiency_range {F} `{PyFloat F} (config : fuel_config F) (x : F) : Prop :=
  fleb (fst (efficiency_range config)) x = true /\ fleb x (snd (efficiency_range config)) = true.

(** A source of randomness that answers every call the same way, for the
    concrete runs below. *)
Definition constant_random {F} (u : F) : M unit F := fun e => (inr u, e).

(** The scenario of the specification: the coal plant of [sample_input] on
    a day at 30 degrees, 50 % humidity and 1010 hPa. *)
Definition scenario {F} `{PyFloat F} : input_data F :=
  {| inputs := {| fuel_type := "coal"; max_capacity_mw := lit 150; run_hours := lit 20;
                  fuel_used_current := lit 9000 |};
     temp_C := lit 30; humidity := lit 50; pressure_hPa := lit 1010 |}.

Definition empty_world {F Model} : world F Model := {| fs := ∅; stdout := [] |}.

(** What the engine and the generator do at inputs where an efficiency
    leaves the range of the oil profile: the generator on 2026-11-03 at
    reference weather, full runtime and 90 % load, with a draw of 0.25 for the
    noise; the engine at 20 degrees and reference humidity and pressure. *)
Definition leaves_range (F : Type) `{PyFloat F} `{PyRound F} : Prop :=
  exists config : fuel_config F,
    dict_find fuel_types "oil" = Some config
    /\ (exists r, fst (calculate_efficiency unit (constant_random (lit 0.25)) config
                        (lit 25) (lit 40) (lit 1013.25) 12 215827200%Z (lit 0.9) tt) = inr r
                  /\ fltb r (fst (efficiency_range config)) = true
                  /\ ~ in_efficiency_range config r)
    /\ fltb (snd (efficiency_range config))
            (calc_recommended_efficiency "oil" (lit 20) (lit 40) (lit 1013.25)) = true
    /\ ~ in_efficiency_range config
           (calc_recommended_efficiency "oil" (lit 20) (lit 40) (lit 1013.25)).

(** Where [func1] asks the forecast for: the location found, or Chennai. *)
Definition location {F} `{PyFloat F} (gps : exn + (F * F)) : F * F :=
  match gps with
  | inr p => p
  | inl _ => (lit 13.0895, lit 80.2739)
  end.

(** [row] is the result of the engine on the inputs of the caller and the
    weather of [day], each of the six numbers passed through [f2]. *)
Definition outcome_of {F} `{PyFloat F} (Model : Type) (predict : Model -> list F -> F)
    (s : sample_input F) (w : world F Model) (day : forecast_day F) (row : outcome F) : Prop :=
  exists (outputs : pydict F) (g u v c o e g' u' v' c' o' e' : F),
    fst (predict_outputs Model predict (day_input s day) w) = inr outputs
    /\ dict_find outputs "recommended_generation_mw" = Some g /\ f2 g = inr g'
    /\ dict_find outputs "fuel_used_recommended" = Some u /\ f2 u = inr u'
    /\ dict_find outputs "fuel_saved" = Some v /\ f2 v = inr v'
    /\ dict_find outputs "cost_saved" = Some c /\ f2 c = inr c'
    /\ dict_find outputs "co2_saved_tonnes" = Some o /\ f2 o = inr o'
    /\ dict_find outputs "recommended_efficiency" = Some e /\ f2 e = inr e'
    /\ row = (date day, [g'; u'; v'; c'; o'; e']).

(** Every output of the engine for [day] can be converted by [int]. *)
Definition truncatable {F} `{PyFloat F} (s : sample_input F) (day : forecast_day F) : Prop :=
  forall k x, dict_find (recommended_outputs (day_input s day)) k = Some x ->
              is_Some (py_int (fmul x (lit 100))).

(** The columns the trainer reads. *)
Definition trainer_columns : list string := "fuel_type" :: "current_generation_mw" :: FEATURES.

Section TrainingModel.
Context {F : Type} `{PyFloat F}.
Variable Model : Type.
Variable predict : Model -> list F -> F.
Variable train_test_split :
  list (list F) -> list F -> Q -> Z -> list (list F) * list (list F) * list F * list F.
Variable fit : RandomForestRegressor -> list (list F) -> list F -> Model.
Variable r2_score : list F -> list F -> F.
Variable mean_absolute_error : list F -> list F -> F.

(** The samples of a fuel type, their features, and what the loop makes of
    them: the model it fits and the line it prints. *)
Definition fuel_rows (rows : list (OperatingSample F)) (fuel : string) : list (OperatingSample F) :=
  filter (fun r => s_fuel_type r = fuel) rows.

Definition features_of (r : OperatingSample F) : list F :=
  [s_max_capacity_mw r; lit (inject_Z (s_run_hours r)); s_temp_C r; s_humidity r;
   s_pressure_hPa r].

Definition trained_model (rows : list (OperatingSample F)) (fuel : string) : Model :=
  let '(X_train, X_test, y_train, y_test) :=
    train_test_split (map features_of (fuel_rows rows fuel))
      (map s_current_generation_mw (fuel_rows rows fuel)) 0.2 42 in
  fit {| n_estimators := 200; random_state := 42; n_jobs := -1; max_depth := 12 |}
    X_train y_train.

Definition train_line (rows : list (OperatingSample F)) (fuel : string) : msg F :=
  if (length (fuel_rows rows fuel) <? 5)%nat then Skipping fuel (length (fuel_rows rows fuel))
  else
    let '(X_train, X_test, y_train, y_test) :=
      train_test_split (map features_of (fuel_rows rows fuel))
        (map s_current_generation_mw (fuel_rows rows fuel)) 0.2 42 in
    let y_pred := map (predict (trained_model rows fuel)) X_test in
    Trained fuel (r2_score y_test y_pred) (mean_absolute_error y_test y_pred).

Definition train_store (rows : list (OperatingSample F)) (m : gmap string (file F Model))
    (fuel : string) : gmap string (file F Model) :=
  if (length (fuel_rows rows fuel) <? 5)%nat then m
  else <["model_" +:+ fuel +:+ ".joblib" := JoblibFile (trained_model rows fuel)]> m.

End TrainingModel.

(** What the branch on the fuel type computes for the three profiles of
    [fuel_types], whatever the generation figures, the heat rate and the
    hours: a result for each fuel, of which the CO2 saved is
    - coal: the fuel saved, in tonnes, times 2.42;
    - oil: the two fuel uses, in litres, each times the density 0.85 and
      divided by 1000, their difference times 2.96;
    - natural gas: the fuel saved times 2.0, divided by 1000. *)
Definition co2_conversions (F : Type) `{PyFloat F} : Prop :=
  forall (env : Type) (random_random : M env F)
         (current_generation_mw base_generation heat_rate_kcal_per_kwh : F) (run_hours : Z)
         (e e' : env) (u : F),
    random_random e = (inr u, e') ->
    (exists config g,
       dict_find fuel_types "coal" = Some config
       /\ fuel_calculations env random_random "coal" config current_generation_mw
            base_generation heat_rate_kcal_per_kwh run_hours e = (inr (Some g), e')
       /\ fuel_unit_ g = "ton"
       /\ co2_saved g = fmul (fsub (fuel_used_current_ g) (fuel_used_recommended g)) (lit 2.42))
    /\ (exists config g,
          dict_find fuel_types "oil" = Some config
          /\ fuel_calculations env random_random "oil" config current_generation_mw
               base_generation heat_rate_kcal_per_kwh run_hours e = (inr (Some g), e')
          /\ fuel_unit_ g = "barrel"
          /\ co2_saved g
             = fmul (fsub (fdiv (fmul (fuel_used_current_ g) (lit 0.85)) (lit 1000))
                          (fdiv (fmul (fuel_used_recommended g) (lit 0.85)) (lit 1000)))
                    (lit 2.96))
    /\ (exists config g,
          dict_find fuel_types "natural_gas" = Some config
          /\ fuel_calculations env random_random "natural_gas" config current_generation_mw
               base_generation heat_rate_kcal_per_kwh run_hours e = (inr (Some g), e')
          /\ fuel_unit_ g = "1000Nm3"
          /\ co2_saved g
             = fdiv (fmul (fsub (fuel_used_current_ g) (fuel_used_recommended g)) (lit 2.0))
                    (lit 1000)).

(** *** Concrete inputs *)

(** A plant on a fuel the engine has no coefficients for, at reference
    weather. *)
Definition biomass {F} `{PyFloat F} : input_data F :=
  {| inputs := {| fuel_type := "biomass"; max_capacity_mw := lit 150; run_hours := lit 20;
                  fuel_used_current := lit 9000 |};
     temp_C := lit 25; humidity := lit 40; pressure_hPa := lit 1013.25 |}.

(** The plant of the scenario reporting a fuel use of 100, below the
    recommended one. *)
Definition low_use : input_data Q :=
  {| inputs := {| fuel_type := "coal"; max_capacity_mw := 150; run_hours := 20;
                  fuel_used_current := 100 |};
     temp_C := 30; humidity := 50; pressure_hPa := 1010 |}%Q.

Definition two_days {F} `{PyFloat F} : list (forecast_day F) :=
  [{| date := "2026-11-03"; day_temp_C := lit 30; day_humidity := lit 50;
      day_pressure_hPa := lit 1010 |};
   {| date := "2026-11-04"; day_temp_C := lit 20; day_humidity := lit 40;
      day_pressure_hPa := lit 1013 |}].

(** A coal plant of 100 MW that reports a fuel use of 100, and a day of
    the reference weather. *)
Definition small_plant {F} `{PyFloat F} : sample_input F :=
  {| fuel_type := "coal"; max_capacity_mw := lit 100; run_hours := lit 20;
     fuel_used_current := lit 100 |}.

Definition reference_day {F} `{PyFloat F} : forecast_day F :=
  {| date := "2026-11-03"; day_temp_C := lit 25; day_humidity := lit 40;
     day_pressure_hPa := lit 1013.25 |}.

(** A sample of a fuel type, all figures zero but the capacity and the
    generation. *)
Definition sample_row (fuel : string) : OperatingSample Q :=
  {| s_timestamp := 215827200; s_fuel_type := fuel; s_max_capacity_mw := 300;
     s_current_generation_mw := 210; s_run_hours := 20; s_temp_C := 0; s_humidity := 0;
     s_pressure_hPa := 0; s_predicted_efficiency := 0; s_recommended_generation_mw := 0;
     s_adjustment_pct := 0; s_fuel_per_kwh := 0; s_fuel_unit := "ton";
     s_heat_rate_kcal_per_kwh := 0; s_fuel_used_current := 0; s_fuel_used_recommended := 0;
     s_fuel_saved := 0; s_fuel_cost_per_unit := 0; s_cost_saved := 0;
     s_co2_saved_tonnes := 0 |}%Q.

Definition small_rows : list (OperatingSample Q) :=
  replicate 5 (sample_row "coal") ++ replicate 4 (sample_row "oil").

(** A sample store of five coal samples and four oil samples, and no model
    on file; a model is stood for by the number of rows it was fitted on. *)
Definition small_store : world Q nat :=
  {| fs := {[ CSV_FILE := CsvFile HEADERS small_rows ]}; stdout := [] |}.

(** Stand-ins for scikit-learn in the concrete runs: a split that keeps
    every row for training, a fit that counts its rows, a score of zero. *)
Definition split_all_train (X : list (list Q)) (y : list Q) (test_size : Q) (seed : Z)
    : list (list Q) * list (list Q) * list Q * list Q := (X, [], y, []).
Definition fit_count (params : RandomForestRegressor) (X : list (list Q)) (y : list Q) : nat :=
  length X.
Definition score_zero (y_true y_pred : list Q) : Q := 0%Q.
Definition predict_zero (m : nat) (x : list Q) : Q := 0%Q.

(** * The rest of the programs *)

(** ** predict_user.py: the location *)

(** [s.split(",")] *)
Fixpoint split_comma (s : string) : list string :=
  match s with
  | EmptyString => [EmptyString]
  | String c s' =>
      if String.eqb (String c EmptyString) "," then EmptyString :: split_comma s'
      else match split_comma s' with
           | part :: parts => String c part :: parts
           | [] => [String c EmptyString]
           end
  end.

Section Location.
Context {F : Type} `{PyFloat F}.

(** [float(s)] on a string: the number it denotes, if it denotes one. *)
Variable float_of_str : string -> option F.

(** [float(s)]; the [ValueError] of a string that is no number is held as
    [CannotConvert], as is that of an unpacking below. *)
Definition py_float {S} (s : string) : M S F :=
  match float_of_str s with
  | Some x => mret x
  | None => raise CannotConvert
  end.

(** [lat, lon = map(float, parts)]: the map is lazy, so a part is converted
    when the unpacking asks for it, a third one included. *)
Definition unpack_two_floats {S} (parts : list string) : M S (F * F) :=
  match parts with
  | [] => raise CannotConvert
  | a :: parts' =>
      lat ← py_float a;
      match parts' with
      | [] => raise CannotConvert
      | b :: parts'' =>
          lon ← py_float b;
          match parts'' with
          | [] => mret (lat, lon)
          | c :: _ => _ ← py_float c; raise CannotConvert
          end
      end
  end.

(** [get_gps_location], the request being a parameter: what [requests.get],
    [raise_for_status] and [json] give, an error or the strings of the
    answer by key. *)
Definition get_gps_location (ipinfo : exn + pydict string) : exn + (F * F) :=
  fst (try_except
         (data ← lift_result ipinfo;
          loc ← dict_item data "loc";
          unpack_two_floats (split_comma loc))
         (fun e => raise RuntimeError) tt).

End Location.

(** ** predict_user.py: the forecast read off the answer of Open-Meteo *)

(** The JSON answer, as far as [fetch_weather_forecast] reads it: the
    object under ["daily"] if there is one, in it the dates under ["time"]
    if there are any, and its arrays of numbers by key. *)
Record daily_json (F : Type) := {
  daily_time : option (list string);
  daily_series : pydict (list F);
}.
Arguments daily_time {F}.
Arguments daily_series {F}.

Record weather_json (F : Type) := { daily : option (daily_json F) }.
Arguments daily {F}.

(** [d[key]] for a key that may be missing. *)
Definition json_item {S A} (o : option A) (key : string) : M S A :=
  match o with
  | Some x => mret x
  | None => raise (KeyError key)
  end.

Section Weather.
Context {F : Type} `{PyFloat F}.

#[local] Open Scope py_scope.

(** One turn of the loop of [fetch_weather_forecast]: the entry of day [i]. *)
Definition forecast_entry {S} (daily : daily_json F) (daily_times : list string) (i : nat)
    : M S (forecast_day F) :=
  date ← list_item daily_times i;
  temp_max ← dict_item (daily_series daily) "temperature_2m_max";
  a ← list_item temp_max i;
  temp_min ← dict_item (daily_series daily) "temperature_2m_min";
  b ← list_item temp_min i;
  let temp := (a + b) / lit 2 in
  humidity_max ← dict_item (daily_series daily) "relative_humidity_2m_max";
  c ← list_item humidity_max i;
  humidity_min ← dict_item (daily_series daily) "relative_humidity_2m_min";
  d ← list_item humidity_min i;
  let humidity := (c + d) / lit 2 in
  pressure ← list_item
    (dict_get (daily_series daily) "pressure_msl" (replicate (length daily_times) (lit 1013))) i;
  mret {| date := date; day_temp_C := temp; day_humidity := humidity;
          day_pressure_hPa := pressure |}.

Fixpoint forecast_loop {S} (daily : daily_json F) (daily_times : list string)
    (indices : list nat) (forecast : list (forecast_day F)) : M S (list (forecast_day F)) :=
  match indices with
  | [] => mret forecast
  | i :: indices' =>
      entry ← forecast_entry daily daily_times i;
      forecast_loop daily daily_times indices' (forecast ++ [entry])%list
  end.

(** [range(min(days, len(daily_times)))] *)
Definition forecast_range (days : Z) (daily_times : list string) : list nat :=
  seq 0 (Z.to_nat (Z.min days (Z.of_nat (length daily_times)))).

(** Lines 29 to 47 of [fetch_weather_forecast]: the forecast read off the
    answer [data]. *)
Definition forecast_from_json (data : weather_json F) (days : Z)
    : exn + list (forecast_day F) :=
  fst ((daily ← json_item (daily data) "daily";
        daily_times ← json_item (daily_time daily) "time";
        forecast_loop daily daily_times (forecast_range days daily_times) []) tt).

(** [fetch_weather_forecast], the request being a parameter: what
    [requests.get], [raise_for_status] and [json] give for a location. *)
Definition fetch_weather_forecast (http_get : F -> F -> exn + weather_json F)
    (lat lon : F) (days : Z) : exn + list (forecast_day F) :=
  match http_get lat lon with
  | inl e => inl e
  | inr data => forecast_from_json data days
  end.

(** The arrays the loop indexes are there, [n] long or longer. *)
Definition arrays_cover (daily : daily_json F) (n : nat) : Prop :=
  (forall key, key ∈ ["temperature_2m_max"; "temperature_2m_min";
                      "relative_humidity_2m_max"; "relative_humidity_2m_min"] ->
     exists arr, dict_find (daily_series daily) key = Some arr /\ (n <= length arr)%nat)
  /\ (forall arr, dict_find (daily_series daily) "pressure_msl" = Some arr ->
        (n <= length arr)%nat).

End Weather.

(** ** tester.py *)

Module tester.

(** The models to test: the label of the fuel and the file of its model. *)
Definition MODEL_FILES : pydict string :=
  [("Coal", "model_coal.joblib");
   ("Oil", "model_oil.joblib");
   ("Natural Gas", "model_natural_gas.joblib")].

Section Script.
Context {F : Type} `{PyFloat F}.
Variable Model : Type.
Variable predict : Model -> list F -> F.

#[local] Open Scope py_scope.

(** The one row of the frame [sample_input], under the columns
    [max_capacity_mw], [run_hours], [temp_C], [humidity_%], [pressure_hPa]. *)
Definition sample_input : list F := [lit 150; lit 20; lit 30; lit 50; lit 1010].

Definition current_generation : F := lit 200.0.

(** What the script prints: the line of a missing file, or the block of a
    model (the sample, the prediction, the generation it is compared with,
    the difference and its percentage). *)
Inductive line :=
| ModelFileNotFound (fuel model_file : string)
| ModelResult (fuel : string) (sample : list F)
    (predicted current diff diff_percent : F).

Definition print (l : line) : M (list line) unit := fun out => (inr tt, (out ++ [l])%list).

(** The body of the loop, over the files [files] the script finds; it
    writes to none. *)
Definition test_model (files : gmap string (file F Model)) (fuel model_file : string)
    : M (list line) unit :=
  match files !! model_file with
  | None => print (ModelFileNotFound fuel model_file)
  | Some f =>
      model ← match f with
              | JoblibFile m => mret m
              | _ => raise (LoadError model_file)
              end;
      predicted ← list_item (map (predict model) [sample_input]) 0;
      let diff := current_generation - predicted in
      let diff_percent := (diff / current_generation) * lit 100 in
      print (ModelResult fuel sample_input predicted current_generation diff diff_percent)
  end.

Definition run (files : gmap string (file F Model)) : M (list line) unit :=
  for_each MODEL_FILES (fun '(fuel, model_file) => test_model files fuel model_file).

End Script.

Arguments line F : clear implicits.
Arguments ModelFileNotFound {F}.
Arguments ModelResult {F}.

End tester.

(** ** test_model.py *)

Module test_model.

Definition MODEL_FILE : string := "coal_adjustment_model.joblib".

Section Script.
Context {F : Type} `{PyFloat F} `{PyRound F}.
Variable Model : Type.
Variable predict : Model -> list F -> F.

(** The state behind [random], with [random.random()], [random.randint]
    and the index [random.choice] draws for a sequence of a given length;
    the metrics of scikit-learn and the functions of numpy. *)
Variable env : Type.
Variable random_random : M env F.
Variable random_randint : Z -> Z -> M env Z.
Variable random_randbelow : nat -> M env nat.
Variable mean_absolute_error : list F -> list F -> F.
Variable mean_squared_error : list F -> list F -> F.
Variable r2_score : list F -> list F -> F.
Variable np_sqrt : F -> F.
Variable np_mean : list F -> F.

#[local] Open Scope py_scope.

Record plant_type_config := {
  efficiency_range : F * F;
  heat_rate_range : F * F;
}.

Definition plant_types : pydict plant_type_config := [
  ("subcritical",
   {| efficiency_range := (lit 0.32, lit 0.38); heat_rate_range := (lit 2400, lit 2600) |});
  ("supercritical",
   {| efficiency_range := (lit 0.38, lit 0.42); heat_rate_range := (lit 2200, lit 2400) |});
  ("ultra_supercritical",
   {| efficiency_range := (lit 0.42, lit 0.46); heat_rate_range := (lit 2000, lit 2200) |})
].

(** [random.choice(seq)]: the element at the index drawn below [len(seq)]. *)
Definition random_choice {A} (seq : list A) : M env A :=
  i ← random_randbelow (length seq);
  list_item seq i.

Definition generate_plant_config : M env (string * F * plant_type_config) :=
  plant_type ← random_choice (map fst plant_types);
  config ← dict_item plant_types plant_type;
  max_capacity ←
    (if String.eqb plant_type "subcritical" then
       random_uniform env random_random (lit 200) (lit 500)
     else if String.eqb plant_type "supercritical" then
       random_uniform env random_random (lit 300) (lit 600)
     else
       random_uniform env random_random (lit 400) (lit 800));
  mret (plant_type, max_capacity, config).

Definition calculate_efficiency_from_physics (temp_C humidity pressure_hPa : F)
    (run_hours : Z) (plant_type : string) : M env F :=
  config ← dict_item plant_types plant_type;
  let base_efficiency := snd (efficiency_range config) in
  let temp_factor := lit 1 - lit 0.002 * (temp_C - lit 25) in
  let humidity_factor := lit 1 - lit 0.001 * (humidity - lit 40) in
  let pressure_factor := lit 1 + lit 0.0005 * (pressure_hPa - lit 1013.25) in
  let hours_factor := lit 1 + lit 0.0001 * of_int (run_hours - 12) in
  degradation_factor ← random_uniform env random_random (lit 0.95) (lit 1.0);
  let efficiency := base_efficiency * temp_factor * humidity_factor * pressure_factor
                    * hours_factor * degradation_factor in
  noise ← random_uniform env random_random (lit 0.98) (lit 1.02);
  let efficiency := efficiency * noise in
  config ← dict_item plant_types plant_type;
  let '(min_eff, max_eff) := efficiency_range config in
  let efficiency := py_max min_eff (py_min max_eff efficiency) in
  mret (py_round efficiency 4).

(** A row of the frame [generate_realistic_data] returns. *)
Record row := {
  max_capacity_mw : F;
  current_generation_mw : F;
  run_hours : Z;
  temp_C : F;
  humidity : F;
  pressure_hPa : F;
  predicted_efficiency : F;
}.

(** The body of the loop of [generate_realistic_data]. *)
Definition generate_sample (data : list row) : M env (list row) :=
  '(plant_type, max_capacity_mw, config) ← generate_plant_config;
  temp_C ← random_uniform env random_random (lit 15) (lit 45);
  humidity ← random_uniform env random_random (lit 20) (lit 80);
  pressure_hPa ← random_uniform env random_random (lit 980) (lit 1030);
  run_hours ← random_randint 8 24;
  predicted_efficiency ←
    calculate_efficiency_from_physics temp_C humidity pressure_hPa run_hours plant_type;
  let base_generation := max_capacity_mw * predicted_efficiency in
  variation ← random_uniform env random_random (lit 0.85) (lit 1.15);
  let current_generation_mw := py_min max_capacity_mw (base_generation * variation) in
  heat_rate_kcal_per_kwh ← py_div (lit 860) predicted_efficiency;
  let coal_per_kwh_kg := heat_rate_kcal_per_kwh / lit 7000 in
  let coal_used_current_tonnes :=
    (current_generation_mw * of_int run_hours * coal_per_kwh_kg) / lit 1000 in
  let recommended_generation_mw := max_capacity_mw * predicted_efficiency in
  q ← py_div (recommended_generation_mw - current_generation_mw) max_capacity_mw;
  let adjustment_pct := q * lit 100 in
  let coal_used_recommended_tonnes :=
    (recommended_generation_mw * of_int run_hours * coal_per_kwh_kg) / lit 1000 in
  let coal_saved_tonnes := coal_used_current_tonnes - coal_used_recommended_tonnes in
  coal_cost_per_ton ← random_uniform env random_random (lit 5000) (lit 7000);
  let cost_saved := coal_saved_tonnes * coal_cost_per_ton in
  let co2_saved_tonnes := coal_saved_tonnes * lit 2.42 in
  mret (data ++ [{| max_capacity_mw := max_capacity_mw;
                    current_generation_mw := current_generation_mw;
                    run_hours := run_hours;
                    temp_C := temp_C;
                    humidity := humidity;
                    pressure_hPa := pressure_hPa;
                    predicted_efficiency := predicted_efficiency |}])%list.

Fixpoint generate_samples (todo : nat) (data : list row) : M env (list row) :=
  match todo with
  | O => mret data
  | S todo' => data ← generate_sample data; generate_samples todo' data
  end.

Definition generate_realistic_data (num_samples : Z) : M env (list row) :=
  generate_samples (Z.to_nat num_samples) [].

Record metrics := {
  MAE : F;
  MSE : F;
  RMSE : F;
  R2_Score : F;
  Accuracy_Percentage : F;
}.

Definition evaluate_model_accuracy (model : Model) (X_test : list (list F)) (y_test : list F)
    : metrics :=
  let y_pred := map (predict model) X_test in
  let mae := mean_absolute_error y_test y_pred in
  let mse := mean_squared_error y_test y_pred in
  let rmse := np_sqrt mse in
  let r2 := r2_score y_test y_pred in
  let accuracy_pct :=
    (lit 1 - np_mean (map fabs (zip_with (fun y p => (y - p) / y) y_test y_pred)))
    * lit 100 in
  {| MAE := mae; MSE := mse; RMSE := rmse; R2_Score := r2;
     Accuracy_Percentage := accuracy_pct |}.

(** What [main] prints. *)
Inductive line :=
| Testing
| ModelLoaded
| ModelFileNotFound
| TestResult (number : Z) (r2 mae accuracy : F)
| AveragePerformance (r2 mae accuracy : F)
| Summary.

(** [main] runs on the state of [random] and on its output. *)
Record state := { rng : env; stdout : list line }.

Definition print (l : line) : M state unit := fun s =>
  (inr tt, {| rng := rng s; stdout := (stdout s ++ [l])%list |}).

Definition with_random {A} (c : M env A) : M state A := fun s =>
  match c (rng s) with
  | (r, e) => (r, {| rng := e; stdout := stdout s |})
  end.

(** The columns [features] of a row. *)
Definition features_of (r : row) : list F :=
  [max_capacity_mw r; current_generation_mw r; of_int (run_hours r); temp_C r; humidity r;
   pressure_hPa r].

(** The loop over [range(NUM_TESTS)], with the list [metrics_list]. *)
Fixpoint run_tests (model : Model) (tests : list Z) (metrics_list : list metrics)
    : M state (list metrics) :=
  match tests with
  | [] => mret metrics_list
  | i :: tests' =>
      test_data ← with_random (generate_realistic_data 200);
      let X_test := map features_of test_data in
      let y_test := map predicted_efficiency test_data in
      let metrics := evaluate_model_accuracy model X_test y_test in
      let metrics_list := (metrics_list ++ [metrics])%list in
      print (TestResult (i + 1) (R2_Score metrics) (MAE metrics) (Accuracy_Percentage metrics));;
      run_tests model tests' metrics_list
  end.

(** [main], over the files [files] it finds; [load] raises
    [FileNotFoundError] for a missing file only. *)
Definition main (files : gmap string (file F Model)) : M state unit :=
  print Testing;;
  match files !! MODEL_FILE with
  | None => print ModelFileNotFound
  | Some f =>
      model ← match f with
              | JoblibFile m => mret m
              | _ => raise (LoadError MODEL_FILE)
              end;
      print ModelLoaded;;
      let NUM_TESTS := 10%Z in
      metrics_list ← run_tests model (map Z.of_nat (seq 0 (Z.to_nat NUM_TESTS))) [];
      _ ← list_item metrics_list 0;
      let avg key := np_mean (map key metrics_list) in
      print (AveragePerformance (avg R2_Score) (avg MAE) (avg Accuracy_Percentage));;
      print Summary
  end.

End Script.

Arguments plant_type_config F : clear implicits.
Arguments row F : clear implicits.
Arguments metrics F : clear implicits.
Arguments line F : clear implicits.
Arguments state F env : clear implicits.
Arguments Testing {F}.
Arguments ModelLoaded {F}.
Arguments ModelFileNotFound {F}.
Arguments TestResult {F}.
Arguments AveragePerformance {F}.
Arguments Summary {F}.
Arguments rng {F env}.
Arguments stdout {F env}.
Arguments Build_state {F env}.

End test_model.

(** ** app.py *)

(** [d[k] = v]: the value of a key that is there is replaced in place, a
    new key goes last. *)
Fixpoint dict_set {V} (d : pydict V) (k : string) (v : V) : pydict V :=
  match d with
  | [] => [(k, v)]
  | (k', v') :: d' => if String.eqb k' k then (k', v) :: d' else (k', v') :: dict_set d' k v
  end.

Module app.

Section Routes.
Context {F : Type} `{PyFloat F}.
Variable Model : Type.
Variable predict : Model -> list F -> F.
Variable get_gps_location : exn + (F * F).
Variable fetch_weather_forecast : F -> F -> Z -> exn + list (forecast_day F).

(** [int(s)] on a string of the query: the integer, or the error raised. *)
Variable int_of_str : string -> exn + Z.

(** The query string of a request, by key. *)
Record request := { args : pydict string }.

(** An element of a row of [func1], which is a Python list of the date and
    six numbers. *)
Inductive cell :=
| Date (date : string)
| Number (x : F).

Definition cells (row : outcome F) : list cell := Date (fst row) :: map Number (snd row).

(** What [render_template] is called with. *)
Inductive template :=
| index_html
| performance_html (fuel gen co2 fuelsaved costsaved : cell)
| analytics_html (l : list (outcome F))
| predictions_html (l : list (outcome F)).

(** The state of the server for one client: the files and the output of
    [func1], what the routes print themselves, and the session. *)
Record state := {
  plant : world F Model;
  printed : list (list (outcome F));
  session : pydict (list (outcome F));
}.

Definition in_plant {A} (c : M (world F Model) A) : M state A := fun s =>
  match c (plant s) with
  | (r, w) => (r, {| plant := w; printed := printed s; session := session s |})
  end.

Definition print (l : list (outcome F)) : M state unit := fun s =>
  (inr tt, {| plant := plant s; printed := (printed s ++ [l])%list; session := session s |}).

Definition session_item (key : string) : M state (list (outcome F)) := fun s =>
  dict_item (session s) key s.

Definition session_set (key : string) (value : list (outcome F)) : M state unit := fun s =>
  (inr tt, {| plant := plant s; printed := printed s;
              session := dict_set (session s) key value |}).

Definition base : M state template := mret index_html.

Definition performance (request : request) : M state template :=
  fuel ← dict_item (args request) "fuel";
  runtime ← dict_item (args request) "runtime";
  runtime ← lift_result (int_of_str runtime);
  cap ← dict_item (args request) "cap";
  cap ← lift_result (int_of_str cap);
  cur ← dict_item (args request) "cur";
  cur ← lift_result (int_of_str cur);
  let inputs := {| fuel_type := fuel; max_capacity_mw := of_int cap;
                   run_hours := of_int runtime; fuel_used_current := of_int cur |} in
  result ← in_plant (func1 Model predict get_gps_location fetch_weather_forecast inputs);
  session_set "result" result;;
  result ← session_item "result";
  print result;;
  result ← session_item "result";
  outputs ← list_item result 0;
  fuel ← list_item (cells outputs) 2;
  gen ← list_item (cells outputs) 1;
  co2 ← list_item (cells outputs) 5;
  fuelsaved ← list_item (cells outputs) 3;
  costsaved ← list_item (cells outputs) 4;
  mret (performance_html fuel gen co2 fuelsaved costsaved).

Definition analytics : M state template :=
  outputs ← session_item "result";
  mret (analytics_html outputs).

Definition predictions : M state template :=
  outputs ← session_item "result";
  mret (predictions_html outputs).

End Routes.

Arguments request : clear implicits.
Arguments cell F : clear implicits.
Arguments template F : clear implicits.
Arguments state F Model : clear implicits.
Arguments Date {F}.
Arguments Number {F}.
Arguments index_html {F}.
Arguments performance_html {F}.
Arguments analytics_html {F}.
Arguments predictions_html {F}.
Arguments plant {F Model}.
Arguments printed {F Model}.
Arguments session {F Model}.
Arguments Build_state {F Model}.

End app.

(** ** Definitions the further statements use *)

(** What a row of [generate_realistic_data] satisfies in exact arithmetic,
    under the profile of its fuel type: capacity and humidity in the ranges
    drawn from, hours between 12 and 24, efficiency within the noise and the
    rounding of the range of the profile. *)
Definition generated_row (r : OperatingSample Q) : Prop :=
  exists config : fuel_config Q,
    dict_find fuel_types (s_fuel_type r) = Some config
    /\ (fst (capacity_range config) <= s_max_capacity_mw r <= snd (capacity_range config))%Q
    /\ (30 <= s_humidity r <= 70)%Q
    /\ (12 <= s_run_hours r <= 24)%Z
    /\ (0.995 * fst (efficiency_range config) - 0.00005 <= s_predicted_efficiency r
        <= 1.005 * snd (efficiency_range config) + 0.00005)%Q.

(** What a row needs of the profile of its fuel type: positive capacities
    with two decimals at most, a minimal efficiency of 0.001 or more, below
    the maximal one, and a fuel for which the branch on the fuel type has a
    result. *)
Definition sound_profile (env : Type) (random_random : M env Q) (fuel : string)
    (config : fuel_config Q) : Prop :=
  dict_find fuel_types fuel = Some config
  /\ (exists a b : Z,
        (fst (capacity_range config) == inject_Z a / 100)%Q
        /\ (snd (capacity_range config) == inject_Z b / 100)%Q
        /\ (0 < a <= b)%Z)
  /\ (0.001 <= fst (efficiency_range config) <= snd (efficiency_range config))%Q
  /\ forall cur base rate hours e u e',
       random_random e = (inr u, e') ->
       exists g, fuel_calculations env random_random fuel config cur base rate hours e
                 = (inr (Some g), e').

(** What a row of the test data of [test_model.py] satisfies in exact
    arithmetic: the ranges drawn from, a generation that is positive and at
    most the capacity, and an efficiency within the ranges of the plant
    types. *)
Definition generated_test_row (r : test_model.row Q) : Prop :=
  (200 <= test_model.max_capacity_mw r <= 800)%Q
  /\ (0 < test_model.current_generation_mw r <= test_model.max_capacity_mw r)%Q
  /\ (8 <= test_model.run_hours r <= 24)%Z
  /\ (15 <= test_model.temp_C r <= 45)%Q
  /\ (20 <= test_model.humidity r <= 80)%Q
  /\ (980 <= test_model.pressure_hPa r <= 1030)%Q
  /\ (0.32 <= test_model.predicted_efficiency r <= 0.46)%Q.

(** The line of a test of [test_model.py], by its index and its metrics. *)
Definition test_result {F} (i : nat) (m : test_model.metrics F) : test_model.line F :=
  test_model.TestResult (Z.of_nat i + 1) (test_model.R2_Score m) (test_model.MAE m)
    (test_model.Accuracy_Percentage m).

(** [m] is what [evaluate_model_accuracy] gives [model] on 200 rows of
    test data, with their efficiencies as the labels. *)
Definition measured_on_test_data (Model : Type) (predict : Model -> list Q -> Q)
    (mean_absolute_error mean_squared_error r2_score : list Q -> list Q -> Q)
    (np_sqrt : Q -> Q) (np_mean : list Q -> Q) (model : Model) (m : test_model.metrics Q)
    : Prop :=
  exists rows : list (test_model.row Q),
    length rows = 200%nat
    /\ Forall generated_test_row rows
    /\ m = test_model.evaluate_model_accuracy Model predict mean_absolute_error
              mean_squared_error r2_score np_sqrt np_mean model
              (map test_model.features_of rows) (map test_model.predicted_efficiency rows).

(** *** Further concrete inputs *)

(** An answer of Open-Meteo with three days and no pressure. *)
Definition three_day_answer {F} `{PyFloat F} : weather_json F :=
  {| daily := Some {|
       daily_time := Some ["2026-11-03"; "2026-11-04"; "2026-11-05"];
       daily_series := [("temperature_2m_max", [lit 32; lit 22; lit 25]);
                        ("temperature_2m_min", [lit 28; lit 18; lit 21]);
                        ("relative_humidity_2m_max", [lit 60; lit 50; lit 55]);
                        ("relative_humidity_2m_min", [lit 40; lit 30; lit 35])] |} |}.

(** A sine that is zero everywhere, for the concrete runs. *)
Definition sin_zero (x : Q) : Q := 0%Q.

(** The two days of [two_days], in exact arithmetic. *)
Definition hot_day : forecast_day Q :=
  {| date := "2026-11-03"; day_temp_C := 30; day_humidity := 50; day_pressure_hPa := 1010 |}%Q.
Definition mild_day : forecast_day Q :=
  {| date := "2026-11-04"; day_temp_C := 20; day_humidity := 40; day_pressure_hPa := 1013 |}%Q.

(** Stand-ins for [random.randint] and [datetime.now()] in the concrete
    runs: the lower bound, and 2026-11-03 00:00:00. *)
Definition randint_low (a b : Z) : M unit Z := fun e => (inr a, e).
Definition now_fixed : M unit datetime := fun e => (inr 215827200%Z, e).

(** A stand-in for the index [random.choice] draws: the first. *)
Definition randbelow_zero (n : nat) : M unit nat := fun e => (inr 0%nat, e).

(** A store of files with a model under the name [test_model.py] loads,
    stand-ins for the mean and the square root, and a client that has asked
    for nothing yet, for the concrete runs. *)
Definition model_on_file : gmap string (file Q nat) :=
  {[ test_model.MODEL_FILE := JoblibFile 5%nat ]}.
Definition mean_zero (l : list Q) : Q := 0%Q.
Definition sqrt_zero (x : Q) : Q := 0%Q.
Definition fresh_client : app.state Q unit :=
  {| app.plant := empty_world; app.printed := []; app.session := [] |}.

(** The query of a request for the plant of the scenario, and a reading of
    its three numbers, for the concrete runs. *)
Definition scenario_request : app.request :=
  {| app.args := [("fuel", "coal"); ("runtime", "20"); ("cap", "150"); ("cur", "9000")] |}.

Definition int_of_scenario (s : string) : exn + Z :=
  if String.eqb s "20" then inr 20%Z
  else if String.eqb s "150" then inr 150%Z
  else if String.eqb s "9000" then inr 9000%Z
  else inl CannotConvert.

(** A reading of two numbers, and an answer of ipinfo.io, for the concrete
    runs. *)
Definition float_of_chennai (s : string) : option Q :=
  if String.eqb s "13.0878" then Some 13.0878%Q
  else if String.eqb s "80.2785" then Some 80.2785%Q
  else None.

Definition ipinfo_chennai : exn + pydict string :=
  inr [("city", "Chennai"); ("loc", "13.0878,80.2785")].

(** * Properties *)

(** ** The order laws of the two instances *)

Lemma SFcompare_refl (x : spec_float) : x <> S754_nan -> SFcompare x x = Some Eq.
Proof.
  destruct x as [s|s| |s m e]; simpl; try congruence; intros _.
  - destruct s; reflexivity.
  - destruct s; rewrite Z.compare_refl, Pos.compare_cont_refl; reflexivity.
Qed.

Lemma SFleb_not_nan (x y : spec_float) :
  SFleb x y = true -> x <> S754_nan /\ y <> S754_nan.
Proof.
  unfold SFleb. destruct x, y; simpl; try discriminate; split; discriminate.
Qed.

Lemma SFleb_refl (x : spec_float) : x <> S754_nan -> SFleb x x = true.
Proof. intros Hx. unfold SFleb. rewrite (SFcompare_refl x Hx). reflexivity. Qed.

#[export] Instance float_order : PyOrder float.
Proof.
  split; simpl; intros a b.
  - rewrite ltb_spec, leb_spec. unfold SFltb, SFleb.
    destruct (SFcompare (Prim2SF a) (Prim2SF b)) as [[]|]; congruence.
  - rewrite !leb_spec. intros Hab. apply SFleb_refl, (SFleb_not_nan _ _ Hab).
  - rewrite !leb_spec. intros Hab. apply SFleb_refl, (SFleb_not_nan _ _ Hab).
Qed.

#[export] Instance Q_order : PyOrder Q.
Proof.
  split; simpl; intros a b.
  - intros Hlt. apply Qle_bool_iff. apply negb_true_iff in Hlt.
    destruct (Qlt_le_dec a b) as [Hab|Hba]; [apply Qlt_le_weak, Hab|].
    apply Qle_bool_iff in Hba. congruence.
  - intros _. apply Qle_bool_iff, Qle_refl.
  - intros _. apply Qle_bool_iff, Qle_refl.
Qed.

(** Running a computation of [M] one step. *)
Ltac run := unfold mbind, M_bind, mret, M_ret, lift_result, print, raise, dict_item in *;
            simpl in *.

(** ** The inference engine *)

Section Engine.
Context {F : Type} `{PyFloat F}.
Variable Model : Type.
Variable predict : Model -> list F -> F.

#[local] Open Scope py_scope.

Lemma current_generation_mw_no_model (d : input_data F) (w : world F Model) :
  fs w !! ("model_" +:+ fuel_type d +:+ ".joblib") = None ->
  current_generation_mw Model predict d w
  = (inr (max_capacity_mw d * lit 0.7), say w (NoModelFound (fuel_type d))).
Proof.
  intros Hnone. unfold current_generation_mw, try_except, joblib_load, mbind, M_bind.
  rewrite Hnone. reflexivity.
Qed.

Lemma current_generation_mw_loaded (d : input_data F) (w : world F Model) (m : Model) :
  fs w !! ("model_" +:+ fuel_type d +:+ ".joblib") = Some (JoblibFile m) ->
  current_generation_mw Model predict d w
  = (inr (predict m [max_capacity_mw d; run_hours d; temp_C d; humidity d; pressure_hPa d]), w).
Proof.
  intros Hsome. unfold current_generation_mw, try_except, joblib_load, mbind, M_bind.
  rewrite Hsome. reflexivity.
Qed.

(** The prediction never raises, and changes nothing but the output. *)
Lemma current_generation_mw_returns (d : input_data F) (w : world F Model) :
  exists x out, current_generation_mw Model predict d w
                = (inr x, {| fs := fs w; stdout := stdout w ++ out |}).
Proof.
  destruct (fs w !! ("model_" +:+ fuel_type d +:+ ".joblib")) as [[|cols rows|m]|] eqn:E.
  1,2: unfold current_generation_mw, try_except, joblib_load, mbind, M_bind;
       rewrite E; simpl; eexists _, [_]; reflexivity.
  - rewrite (current_generation_mw_loaded d w m E). exists (predict m
      [max_capacity_mw d; run_hours d; temp_C d; humidity d; pressure_hPa d]), [].
    rewrite app_nil_r. destruct w; reflexivity.
  - rewrite (current_generation_mw_no_model d w E). eexists _, [_]. reflexivity.
Qed.

Lemma predict_outputs_returns (d : input_data F) (w : world F Model) :
  exists out, predict_outputs Model predict d w
              = (inr (recommended_outputs d), {| fs := fs w; stdout := stdout w ++ out |}).
Proof.
  destruct (current_generation_mw_returns d w) as (x & out & E).
  exists out. unfold predict_outputs, mbind, M_bind. rewrite E. reflexivity.
Qed.

Lemma predict_outputs_value (d : input_data F) (w : world F Model) :
  fst (predict_outputs Model predict d w) = inr (recommended_outputs d).
Proof. destruct (predict_outputs_returns d w) as (out & ->). reflexivity. Qed.

Lemma dict_get_other {V} (d : pydict V) (k : string) (default : V) :
  k ∉ map fst d -> dict_get d k default = default.
Proof.
  unfold dict_get. induction d as [|[k' v] d IH]; simpl; [reflexivity|].
  intros Hk. destruct (String.eqb_spec k' k) as [->|Hne].
  - exfalso. apply Hk. left.
  - apply IH. intros Hin. apply Hk. right. exact Hin.
Qed.

(** C3. With no model file for the fuel type, the engine raises nothing:
    the prediction is that of the fallback, 0.7 times the capacity, a
    warning is printed, and the dict returned has all six keys. *)
Theorem missing_model_falls_back (d : input_data F) (w : world F Model) :
  fs w !! ("model_" +:+ fuel_type d +:+ ".joblib") = None ->
  current_generation_mw Model predict d w
  = (inr (max_capacity_mw d * lit 0.7), say w (NoModelFound (fuel_type d)))
  /\ exists outputs,
       predict_outputs Model predict d w = (inr outputs, say w (NoModelFound (fuel_type d)))
       /\ map fst outputs = output_keys
       /\ forall k, k ∈ output_keys -> is_Some (dict_find outputs k).
Proof.
  intros Hnone. pose proof (current_generation_mw_no_model d w Hnone) as E.
  split; [exact E|]. exists (recommended_outputs d). split; [|split].
  - unfold predict_outputs, mbind, M_bind. rewrite E. reflexivity.
  - reflexivity.
  - intros k Hk. unfold output_keys in Hk.
    repeat (apply elem_of_cons in Hk as [->|Hk]; [eexists; reflexivity|]).
    inversion Hk.
Qed.

(** C4. A fuel type other than the three known ones is not rejected: the
    engine returns the outputs computed with base efficiency 0.40, 0.3
    fuel per kWh, a cost of 500 per unit and a CO2 factor of 2.5. *)
Theorem unknown_fuel_uses_defaults (d : input_data F) (w : world F Model) :
  fuel_type d <> "coal" -> fuel_type d <> "oil" -> fuel_type d <> "natural_gas" ->
  let efficiency :=
    lit 0.40 * (lit 1 - lit 0.002 * (temp_C d - lit 25))
    * (lit 1 - lit 0.001 * (humidity d - lit 40))
    * (lit 1 + lit 0.0005 * (pressure_hPa d - lit 1013.25)) in
  let generation := max_capacity_mw d * efficiency in
  let fuel_use := generation * lit 1000 * run_hours d * lit 0.3 / lit 1000 in
  let saved := fuel_used_current d - fuel_use in
  exists w', predict_outputs Model predict d w
    = (inr [("recommended_generation_mw", generation);
            ("fuel_used_recommended", fuel_use);
            ("fuel_saved", saved);
            ("cost_saved", saved * lit 500);
            ("co2_saved_tonnes", saved * lit 2.5);
            ("recommended_efficiency", efficiency)], w').
Proof.
  intros Hc Ho Hg. cbv zeta.
  destruct (predict_outputs_returns d w) as (out & ->). eexists. f_equal. f_equal.
  assert (Hk : forall V (a b c : V), fuel_type d ∉ map fst [("coal", a); ("oil", b); ("natural_gas", c)]).
  { intros V a b c Hin. simpl in Hin.
    repeat (apply elem_of_cons in Hin as [Hin|Hin]; [congruence|]). inversion Hin. }
  unfold recommended_outputs, calc_recommended_efficiency.
  rewrite !dict_get_other by apply Hk. reflexivity.
Qed.

(** The four entries of the outputs that the savings are made of. *)
Lemma recommended_outputs_savings (d : input_data F) :
  exists recommended : F,
    dict_find (recommended_outputs d) "fuel_used_recommended" = Some recommended
    /\ dict_find (recommended_outputs d) "fuel_saved"
       = Some (fuel_used_current d - recommended)
    /\ dict_find (recommended_outputs d) "cost_saved"
       = Some ((fuel_used_current d - recommended)
               * dict_get [("coal", lit 6000); ("oil", lit 700); ("natural_gas", lit 300)]
                   (fuel_type d) (lit 500))
    /\ dict_find (recommended_outputs d) "co2_saved_tonnes"
       = Some ((fuel_used_current d - recommended)
               * dict_get [("coal", lit 2.42); ("oil", lit 2.96); ("natural_gas", lit 2.0)]
                   (fuel_type d) (lit 2.5)).
Proof. eexists. repeat split; reflexivity. Qed.

End Engine.

(** *** Efficiencies and the scenario of the specification *)

(** C1, refuted as stated.  In binary64 and in exact arithmetic alike, the
    generator returns an efficiency below the minimum of the oil profile
    (0.36 clipped, then scaled by the noise 0.9975 and rounded to 0.3591),
    and the engine estimates one above its maximum (0.42 * 1.01). *)
Lemma efficiency_leaves_range : leaves_range float /\ leaves_range Q.
Proof.
  split; eexists; (split; [reflexivity|]); (split; [|split]).
  - eexists. split; [vm_compute; reflexivity|]. split; [vm_compute; reflexivity|].
    intros [Hlo _]. vm_compute in Hlo. discriminate.
  - vm_compute. reflexivity.
  - intros [_ Hhi]. vm_compute in Hhi. discriminate.
  - eexists. split; [vm_compute; reflexivity|]. split; [vm_compute; reflexivity|].
    intros [Hlo _]. vm_compute in Hlo. discriminate.
  - vm_compute. reflexivity.
  - intros [_ Hhi]. vm_compute in Hhi. discriminate.
Qed.

Section Clamp.
Context {F : Type} `{PyOrder F} `{!PyRound F}.

#[local] Open Scope py_scope.

Lemma clip_in_range (lo hi x : F) :
  fleb lo hi = true ->
  fleb lo (py_max lo (py_min hi x)) = true /\ fleb (py_max lo (py_min hi x)) hi = true.
Proof.
  intros Hrange. unfold py_max, py_min.
  destruct (fltb x hi) eqn:Hx; destruct (fltb lo _) eqn:Hlo;
    eauto using fltb_fleb, fleb_refl_l, fleb_refl_r.
Qed.

(** C1, as amended.  In a profile whose minimum is at most its maximum,
    the efficiency [calculate_efficiency] holds after its clipping line
    lies in the range of the profile, whatever the inputs; the value it
    returns is that one times the noise, rounded to 4 places.  The estimate
    of the engine is the product of its base efficiency and three factors,
    with no clipping. *)
Theorem clipped_efficiency_in_range (config : fuel_config F)
    (temp_C humidity pressure_hPa : F) (run_hours : Z) (timestamp : datetime)
    (load_factor : F) :
  fleb (fst (efficiency_range config)) (snd (efficiency_range config)) = true ->
  in_efficiency_range config
    (clipped_efficiency config temp_C humidity pressure_hPa run_hours timestamp load_factor)
  /\ (forall env (random_random : M env F) e,
        calculate_efficiency env random_random config temp_C humidity pressure_hPa
          run_hours timestamp load_factor e
        = (noise ← random_uniform env random_random (lit 0.995) (lit 1.005);
           mret (py_round
                   (clipped_efficiency config temp_C humidity pressure_hPa run_hours
                      timestamp load_factor * noise) 4)) e)
  /\ (forall fuel,
        calc_recommended_efficiency fuel temp_C humidity pressure_hPa
        = dict_get [("coal", lit 0.38); ("oil", lit 0.42); ("natural_gas", lit 0.50)]
            fuel (lit 0.40)
          * (lit 1 - lit 0.002 * (temp_C - lit 25))
          * (lit 1 - lit 0.001 * (humidity - lit 40))
          * (lit 1 + lit 0.0005 * (pressure_hPa - lit 1013.25))).
Proof.
  intros Hrange. split; [|split; reflexivity].
  unfold in_efficiency_range, clipped_efficiency.
  destruct (efficiency_range config) as [min_eff max_eff]. simpl in *.
  apply clip_in_range, Hrange.
Qed.

End Clamp.

(** The three profiles of the generator have their minimum below their
    maximum, in binary64 and in exact arithmetic. *)
Lemma fuel_types_ranges_ordered :
  Forall (fun p => fleb (fst (efficiency_range (snd p))) (snd (efficiency_range (snd p))) = true)
    (fuel_types (F:=float))
  /\ Forall (fun p => fleb (fst (efficiency_range (snd p))) (snd (efficiency_range (snd p))) = true)
       (fuel_types (F:=Q)).
Proof. split; repeat constructor. Qed.

(** The clamp at the coal profile and the inputs of the scenario, in
    binary64. *)
Lemma clipped_efficiency_in_range_coal :
  exists config : fuel_config float,
    dict_find fuel_types "coal" = Some config
    /\ in_efficiency_range config
         (clipped_efficiency config 30%float 50%float 1010%float 20 215827200%Z 0.9%float).
Proof.
  eexists. split; [reflexivity|].
  eapply (clipped_efficiency_in_range (F:=float)). vm_compute. reflexivity.
Defined.

(** C2, refuted as stated: in the scenario the recommended efficiency is not
    0.3749 to four places and the recommended generation is not 56.24 MW to
    two, in exact arithmetic or in binary64. *)
Lemma scenario_is_not_0_3749 :
  (exists efficiency generation : Q,
     dict_find (recommended_outputs scenario) "recommended_efficiency" = Some efficiency
     /\ dict_find (recommended_outputs scenario) "recommended_generation_mw" = Some generation
     /\ ~ (0.37485 <= efficiency <= 0.37495)%Q
     /\ ~ (56.235 <= generation <= 56.245)%Q)
  /\ (exists efficiency generation : float,
        dict_find (recommended_outputs scenario) "recommended_efficiency" = Some efficiency
        /\ dict_find (recommended_outputs scenario) "recommended_generation_mw" = Some generation
        /\ PrimFloat.ltb efficiency 0.372%float = true
        /\ PrimFloat.ltb generation 55.78%float = true).
Proof.
  split.
  - eexists _, _. split; [reflexivity|]. split; [reflexivity|].
    split; intros [Hlo _]; vm_compute in Hlo; apply Hlo; reflexivity.
  - eexists _, _. split; [reflexivity|]. split; [reflexivity|].
    split; vm_compute; reflexivity.
Qed.

(** C2, as amended.  In the scenario the engine computes, in exact
    arithmetic, the efficiency 0.38 * 0.99 * 0.99 * 0.998375 = 0.37183278825,
    the generation 150 times that, 55.7749182375 MW, the recommended fuel use
    generation * 1000 * 20 * 0.35 / 1000 = 390.4244276625, and the savings
    9000 less that, times 6000, and times 2.42; in binary64 it returns the six
    floats below, with no model on file. *)
Theorem scenario_outputs :
  (exists efficiency generation fuel_use saved : Q,
     recommended_outputs scenario
     = [("recommended_generation_mw", generation); ("fuel_used_recommended", fuel_use);
        ("fuel_saved", saved); ("cost_saved", saved * 6000);
        ("co2_saved_tonnes", saved * 2.42); ("recommended_efficiency", efficiency)]%Q
     /\ (efficiency == 0.38 * (1 - 0.002 * 5) * (1 - 0.001 * 10) * (1 + 0.0005 * -3.25))%Q
     /\ (efficiency == 0.37183278825)%Q
     /\ (generation == 150 * efficiency)%Q /\ (generation == 55.7749182375)%Q
     /\ (fuel_use == generation * 1000 * 20 * 0.35 / 1000)%Q /\ (fuel_use == 390.4244276625)%Q
     /\ (saved == 9000 - fuel_use)%Q /\ (saved == 8609.5755723375)%Q
     /\ (saved * 6000 == 51657453.434025)%Q
     /\ (saved * 2.42 == 20835.17288505675)%Q)
  /\ predict_outputs unit (fun _ _ => 0%float) scenario empty_world
     = (inr [("recommended_generation_mw", 55.774918237499996%float);
             ("fuel_used_recommended", 390.42442766249997%float);
             ("fuel_saved", 8609.5755723375005%float);
             ("cost_saved", 51657453.434025005%float);
             ("co2_saved_tonnes", 20835.172885056749%float);
             ("recommended_efficiency", 0.37183278824999999%float)],
        say empty_world (NoModelFound "coal")).
Proof.
  split.
  - eexists _, _, _, _. split; [reflexivity|]. repeat split; vm_compute; reflexivity.
  - vm_compute. reflexivity.
Qed.

(** *** Savings *)

Section Savings.
Variable Model : Type.
Variable predict : Model -> list Q -> Q.

#[local] Open Scope Q_scope.

(** The cost per unit and the CO2 factor of the engine are positive for
    every fuel type, known or not. *)
Lemma engine_coefficients_positive (fuel : string) :
  0 < dict_get [("coal", 6000); ("oil", 700); ("natural_gas", 300)] fuel 500
  /\ 0 < dict_get [("coal", 2.42); ("oil", 2.96); ("natural_gas", 2.0)] fuel 2.5.
Proof.
  unfold dict_get, dict_find.
  destruct (String.eqb "coal" fuel), (String.eqb "oil" fuel), (String.eqb "natural_gas" fuel);
    split; reflexivity.
Qed.

Lemma Qmult_pos_sign (s k : Q) :
  0 < k -> (s < 0 <-> s * k < 0) /\ (0 < s <-> 0 < s * k).
Proof.
  intros Hk.
  assert (Hneg : s < 0 -> s * k < 0).
  { intros Hs. assert (0 < (- s) * k) by (apply Qmult_lt_0_compat; lra).
    assert (- s * k == - (s * k)) by ring. lra. }
  assert (Hpos : 0 < s -> 0 < s * k) by (intros Hs; apply Qmult_lt_0_compat; lra).
  assert (Hzero : s == 0 -> s * k == 0) by (intros ->; ring).
  repeat split; try assumption; intros Hsk;
    destruct (Q_dec s 0) as [[Hs|Hs]|Hs];
    try assumption; try (apply Hneg in Hs); try (apply Hpos in Hs);
    try (apply Hzero in Hs); lra.
Qed.

(** The savings in exact arithmetic: the three entries, the positive
    coefficients, and the signs. *)
Lemma savings_signs_exact (d : input_data Q) (w : world Q Model) :
  exists (outputs : pydict Q) (w' : world Q Model) (recommended saved cost co2 : Q),
    predict_outputs Model predict d w = (inr outputs, w')
    /\ dict_find outputs "fuel_used_recommended" = Some recommended
    /\ dict_find outputs "fuel_saved" = Some saved
    /\ dict_find outputs "cost_saved" = Some cost
    /\ dict_find outputs "co2_saved_tonnes" = Some co2
    /\ saved = fuel_used_current d - recommended
    /\ cost = saved * dict_get [("coal", 6000); ("oil", 700); ("natural_gas", 300)]
                        (fuel_type d) 500
    /\ co2 = saved * dict_get [("coal", 2.42); ("oil", 2.96); ("natural_gas", 2.0)]
                       (fuel_type d) 2.5
    /\ (saved < 0 <-> cost < 0) /\ (saved < 0 <-> co2 < 0)
    /\ (0 < saved <-> 0 < cost) /\ (0 < saved <-> 0 < co2)
    /\ (fuel_used_current d < recommended -> saved < 0 /\ cost < 0 /\ co2 < 0).
Proof.
  destruct (predict_outputs_returns Model predict d w) as (out & E).
  destruct (recommended_outputs_savings d) as (recommended & Hr & Hs & Hc & Ho).
  destruct (engine_coefficients_positive (fuel_type d)) as [Hcost Hco2].
  exists (recommended_outputs d). eexists.
  exists recommended, (fuel_used_current d - recommended).
  exists ((fuel_used_current d - recommended)
          * dict_get [("coal", 6000); ("oil", 700); ("natural_gas", 300)] (fuel_type d) 500).
  exists ((fuel_used_current d - recommended)
          * dict_get [("coal", 2.42); ("oil", 2.96); ("natural_gas", 2.0)] (fuel_type d) 2.5).
  split; [exact E|].
  split; [exact Hr|]. split; [exact Hs|]. split; [exact Hc|]. split; [exact Ho|].
  do 3 (split; [reflexivity|]).
  set (k := dict_get [("coal", 6000); ("oil", 700); ("natural_gas", 300)] _ _) in *.
  set (c := dict_get [("coal", 2.42); ("oil", 2.96); ("natural_gas", 2.0)] _ _) in *.
  clearbody k c. clear Hr Hs Hc Ho E.
  set (s := fuel_used_current d - recommended).
  assert (Hs : s == fuel_used_current d - recommended) by reflexivity. clearbody s.
  destruct (Qmult_pos_sign s k Hcost) as [Hk1 Hk2].
  destruct (Qmult_pos_sign s c Hco2) as [Hc1 Hc2].
  repeat split; intros; try tauto; try (apply Hk1; lra); try (apply Hc1; lra); lra.
Qed.

End Savings.

(** C10. The engine returns fuel saved = current use less recommended use,
    cost saved = fuel saved times the cost per unit of the fuel, CO2 saved =
    fuel saved times its CO2 factor, in every arithmetic; in exact arithmetic
    both coefficients are positive, so the three have the same sign, nothing
    is clamped at zero, and all three are negative whenever the current use is
    below the recommended one. *)
Theorem savings_share_sign :
  (forall (F : Type) (HF : PyFloat F) (Model : Type) (predict : Model -> list F -> F)
          (d : input_data F) (w : world F Model),
     exists (w' : world F Model) (recommended : F),
       predict_outputs Model predict d w = (inr (recommended_outputs d), w')
       /\ dict_find (recommended_outputs d) "fuel_used_recommended" = Some recommended
       /\ dict_find (recommended_outputs d) "fuel_saved"
          = Some (fsub (fuel_used_current d) recommended)
       /\ dict_find (recommended_outputs d) "cost_saved"
          = Some (fmul (fsub (fuel_used_current d) recommended)
                       (dict_get [("coal", lit 6000); ("oil", lit 700); ("natural_gas", lit 300)]
                          (fuel_type d) (lit 500)))
       /\ dict_find (recommended_outputs d) "co2_saved_tonnes"
          = Some (fmul (fsub (fuel_used_current d) recommended)
                       (dict_get [("coal", lit 2.42); ("oil", lit 2.96); ("natural_gas", lit 2.0)]
                          (fuel_type d) (lit 2.5))))
  /\ (forall (Model : Type) (predict : Model -> list Q -> Q) (d : input_data Q)
             (w : world Q Model),
        exists (outputs : pydict Q) (w' : world Q Model) (recommended saved cost co2 : Q),
          predict_outputs Model predict d w = (inr outputs, w')
          /\ dict_find outputs "fuel_used_recommended" = Some recommended
          /\ dict_find outputs "fuel_saved" = Some saved
          /\ dict_find outputs "cost_saved" = Some cost
          /\ dict_find outputs "co2_saved_tonnes" = Some co2
          /\ (saved = fuel_used_current d - recommended
              /\ cost = saved * dict_get [("coal", 6000); ("oil", 700); ("natural_gas", 300)]
                                  (fuel_type d) 500
              /\ co2 = saved * dict_get [("coal", 2.42); ("oil", 2.96); ("natural_gas", 2.0)]
                                 (fuel_type d) 2.5
              /\ 0 < dict_get [("coal", 6000); ("oil", 700); ("natural_gas", 300)]
                        (fuel_type d) 500
              /\ 0 < dict_get [("coal", 2.42); ("oil", 2.96); ("natural_gas", 2.0)]
                        (fuel_type d) 2.5
              /\ (saved < 0 <-> cost < 0) /\ (saved < 0 <-> co2 < 0)
              /\ (0 < saved <-> 0 < cost) /\ (0 < saved <-> 0 < co2)
              /\ (fuel_used_current d < recommended -> saved < 0 /\ cost < 0 /\ co2 < 0))%Q).
Proof.
  split.
  - intros F HF Model predict d w.
    destruct (predict_outputs_returns Model predict d w) as (out & E).
    destruct (recommended_outputs_savings d) as (recommended & Hr & Hs & Hc & Ho).
    eexists _, recommended. split; [exact E|]. repeat split; assumption.
  - intros Model predict d w.
    destruct (savings_signs_exact Model predict d w)
      as (outputs & w' & recommended & saved & cost & co2 & E & Hr & Hs & Hc & Ho & Hrest).
    destruct (engine_coefficients_positive (fuel_type d)) as [Hcost Hco2].
    exists outputs, w', recommended, saved, cost, co2.
    repeat (split; [assumption|]).
    decompose [and] Hrest. repeat (split; [assumption|]). assumption.
Qed.

(** *** The forecast *)

Section Forecast.
Context {F : Type} `{PyFloat F}.
Variable Model : Type.
Variable predict : Model -> list F -> F.
Variable get_gps_location : exn + (F * F).
Variable fetch_weather_forecast : F -> F -> Z -> exn + list (forecast_day F).

Lemma f2_truncatable (x : F) : is_Some (py_int (fmul x (lit 100))) -> exists y, f2 x = inr y.
Proof. intros [n Hn]. unfold f2. rewrite Hn. eauto. Qed.

(** A day of the loop that returns a row returns the outcome of the day,
    and leaves the files alone. *)
Lemma func1_day_returns (s : sample_input F) (day : forecast_day F) (w w' : world F Model)
    (row : outcome F) :
  func1_day Model predict s day w = (inr row, w') ->
  fs w' = fs w /\ forall w0, outcome_of Model predict s w0 day row.
Proof.
  unfold func1_day.
  destruct (predict_outputs_returns Model predict (day_input s day) w) as (out & E).
  fold (day_input s day). run. rewrite E. simpl.
  destruct (f2 _) as [?|g'] eqn:Eg; [discriminate|].
  destruct (f2 _) as [?|u'] eqn:Eu in |- *; [discriminate|].
  destruct (f2 _) as [?|v'] eqn:Ev in |- *; [discriminate|].
  destruct (f2 _) as [?|c'] eqn:Ec in |- *; [discriminate|].
  destruct (f2 _) as [?|o'] eqn:Eo in |- *; [discriminate|].
  destruct (f2 _) as [?|e'] eqn:Ee in |- *; [discriminate|].
  intros [= <- <-]. split; [reflexivity|]. intros w0.
  exists (recommended_outputs (day_input s day)).
  do 6 eexists. exists g', u', v', c', o', e'.
  split; [apply predict_outputs_value|].
  repeat (split; [first [reflexivity | eassumption]|]). reflexivity.
Qed.

(** It returns a row whenever [int] converts the six outputs. *)
Lemma func1_day_total (s : sample_input F) (day : forecast_day F) (w : world F Model) :
  truncatable s day -> exists row w', func1_day Model predict s day w = (inr row, w').
Proof.
  intros Ht. unfold func1_day.
  destruct (predict_outputs_returns Model predict (day_input s day) w) as (out & E).
  fold (day_input s day). run. rewrite E. simpl.
  destruct (f2_truncatable _ (Ht "recommended_generation_mw" _ eq_refl)) as [g' Eg]; simpl in Eg; rewrite Eg; simpl.
  destruct (f2_truncatable _ (Ht "fuel_used_recommended" _ eq_refl)) as [u' Eu]; simpl in Eu; rewrite Eu; simpl.
  destruct (f2_truncatable _ (Ht "fuel_saved" _ eq_refl)) as [v' Ev]; simpl in Ev; rewrite Ev; simpl.
  destruct (f2_truncatable _ (Ht "cost_saved" _ eq_refl)) as [c' Ec]; simpl in Ec; rewrite Ec; simpl.
  destruct (f2_truncatable _ (Ht "co2_saved_tonnes" _ eq_refl)) as [o' Eo]; simpl in Eo; rewrite Eo; simpl.
  destruct (f2_truncatable _ (Ht "recommended_efficiency" _ eq_refl)) as [e' Ee]; simpl in Ee; rewrite Ee; simpl.
  eexists _, _. reflexivity.
Qed.

Lemma func1_loop_returns (s : sample_input F) (forecast : list (forecast_day F)) :
  forall (l : list (outcome F)) (w w' : world F Model) (rows : list (outcome F)),
  func1_loop Model predict s forecast l w = (inr rows, w') ->
  fs w' = fs w
  /\ exists new, rows = (l ++ new)%list
                 /\ Forall2 (fun day row => forall w0, outcome_of Model predict s w0 day row)
                      forecast new.
Proof.
  induction forecast as [|day forecast IH]; intros l w w' rows; simpl.
  - intros [= <- <-]. split; [reflexivity|]. exists []. rewrite app_nil_r. split; constructor.
  - unfold mbind, M_bind.
    destruct (func1_day Model predict s day w) as [[e|row] w1] eqn:Eday; [discriminate|].
    intros Hloop. apply IH in Hloop as (Hfs & new & -> & Hnew).
    apply func1_day_returns in Eday as [Hfs1 Hrow].
    split; [congruence|]. exists (row :: new). rewrite <- app_assoc. split; [reflexivity|].
    constructor; assumption.
Qed.

Lemma func1_loop_total (s : sample_input F) (forecast : list (forecast_day F)) :
  Forall (truncatable s) forecast ->
  forall (l : list (outcome F)) (w : world F Model),
  exists rows w', func1_loop Model predict s forecast l w = (inr rows, w').
Proof.
  induction 1 as [|day forecast Hday _ IH]; intros l w; simpl; [eauto|].
  destruct (func1_day_total s day w Hday) as (row & w1 & E).
  unfold mbind, M_bind. rewrite E. apply IH.
Qed.

(** [func1] up to its loop: the location, the forecast, four lines of
    output. *)
Lemma func1_unfold (s : sample_input F) (w : world F Model) (forecast : list (forecast_day F)) :
  (forall code, get_gps_location <> inl (SystemExit code)) ->
  fetch_weather_forecast (fst (location get_gps_location)) (snd (location get_gps_location)) 7
  = inr forecast ->
  exists w1, fs w1 = fs w
    /\ func1 Model predict get_gps_location fetch_weather_forecast s w
       = func1_loop Model predict s forecast [] w1.
Proof.
  intros Hgps Hfetch. unfold func1, try_except. run.
  destruct get_gps_location as [e|[lat lon]]; simpl in *.
  - destruct e; simpl; try (rewrite Hfetch; simpl; eexists; split; [|reflexivity]; reflexivity).
    exfalso. eapply Hgps. reflexivity.
  - rewrite Hfetch. simpl. eexists; split; [|reflexivity]; reflexivity.
Qed.

End Forecast.

(** Truncation toward zero on the rationals. *)
Lemma Qtrunc_spec (y : Q) :
  ((0 <= y -> inject_Z (Qtrunc y) <= y < inject_Z (Qtrunc y) + 1)
   /\ (y <= 0 -> inject_Z (Qtrunc y) - 1 < y <= inject_Z (Qtrunc y)))%Q.
Proof.
  destruct y as [a b]. unfold Qtrunc. simpl Qnum; simpl Qden. split; intros Hy.
  - assert (Ha : (0 <= a)%Z) by (unfold Qle in Hy; simpl in Hy; lia).
    rewrite Z.quot_div_nonneg by lia.
    change (a / Z.pos b)%Z with (Qfloor (a # b)). split; [apply Qfloor_le|].
    pose proof (Qlt_floor (a # b)) as Hlt. rewrite inject_Z_plus in Hlt. exact Hlt.
  - assert (Ha : (a <= 0)%Z) by (unfold Qle in Hy; simpl in Hy; lia).
    replace (a ÷ Z.pos b)%Z with (Qceiling (a # b)).
    + split; [|apply Qle_ceiling].
      pose proof (Qceiling_lt (a # b)) as Hlt.
      unfold Z.sub in Hlt. rewrite inject_Z_plus in Hlt. exact Hlt.
    + unfold Qceiling, Qfloor. simpl.
      rewrite <- (Z.opp_involutive a) at 2. rewrite Z.quot_opp_l by lia.
      rewrite Z.quot_div_nonneg by lia. reflexivity.
Qed.

(** On the rationals [f2] never raises, and gives the multiple of 1/100
    between zero and its argument that is nearest to the argument. *)
Lemma f2_Q_spec (x : Q) :
  exists n : Z,
    f2 x = inr (Qmake n 100)
    /\ ((0 <= x -> inject_Z n / 100 <= x < (inject_Z n + 1) / 100)
        /\ (x <= 0 -> (inject_Z n - 1) / 100 < x <= inject_Z n / 100))%Q.
Proof.
  exists (Qtrunc (x * 100)). split; [reflexivity|].
  destruct (Qtrunc_spec (x * 100)) as [Hpos Hneg].
  set (n := inject_Z (Qtrunc (x * 100))) in *. clearbody n.
  unfold Qdiv. change (/ 100)%Q with (1 # 100)%Q.
  split; intros Hx; [destruct Hpos as [? ?]|destruct Hneg as [? ?]]; try lra;
    split; lra.
Qed.

Lemma truncatable_Q (s : sample_input Q) (day : forecast_day Q) : truncatable s day.
Proof. intros k x _. simpl. eauto. Qed.

(** On binary64 [int] converts every number but the infinities and NaN. *)
Lemma py_int_float_finite (x : float) :
  is_Some (py_int x) <-> Prim2SF x <> S754_nan /\ forall s, Prim2SF x <> S754_infinity s.
Proof.
  simpl. unfold float_trunc. destruct (Prim2SF x) as [s|s| |s m e]; split.
  all: try (intros _; split; [discriminate|intros ?; discriminate]).
  all: try (intros _; eexists; reflexivity).
  - intros [? [=]].
  - intros [_ Hinf]. exfalso. exact (Hinf s eq_refl).
  - intros [? [=]].
  - intros [Hnan _]. exfalso. exact (Hnan eq_refl).
Qed.

(** The integer a rational is cut to is the only one between zero and the
    rational that is less than one away from it. *)
Lemma Qtrunc_unique (q : Q) (n : Z) :
  ((0 <= q -> inject_Z n <= q < inject_Z n + 1)
   /\ (q <= 0 -> inject_Z n - 1 < q <= inject_Z n))%Q ->
  n = Qtrunc q.
Proof.
  intros [Hpos Hneg]. destruct (Qtrunc_spec q) as [Tpos Tneg].
  assert (Hz : forall a b : Z, (inject_Z a < inject_Z b + 1)%Q -> (a <= b)%Z).
  { intros a b Hab. change 1%Q with (inject_Z 1) in Hab.
    rewrite <- inject_Z_plus, <- Zlt_Qlt in Hab. lia. }
  destruct (Qlt_le_dec q 0) as [Hq|Hq].
  - destruct Hneg as [H1 H2], Tneg as [H3 H4]; try lra.
    apply Z.le_antisymm; apply Hz; lra.
  - destruct Hpos as [H1 H2], Tpos as [H3 H4]; try lra.
    apply Z.le_antisymm; apply Hz; lra.
Qed.

(** On binary64 [int] cuts toward zero the rational its argument denotes,
    and raises on an infinity or a NaN. *)
Lemma float_trunc_spec (x : float) :
  match float_to_Q x with
  | Some q => float_trunc x = Some (Qtrunc q)
  | None => float_trunc x = None
  end.
Proof.
  unfold float_to_Q, float_trunc. destruct (Prim2SF x) as [s|s| |s m e]; try reflexivity.
  f_equal.
  set (a := match e with
            | Z.neg k => Z.shiftr (Z.pos m) (Z.pos k)
            | _ => Z.shiftl (Z.pos m) e
            end).
  set (v := (inject_Z (Z.pos m) * Qpower 2 e)%Q).
  assert (Hv : (0 < v /\ inject_Z a <= v < inject_Z a + 1)%Q).
  { unfold v, a. destruct e as [|p|p].
    - rewrite Z.shiftl_0_r. change (Qpower 2 0) with 1%Q.
      assert (0 < inject_Z (Z.pos m))%Q by (change 0%Q with (inject_Z 0); rewrite <- Zlt_Qlt; lia).
      lra.
    - rewrite Z.shiftl_mul_pow2 by lia.
      assert (Hp : (Qpower 2 (Z.pos p) == inject_Z (2 ^ Z.pos p))%Q).
      { change 2%Q with (inject_Z 2). symmetry. apply Zpower_Qpower. lia. }
      rewrite Hp, <- inject_Z_mult.
      assert (0 < inject_Z (Z.pos m * 2 ^ Z.pos p))%Q.
      { change 0%Q with (inject_Z 0). rewrite <- Zlt_Qlt.
        pose proof (Z.pow_pos_nonneg 2 (Z.pos p)). nia. }
      lra.
    - rewrite Z.shiftr_div_pow2 by lia.
      assert (Hp : (Qpower 2 (Z.neg p) == 1 # (2 ^ p)%positive)%Q).
      { change (Z.neg p) with (- Z.pos p)%Z. rewrite Qpower_opp.
        assert (Hq : (Qpower 2 (Z.pos p) == inject_Z (Z.pos (2 ^ p)))%Q).
        { rewrite Pos2Z.inj_pow. change 2%Q with (inject_Z 2). symmetry.
          apply Zpower_Qpower. lia. }
        rewrite Hq. reflexivity. }
      rewrite Hp.
      assert (Hm : (inject_Z (Z.pos m) * (1 # 2 ^ p) == Z.pos m # 2 ^ p)%Q).
      { unfold Qeq, Qmult. simpl. lia. }
      rewrite Hm. rewrite <- Pos2Z.inj_pow.
      change (Z.pos m / Z.pos (2 ^ p))%Z with (Qfloor (Z.pos m # 2 ^ p)).
      pose proof (Qfloor_le (Z.pos m # 2 ^ p)).
      pose proof (Qlt_floor (Z.pos m # 2 ^ p)) as Hlt. rewrite inject_Z_plus in Hlt.
      assert (0 < Z.pos m # 2 ^ p)%Q by reflexivity.
      change (inject_Z 1) with 1%Q in Hlt. lra. }
  clearbody a v. destruct Hv as (Hv0 & Hv1 & Hv2).
  apply Qtrunc_unique. destruct s.
  - rewrite inject_Z_opp. split; intros Hq; split; lra.
  - split; intros Hq; split; lra.
Qed.

Section ForecastClaims.
Context {F : Type} `{PyFloat F}.
Variable Model : Type.
Variable predict : Model -> list F -> F.
Variable get_gps_location : exn + (F * F).
Variable fetch_weather_forecast : F -> F -> Z -> exn + list (forecast_day F).

(** A run of [func1] that returns has got a forecast and gone through the
    loop. *)
Lemma func1_returns_inv (s : sample_input F) (w w' : world F Model) (rows : list (outcome F)) :
  func1 Model predict get_gps_location fetch_weather_forecast s w = (inr rows, w') ->
  exists forecast w1,
    fetch_weather_forecast (fst (location get_gps_location)) (snd (location get_gps_location)) 7
    = inr forecast
    /\ fs w1 = fs w
    /\ func1_loop Model predict s forecast [] w1 = (inr rows, w').
Proof.
  unfold func1, try_except, mbind, M_bind, mret, M_ret, lift_result, print, raise.
  destruct get_gps_location as [e|[lat lon]]; simpl.
  - destruct (is_Exception e); simpl; [|discriminate].
    destruct (fetch_weather_forecast _ _ 7) as [e2|forecast]; simpl.
    + destruct (is_Exception e2); discriminate.
    + intros Hloop. eexists _, _. split; [reflexivity|]. split; [|exact Hloop]. reflexivity.
  - destruct (fetch_weather_forecast _ _ 7) as [e2|forecast]; simpl.
    + destruct (is_Exception e2); discriminate.
    + intros Hloop. eexists _, _. split; [reflexivity|]. split; [|exact Hloop]. reflexivity.
Qed.

(** C8. For every forecast the weather supplier gives, a run of [func1]
    that returns returns one row per day, in the order of the days, and
    the row of a day is the result of the engine on the inputs of the
    caller and the weather of that day alone (files untouched); the run
    does return whenever [int] converts the outputs of every day, which it
    always does on finite numbers. *)
Theorem forecast_one_outcome_per_day (s : sample_input F) (w : world F Model)
    (forecast : list (forecast_day F)) :
  (forall code, get_gps_location <> inl (SystemExit code)) ->
  fetch_weather_forecast (fst (location get_gps_location)) (snd (location get_gps_location)) 7
  = inr forecast ->
  (forall rows w',
     func1 Model predict get_gps_location fetch_weather_forecast s w = (inr rows, w') ->
     length rows = length forecast
     /\ Forall2 (outcome_of Model predict s w) forecast rows
     /\ (forall i day, forecast !! i = Some day ->
           exists row, rows !! i = Some row /\ fst row = date day
                       /\ outcome_of Model predict s w day row)
     /\ fs w' = fs w)
  /\ (Forall (truncatable s) forecast ->
      exists rows w',
        func1 Model predict get_gps_location fetch_weather_forecast s w = (inr rows, w')).
Proof.
  intros Hgps Hfetch.
  destruct (func1_unfold Model predict get_gps_location fetch_weather_forecast s w forecast
              Hgps Hfetch) as (w1 & Hfs1 & Hrun).
  split.
  - intros rows w' Hrows. rewrite Hrun in Hrows.
    apply func1_loop_returns in Hrows as (Hfs & new & -> & Hnew). simpl.
    assert (Hall : Forall2 (outcome_of Model predict s w) forecast new).
    { eapply Forall2_impl; [exact Hnew|]. intros day row Hrow. apply Hrow. }
    split; [symmetry; eapply Forall2_length, Hall|]. split; [exact Hall|].
    split; [|congruence].
    intros i day Hday.
    destruct (Forall2_lookup_l _ _ _ _ _ Hall Hday) as (row & Hrow & Hout).
    exists row. split; [exact Hrow|]. split; [|exact Hout].
    destruct Hout as (? & ? & ? & ? & ? & ? & ? & ? & ? & ? & ? & ? & ? & Hout).
    decompose [and] Hout. subst row. reflexivity.
  - intros Hall. rewrite Hrun. apply func1_loop_total, Hall.
Qed.

End ForecastClaims.

(** C5, refuted as stated.  In binary64 the product by 100 is rounded before
    [int] cuts it: for the plant of 100 MW that reports a fuel use of 100, on
    a day of reference weather, the engine computes a saving of
    -401.71999999999997 tonnes of CO2, whose product by 100 is the float
    -40172, and the row of [func1] holds -401.72: farther from zero than the
    computed value, and the very number that rounding to the nearest
    hundredth gives. *)
Lemma forecast_value_cut_away_from_zero :
  exists co2 row_co2 : float,
    dict_find (recommended_outputs (day_input small_plant reference_day)) "co2_saved_tonnes"
    = Some co2
    /\ co2 = (-401.71999999999997)%float
    /\ fmul co2 (lit 100) = (-40172)%float
    /\ f2 co2 = inr row_co2
    /\ fst (func1 unit (fun _ _ => 0%float) (inl RuntimeError)
              (fun _ _ _ => inr [reference_day]) small_plant empty_world)
       = inr [("2026-11-03", [38; 266; -166; -996000; row_co2; 0.38]%float)]
    /\ row_co2 = (-401.72)%float
    /\ PrimFloat.ltb row_co2 co2 = true /\ PrimFloat.ltb co2 0 = true
    /\ row_co2 = py_round co2 2.
Proof.
  eexists _, _. split; [vm_compute; reflexivity|]. split; [reflexivity|].
  split; [vm_compute; reflexivity|]. split; [vm_compute; reflexivity|].
  repeat split; vm_compute; reflexivity.
Qed.

(** C5, as amended.  Every row [func1] returns holds, for its day, the six
    outputs of the engine each passed through [f2], and [f2 x] is
    [int(x * 100) / 100] in the arithmetic of the program.  On binary64:
    where [p] is the float product of [x] by 100, [f2] raises when [p] is an
    infinity or a NaN, and otherwise returns the float nearest to [n / 100],
    [n] being [p] cut toward zero; it is the rounded product [p] that is cut,
    not [x * 100].  On the rationals, [f2 x] is the multiple of 1/100 next to
    [x] on the side of zero (0.129 gives 0.12, not the nearest 0.13, and
    -0.129 gives -0.12); so it is on these two floats. *)
Theorem forecast_values_truncated :
  (forall (F : Type) (HF : PyFloat F) (Model : Type) (predict : Model -> list F -> F)
          (gps : exn + (F * F)) (fetch : F -> F -> Z -> exn + list (forecast_day F))
          (s : sample_input F) (w w' : world F Model) (rows : list (outcome F)),
     func1 Model predict gps fetch s w = (inr rows, w') ->
     forall row, row ∈ rows ->
       exists (day : forecast_day F) (g u v c o e g' u' v' c' o' e' : F),
         recommended_outputs (day_input s day)
         = [("recommended_generation_mw", g); ("fuel_used_recommended", u);
            ("fuel_saved", v); ("cost_saved", c); ("co2_saved_tonnes", o);
            ("recommended_efficiency", e)]
         /\ fst (predict_outputs Model predict (day_input s day) w)
            = inr (recommended_outputs (day_input s day))
         /\ f2 g = inr g' /\ f2 u = inr u' /\ f2 v = inr v'
         /\ f2 c = inr c' /\ f2 o = inr o' /\ f2 e = inr e'
         /\ row = (date day, [g'; u'; v'; c'; o'; e']))
  /\ (forall x : float,
        match float_to_Q (fmul x (lit 100)) with
        | Some p =>
            f2 x = inr (lit (Qtrunc p # 100))
            /\ ((0 <= p -> inject_Z (Qtrunc p) <= p < inject_Z (Qtrunc p) + 1)
                /\ (p <= 0 -> inject_Z (Qtrunc p) - 1 < p <= inject_Z (Qtrunc p)))%Q
        | None => f2 x = inl CannotConvert
        end)
  /\ (forall x : Q, exists n : Z,
        f2 x = inr (Qmake n 100)
        /\ ((0 <= x -> inject_Z n / 100 <= x < (inject_Z n + 1) / 100)
            /\ (x <= 0 -> (inject_Z n - 1) / 100 < x <= inject_Z n / 100))%Q)
  /\ f2 0.129%Q = inr 0.12%Q /\ f2 (-0.129)%Q = inr (-0.12)%Q
  /\ f2 0.129%float = inr 0.12%float /\ f2 (-0.129)%float = inr (-0.12)%float.
Proof.
  split; [|split; [|split; [exact f2_Q_spec|repeat split; vm_compute; reflexivity]]].
  2: { intros x. pose proof (float_trunc_spec (fmul x (lit 100))) as Hint.
       unfold f2. change (@py_int float float_float) with float_trunc.
       destruct (float_to_Q (fmul x (lit 100))) as [p|]; rewrite Hint;
         [split; [reflexivity|apply Qtrunc_spec]|reflexivity]. }
  intros F HF Model predict gps fetch s w w' rows Hrun row Hrow.
  apply func1_returns_inv in Hrun as (forecast & w1 & _ & _ & Hloop).
  apply func1_loop_returns in Hloop as (_ & new & -> & Hnew). simpl in Hrow.
  apply list_elem_of_lookup in Hrow as [i Hi].
  destruct (Forall2_lookup_r _ _ _ _ _ Hnew Hi) as (day & _ & Hout).
  destruct (Hout w) as (outputs & g & u & v & c & o & e & g' & u' & v' & c' & o' & e' & Hp & Hrest).
  rewrite predict_outputs_value in Hp. injection Hp as <-.
  decompose [and] Hrest. clear Hrest.
  exists day. eexists _, _, _, _, _, _. exists g', u', v', c', o', e'.
  split; [reflexivity|]. split; [apply predict_outputs_value|].
  simpl in *.
  repeat match goal with Hd : Some _ = Some _ |- _ => injection Hd as <- end.
  repeat (split; [assumption|]). assumption.
Qed.

(** ** The trainer *)

Lemma string_length_app (a b : string) :
  String.length (a +:+ b) = (String.length a + String.length b)%nat.
Proof.
  induction a as [|c a IH]; [reflexivity|].
  change (String c a +:+ b) with (String c (a +:+ b)). simpl. rewrite IH. reflexivity.
Qed.

Lemma string_app_inj_r (s a b : string) : a +:+ s = b +:+ s -> a = b.
Proof.
  revert b. induction a as [|c a IH]; intros b Hab.
  - apply (f_equal String.length) in Hab. rewrite !string_length_app in Hab.
    destruct b; [reflexivity|]. simpl in Hab. lia.
  - destruct b as [|c' b].
    + apply (f_equal String.length) in Hab. rewrite !string_length_app in Hab.
      simpl in Hab. lia.
    + change (String c (a +:+ s) = String c' (b +:+ s)) in Hab.
      injection Hab as -> Hab. f_equal. apply IH, Hab.
Qed.

(** The file a model is kept in determines its fuel type, and is never the
    sample store. *)
Lemma model_path_inj (a b : string) :
  "model_" +:+ a +:+ ".joblib" = "model_" +:+ b +:+ ".joblib" -> a = b.
Proof. intros Hab. apply String.app_inj in Hab. eapply string_app_inj_r, Hab. Qed.

Lemma model_path_not_csv (fuel : string) : "model_" +:+ fuel +:+ ".joblib" <> CSV_FILE.
Proof. discriminate. Qed.

Lemma unique_from_spec (l seen : list string) :
  NoDup (unique_from seen l)
  /\ forall x, x ∈ unique_from seen l <-> x ∈ l /\ x ∉ seen.
Proof.
  revert seen. induction l as [|a l IH]; intros seen; simpl.
  - split; [constructor|]. intros x. split; [inversion 1|intros [Hx _]; inversion Hx].
  - destruct (decide (a ∈ seen)) as [Ha|Ha].
    + destruct (IH seen) as [Hnd Hin]. split; [exact Hnd|]. intros x. rewrite Hin.
      rewrite elem_of_cons. split; [tauto|]. intros [[->|Hx] Hs]; tauto.
    + destruct (IH (a :: seen)) as [Hnd Hin]. split.
      * constructor; [|exact Hnd]. rewrite Hin, elem_of_cons. tauto.
      * intros x. rewrite !elem_of_cons, Hin, elem_of_cons.
        destruct (decide (x = a)) as [->|Hne]; tauto.
Qed.

Lemma unique_spec (l : list string) :
  NoDup (unique l) /\ forall x, x ∈ unique l <-> x ∈ l.
Proof.
  destruct (unique_from_spec l []) as [Hnd Hin]. split; [exact Hnd|].
  intros x. unfold unique. rewrite Hin. split; [tauto|]. intros Hx. split; [exact Hx|].
  inversion 1.
Qed.

Section Training.
Context {F : Type} `{PyFloat F}.
Variable Model : Type.
Variable predict : Model -> list F -> F.
Variable train_test_split :
  list (list F) -> list F -> Q -> Z -> list (list F) * list (list F) * list F * list F.
Variable fit : RandomForestRegressor -> list (list F) -> list F -> Model.
Variable r2_score : list F -> list F -> F.
Variable mean_absolute_error : list F -> list F -> F.

Abbreviation train_fuel := (train_fuel Model predict train_test_split fit r2_score mean_absolute_error).
Abbreviation train_all := (train_all Model predict train_test_split fit r2_score mean_absolute_error).
Abbreviation trainer := (trainer Model predict train_test_split fit r2_score mean_absolute_error).
Abbreviation trained_model := (trained_model Model train_test_split fit).
Abbreviation train_line :=
  (train_line Model predict train_test_split fit r2_score mean_absolute_error).
Abbreviation train_store := (train_store Model train_test_split fit).

Lemma df_select_features (cols : list string) (rows : list (OperatingSample F))
    (w : world F Model) :
  FEATURES ⊆ cols ->
  df_select Model {| df_columns := cols; df_rows := rows |} FEATURES w
  = (inr (map features_of rows), w).
Proof.
  intros Hcols. unfold df_select, FEATURES. simpl.
  repeat (destruct (decide (_ ∈ cols)) as [_|Hno];
          [|exfalso; apply Hno, Hcols; unfold FEATURES; clear; set_solver]).
  reflexivity.
Qed.

Lemma train_fuel_run (cols : list string) (rows : list (OperatingSample F)) (fuel : string)
    (w : world F Model) :
  trainer_columns ⊆ cols ->
  train_fuel {| df_columns := cols; df_rows := rows |} fuel w
  = (inr tt, {| fs := train_store rows (fs w) fuel;
                stdout := stdout w ++ [train_line rows fuel] |}).
Proof.
  intros Hcols. unfold train_fuel, train_store, train_line, trained_model. simpl.
  fold (fuel_rows rows fuel).
  destruct (length (fuel_rows rows fuel) <? 5)%nat; [reflexivity|].
  unfold mbind, M_bind. rewrite df_select_features
    by (intros c Hc; apply Hcols; do 2 right; exact Hc).
  unfold df_series. simpl.
  destruct (decide ("current_generation_mw" ∈ cols)) as [_|Hno];
    [|exfalso; apply Hno, Hcols; right; left].
  simpl. destruct (train_test_split _ _ _ _) as [[[X_train X_test] y_train] y_test].
  reflexivity.
Qed.

Lemma train_loop_run (cols : list string) (rows : list (OperatingSample F))
    (fuels : list string) :
  trainer_columns ⊆ cols ->
  forall w : world F Model,
  for_each fuels (train_fuel {| df_columns := cols; df_rows := rows |}) w
  = (inr tt, {| fs := foldl (train_store rows) (fs w) fuels;
                stdout := stdout w ++ map (train_line rows) fuels |}).
Proof.
  intros Hcols. induction fuels as [|fuel fuels IH]; intros w; simpl.
  - rewrite app_nil_r. destruct w; reflexivity.
  - unfold mbind, M_bind. rewrite train_fuel_run by exact Hcols. rewrite IH. simpl.
    rewrite <- app_assoc. reflexivity.
Qed.

(** What the loop leaves in a file it does not write to, and in the file
    of a fuel type it goes through once. *)
Lemma train_store_frame (rows : list (OperatingSample F)) (fuels : list string)
    (m : gmap string (file F Model)) (path : string) :
  (forall fuel, fuel ∈ fuels -> path <> "model_" +:+ fuel +:+ ".joblib") ->
  foldl (train_store rows) m fuels !! path = m !! path.
Proof.
  revert m. induction fuels as [|fuel fuels IH]; intros m Hpath; simpl; [reflexivity|].
  rewrite IH by (intros f Hf; apply Hpath; right; exact Hf).
  unfold train_store. destruct (_ <? 5)%nat; [reflexivity|].
  apply lookup_insert_ne. intros Heq. eapply Hpath; [left|]. symmetry. exact Heq.
Qed.

Lemma train_store_lookup (rows : list (OperatingSample F)) (fuels : list string)
    (m : gmap string (file F Model)) (fuel : string) :
  NoDup fuels -> fuel ∈ fuels ->
  foldl (train_store rows) m fuels !! ("model_" +:+ fuel +:+ ".joblib")
  = if (length (fuel_rows rows fuel) <? 5)%nat then m !! ("model_" +:+ fuel +:+ ".joblib")
    else Some (JoblibFile (trained_model rows fuel)).
Proof.
  intros Hnd. revert m. induction Hnd as [|a fuels Ha Hnd IH]; intros m Hin; [inversion Hin|].
  simpl. apply elem_of_cons in Hin as [->|Hin].
  - rewrite train_store_frame.
    + unfold train_store. destruct (_ <? 5)%nat; [reflexivity|]. apply lookup_insert_eq.
    + intros f Hf Heq. apply model_path_inj in Heq. subst f. exact (Ha Hf).
  - rewrite (IH _ Hin). destruct (length (fuel_rows rows fuel) <? 5)%nat; [|reflexivity].
    unfold train_store. destruct (_ <? 5)%nat; [reflexivity|].
    apply lookup_insert_ne. intros Heq. apply model_path_inj in Heq. subst a. exact (Ha Hin).
Qed.

(** A run of the trainer over a sample store that holds the columns it
    reads. *)
Lemma trainer_run (cols : list string) (rows : list (OperatingSample F)) (w : world F Model) :
  fs w !! CSV_FILE = Some (CsvFile cols rows) ->
  trainer_columns ⊆ cols ->
  trainer w
  = (inr tt,
     {| fs := <[CSV_FILE := CsvFile cols []]>
                (foldl (train_store rows) (fs w) (unique (map s_fuel_type rows)));
        stdout := (stdout w ++ map (train_line rows) (unique (map s_fuel_type rows)))
                  ++ [DataCleared] |}).
Proof.
  intros Hcsv Hcols.
  unfold trainer, missing_or_empty, read_csv, train_all, df_fuel_type, to_csv_no_rows,
    write_file, print, mbind, M_bind.
  rewrite Hcsv. simpl. rewrite Hcsv. simpl.
  destruct (decide ("fuel_type" ∈ cols)) as [_|Hno];
    [|exfalso; apply Hno, Hcols; left].
  simpl. rewrite train_loop_run by exact Hcols. reflexivity.
Qed.


(** C7. When the run completes, the sample store holds the header it was
    read with and no row, and every other file, the model files among
    them, is as the training loop left it. *)
Theorem sample_store_cleared (w w' : world F Model) :
  trainer w = (inr tt, w') ->
  exists cols rows w1,
    fs w !! CSV_FILE = Some (CsvFile cols rows)
    /\ train_all {| df_columns := cols; df_rows := rows |} w = (inr tt, w1)
    /\ fs w' !! CSV_FILE = Some (CsvFile cols [])
    /\ (forall path, path <> CSV_FILE -> fs w' !! path = fs w1 !! path)
    /\ (forall fuel, fs w' !! ("model_" +:+ fuel +:+ ".joblib")
                     = fs w1 !! ("model_" +:+ fuel +:+ ".joblib")).
Proof.
  unfold trainer, missing_or_empty, read_csv, to_csv_no_rows, write_file, print, raise,
    mbind, M_bind.
  destruct (fs w !! CSV_FILE) as [[|cols rows|m]|] eqn:Hcsv; simpl; try discriminate;
    rewrite Hcsv; simpl; try discriminate.
  destruct (train_all _ w) as [[e|[]] w1] eqn:Hloop; simpl; [discriminate|].
  intros [= <-]. exists cols, rows, w1. simpl.
  split; [reflexivity|]. split; [exact Hloop|]. split; [apply lookup_insert_eq|].
  split.
  - intros path Hpath. apply lookup_insert_ne. congruence.
  - intros fuel. apply lookup_insert_ne. intros Heq. symmetry in Heq.
    exact (model_path_not_csv fuel Heq).
Qed.

End Training.

(** ** The generator *)

Section Conversions.
Context {F : Type} `{PyFloat F}.

(** The conversions hold wherever the three heating values of the table
    are not zero. *)
Lemma co2_conversions_nonzero :
  fis_zero (lit 7000) = false ->
  fis_zero (fmul (lit 10000) (lit 0.85)) = false ->
  fis_zero (lit 8500) = false ->
  co2_conversions F.
Proof.
  intros Hcoal Hoil Hgas env random_random cur base rate hours e e' u Hu.
  split; [|split]; eexists _, _; (split; [reflexivity|]);
    unfold fuel_calculations, py_div, random_uniform, mbind, M_bind, mret, M_ret; simpl;
    rewrite ?Hcoal, ?Hoil, ?Hgas, Hu; simpl;
    (split; [reflexivity|]); split; reflexivity.
Qed.

End Conversions.


(** ** Concrete runs *)

(** The scenario with no model on file, in binary64: the fallback predicts
    150 * 0.7 = 105 MW. *)
Lemma missing_model_falls_back_scenario :
  fs (empty_world : world float unit) !! ("model_" +:+ "coal" +:+ ".joblib") = None
  /\ current_generation_mw unit (fun _ _ => 0%float) scenario empty_world
     = (inr 105%float, say empty_world (NoModelFound "coal")).
Proof.
  split; [reflexivity|].
  exact (proj1 (missing_model_falls_back unit (fun _ _ => 0%float) scenario empty_world eq_refl)).
Defined.

(** A biomass plant at reference weather, in binary64. *)
Lemma unknown_fuel_uses_defaults_biomass :
  exists w',
    predict_outputs unit (fun _ _ => 0%float) biomass empty_world
    = (inr [("recommended_generation_mw", 60%float); ("fuel_used_recommended", 360%float);
            ("fuel_saved", 8640%float); ("cost_saved", 4320000%float);
            ("co2_saved_tonnes", 21600%float);
            ("recommended_efficiency", 0.40000000000000002%float)], w').
Proof.
  destruct (unknown_fuel_uses_defaults unit (fun _ _ => 0%float) biomass empty_world)
    as [w' Hrun]; [discriminate..|].
  exists w'. rewrite Hrun. reflexivity.
Defined.

Lemma trainer_columns_in_HEADERS : trainer_columns ⊆ HEADERS.
Proof. apply (bool_decide_unpack _). vm_compute. reflexivity. Qed.


(** The same run: the sample store is left with its header and no row. *)
Lemma sample_store_cleared_small_store :
  exists w',
    trainer nat predict_zero split_all_train fit_count score_zero score_zero small_store
    = (inr tt, w')
    /\ fs w' !! CSV_FILE = Some (CsvFile HEADERS [])
    /\ fs w' !! ("model_" +:+ "coal" +:+ ".joblib") = Some (JoblibFile 5%nat).
Proof.
  pose proof (trainer_run nat predict_zero split_all_train fit_count score_zero score_zero
                HEADERS small_rows small_store eq_refl trainer_columns_in_HEADERS) as Hrun.
  eexists. split; [exact Hrun|].
  destruct (sample_store_cleared nat predict_zero split_all_train fit_count score_zero
              score_zero small_store _ Hrun) as (cols & rows & w1 & Hcsv & Hloop & Hclear & _ & Hmodels).
  assert (Hstore : fs small_store !! CSV_FILE = Some (CsvFile HEADERS small_rows)) by reflexivity.
  rewrite Hstore in Hcsv. injection Hcsv as <- <-.
  split; [exact Hclear|]. reflexivity.
Defined.

(** A forecast of two days for the plant of the scenario, in exact
    arithmetic, the location lookup failing: two rows. *)
Lemma forecast_two_days :
  exists rows w',
    func1 unit (fun _ _ => 0%Q) (inl RuntimeError) (fun _ _ _ => inr two_days)
      (inputs scenario) empty_world = (inr rows, w')
    /\ length rows = 2%nat
    /\ Forall2 (outcome_of unit (fun _ _ => 0%Q) (inputs scenario) empty_world) two_days rows.
Proof.
  destruct (forecast_one_outcome_per_day unit (fun _ _ => 0%Q) (inl RuntimeError)
              (fun _ _ _ => inr two_days) (inputs scenario) empty_world two_days)
    as [Hrows Htotal]; [discriminate|reflexivity|].
  destruct Htotal as (rows & w' & Hrun); [repeat constructor; apply truncatable_Q|].
  exists rows, w'. split; [exact Hrun|].
  destruct (Hrows rows w' Hrun) as (Hlen & Hall & _). split; assumption.
Defined.

(** The same forecast: its first row holds the generation of the first day,
    55.7749182375 MW, cut to 55.77. *)
Lemma forecast_values_truncated_two_days :
  exists rows w' row,
    func1 unit (fun _ _ => 0%Q) (inl RuntimeError) (fun _ _ _ => inr two_days)
      (inputs scenario) empty_world = (inr rows, w')
    /\ rows !! 0%nat = Some row
    /\ exists (day : forecast_day Q) (g g' : Q),
         dict_find (recommended_outputs (day_input (inputs scenario) day))
           "recommended_generation_mw" = Some g
         /\ f2 g = inr g' /\ snd row !! 0%nat = Some g'.
Proof.
  destruct (func1_unfold unit (fun _ _ => 0%Q) (inl RuntimeError) (fun _ _ _ => inr two_days)
              (inputs scenario) empty_world two_days) as (w1 & _ & Hunfold);
    [discriminate|reflexivity|].
  destruct (func1_loop_total unit (fun _ _ => 0%Q) (inputs scenario) two_days
              ltac:(repeat constructor; apply truncatable_Q) [] w1) as (rows & w' & Hloop).
  rewrite <- Hunfold in Hloop.
  destruct (func1_loop_returns unit (fun _ _ => 0%Q) (inputs scenario) two_days [] w1 w' rows)
    as (_ & new & -> & Hnew); [rewrite <- Hunfold; exact Hloop|].
  inversion Hnew as [|day row days new' Hday Hrest]; subst.
  exists (row :: new'), w', row. split; [exact Hloop|]. split; [reflexivity|].
  destruct (proj1 forecast_values_truncated Q _ unit (fun _ _ => 0%Q) (inl RuntimeError)
              (fun _ _ _ => inr two_days) (inputs scenario) empty_world w' (row :: new') Hloop
              row ltac:(left))
    as (day' & g & u & v & c & o & e & g' & u' & v' & c' & o' & e' & Hout & _ & Hg & Hrest').
  exists day', g, g'. rewrite Hout. split; [reflexivity|]. split; [exact Hg|].
  decompose [and] Hrest'. subst row. reflexivity.
Defined.


(** A reported fuel use of 100 against a recommended 390.42: the three
    savings are negative. *)
Lemma savings_negative_low_use :
  exists saved cost co2 : Q,
    dict_find (recommended_outputs low_use) "fuel_saved" = Some saved
    /\ dict_find (recommended_outputs low_use) "cost_saved" = Some cost
    /\ dict_find (recommended_outputs low_use) "co2_saved_tonnes" = Some co2
    /\ (saved < 0 /\ cost < 0 /\ co2 < 0)%Q.
Proof.
  destruct (proj2 savings_share_sign unit (fun _ _ => 0%Q) low_use empty_world)
    as (outputs & w' & r & s & c & o & E & Hr & Hs & Hc & Ho & Hrest).
  pose proof (predict_outputs_value unit (fun _ _ => 0%Q) low_use empty_world) as Hv.
  rewrite E in Hv. simpl in Hv. injection Hv as ->.
  exists s, c, o. repeat (split; [assumption|]).
  apply Hrest. injection Hr as <-. vm_compute. reflexivity.
Defined.

(** * Further properties *)

(** ** The location *)

Section LocationFacts.
Context {F : Type} `{PyFloat F}.
Variable float_of_str : string -> option F.

Abbreviation get_gps_location := (get_gps_location float_of_str).

(** The unpacking returns for two parts that are numbers, and else raises
    an [Exception]. *)
Lemma unpack_two_floats_outcome (parts : list string) :
  match unpack_two_floats float_of_str parts tt with
  | (inr (lat, lon), _) =>
      exists a b, parts = [a; b] /\ float_of_str a = Some lat /\ float_of_str b = Some lon
  | (inl e, _) =>
      e = CannotConvert
      /\ forall a b lat lon,
           parts = [a; b] -> float_of_str a = Some lat -> float_of_str b = Some lon -> False
  end.
Proof.
  unfold unpack_two_floats, py_float, mbind, M_bind, mret, M_ret, raise.
  destruct parts as [|a [|b [|c parts]]]; simpl.
  - split; [reflexivity|discriminate].
  - destruct (float_of_str a); simpl; (split; [reflexivity|discriminate]).
  - destruct (float_of_str a) as [lat|] eqn:Ea; simpl.
    + destruct (float_of_str b) as [lon|] eqn:Eb; simpl.
      * exists a, b. repeat split; assumption.
      * split; [reflexivity|]. intros ? ? ? ? [= <- <-]. congruence.
    + split; [reflexivity|]. intros ? ? ? ? [= <- <-]. congruence.
  - destruct (float_of_str a); simpl; [|split; [reflexivity|discriminate]].
    destruct (float_of_str b); simpl; [|split; [reflexivity|discriminate]].
    destruct (float_of_str c); simpl; (split; [reflexivity|discriminate]).
Qed.

(** X1. [get_gps_location] returns a location exactly when the answer has
    a [loc] of two parts around one comma that are both numbers, and then
    returns the two; everything else that goes wrong in it, the request,
    a missing [loc], a part that is no number, one part or three, ends as
    a [RuntimeError].  So the location never makes [func1] exit, and a
    failure of it makes [func1] ask for the forecast of Chennai. *)
Theorem get_gps_location_outcomes (ipinfo : exn + pydict string) :
  (forall lat lon,
     get_gps_location ipinfo = inr (lat, lon)
     <-> exists data loc a b,
           ipinfo = inr data /\ dict_find data "loc" = Some loc
           /\ split_comma loc = [a; b]
           /\ float_of_str a = Some lat /\ float_of_str b = Some lon)
  /\ (forall e, get_gps_location ipinfo = inl e ->
        e = RuntimeError \/ (is_Exception e = false /\ ipinfo = inl e))
  /\ ((forall code, ipinfo <> inl (SystemExit code)) ->
      (forall code, get_gps_location ipinfo <> inl (SystemExit code))
      /\ (forall e, get_gps_location ipinfo = inl e ->
            location (get_gps_location ipinfo) = (lit 13.0895, lit 80.2739))).
Proof.
  assert (Hout : match ipinfo with
                 | inl e => get_gps_location ipinfo
                            = inl (if is_Exception e then RuntimeError else e)
                 | inr data =>
                     match dict_find data "loc" with
                     | None => get_gps_location ipinfo = inl RuntimeError
                     | Some loc =>
                         match unpack_two_floats float_of_str (split_comma loc) tt with
                         | (inr p, _) => get_gps_location ipinfo = inr p
                         | (inl _, _) => get_gps_location ipinfo = inl RuntimeError
                         end
                     end
                 end).
  { unfold get_gps_location, try_except, mbind, M_bind, lift_result, dict_item, raise.
    destruct ipinfo as [e|data]; simpl; [destruct (is_Exception e); reflexivity|].
    destruct (dict_find data "loc") as [loc|]; simpl; [|reflexivity].
    pose proof (unpack_two_floats_outcome (split_comma loc)) as Hu.
    destruct (unpack_two_floats float_of_str (split_comma loc) tt) as [[e|p] []];
      [|reflexivity].
    destruct Hu as [-> _]. reflexivity. }
  split; [|split].
  - intros lat lon. split.
    + intros Hrun. destruct ipinfo as [e|data].
      { rewrite Hout in Hrun. discriminate. }
      destruct (dict_find data "loc") as [loc|] eqn:Hloc;
        [|rewrite Hout in Hrun; discriminate].
      pose proof (unpack_two_floats_outcome (split_comma loc)) as Hu.
      destruct (unpack_two_floats float_of_str (split_comma loc) tt) as [[e|[lat' lon']] []];
        rewrite Hout in Hrun; [discriminate|].
      injection Hrun as -> ->. destruct Hu as (a & b & Hsplit & Ha & Hb).
      exists data, loc, a, b. repeat split; assumption.
    + intros (data & loc & a & b & -> & Hloc & Hsplit & Ha & Hb).
      rewrite Hloc in Hout.
      pose proof (unpack_two_floats_outcome (split_comma loc)) as Hu.
      destruct (unpack_two_floats float_of_str (split_comma loc) tt) as [[e|[lat' lon']] []].
      * exfalso. destruct Hu as [_ Hu]. exact (Hu a b lat lon Hsplit Ha Hb).
      * destruct Hu as (a' & b' & Hsplit' & Ha' & Hb'). rewrite Hout.
        rewrite Hsplit in Hsplit'. injection Hsplit' as <- <-. congruence.
  - intros e Hrun. destruct ipinfo as [e0|data].
    + rewrite Hout in Hrun. injection Hrun as <-.
      destruct (is_Exception e0) eqn:He; [left; reflexivity|right]. split; [exact He|reflexivity].
    + left. destruct (dict_find data "loc") as [loc|];
        [|rewrite Hout in Hrun; congruence].
      destruct (unpack_two_floats float_of_str (split_comma loc) tt) as [[e1|p] []];
        rewrite Hout in Hrun; congruence.
  - intros Hexit.
    assert (Hno : forall code, get_gps_location ipinfo <> inl (SystemExit code)).
    { intros code Hrun. destruct ipinfo as [e0|data].
      - rewrite Hout in Hrun. destruct e0; simpl in Hrun; try discriminate.
        eapply Hexit. reflexivity.
      - destruct (dict_find data "loc") as [loc|];
          [|rewrite Hout in Hrun; discriminate].
        destruct (unpack_two_floats float_of_str (split_comma loc) tt) as [[e1|p] []];
          rewrite Hout in Hrun; discriminate. }
    split; [exact Hno|]. intros e Hrun. rewrite Hrun. reflexivity.
Qed.

End LocationFacts.

(** ** The forecast read off the answer of Open-Meteo *)

Section WeatherFacts.
Context {F : Type} `{PyFloat F}.

Lemma forecast_entry_inv (daily : daily_json F) (times : list string) (i : nat)
    (entry : forecast_day F) :
  fst (forecast_entry daily times i tt) = inr entry ->
  times !! i = Some (date entry)
  /\ (exists tmax tmin a b,
        dict_find (daily_series daily) "temperature_2m_max" = Some tmax /\ tmax !! i = Some a
        /\ dict_find (daily_series daily) "temperature_2m_min" = Some tmin /\ tmin !! i = Some b
        /\ day_temp_C entry = fdiv (fadd a b) (lit 2))
  /\ (exists hmax hmin c d,
        dict_find (daily_series daily) "relative_humidity_2m_max" = Some hmax
        /\ hmax !! i = Some c
        /\ dict_find (daily_series daily) "relative_humidity_2m_min" = Some hmin
        /\ hmin !! i = Some d
        /\ day_humidity entry = fdiv (fadd c d) (lit 2))
  /\ dict_get (daily_series daily) "pressure_msl" (replicate (length times) (lit 1013)) !! i
     = Some (day_pressure_hPa entry).
Proof.
  unfold forecast_entry, mbind, M_bind, mret, M_ret, dict_item, list_item, raise.
  destruct (times !! i) as [date|] eqn:Hd; simpl; [|discriminate].
  destruct (dict_find _ "temperature_2m_max") as [tmax|] eqn:H1; simpl; [|discriminate].
  destruct (tmax !! i) as [a|] eqn:Ha; simpl; [|discriminate].
  destruct (dict_find _ "temperature_2m_min") as [tmin|] eqn:H2; simpl; [|discriminate].
  destruct (tmin !! i) as [b|] eqn:Hb; simpl; [|discriminate].
  destruct (dict_find _ "relative_humidity_2m_max") as [hmax|] eqn:H3; simpl; [|discriminate].
  destruct (hmax !! i) as [c|] eqn:Hc; simpl; [|discriminate].
  destruct (dict_find _ "relative_humidity_2m_min") as [hmin|] eqn:H4; simpl; [|discriminate].
  destruct (hmin !! i) as [d|] eqn:Hdd; simpl; [|discriminate].
  destruct (dict_get _ _ _ !! i) as [p|] eqn:Hp; simpl; [|discriminate].
  intros [= <-]. simpl. split; [reflexivity|].
  split; [exists tmax, tmin, a, b; auto|]. split; [exists hmax, hmin, c, d; auto|]. reflexivity.
Qed.

Lemma forecast_loop_inv (daily : daily_json F) (times : list string) (indices : list nat) :
  forall (acc l : list (forecast_day F)),
  fst (forecast_loop daily times indices acc tt) = inr l ->
  exists new, l = (acc ++ new)%list
    /\ Forall2 (fun i entry => fst (forecast_entry daily times i tt) = inr entry) indices new.
Proof.
  induction indices as [|i indices IH]; intros acc l; simpl.
  - intros [= <-]. exists []. rewrite app_nil_r. split; constructor.
  - unfold mbind, M_bind.
    destruct (forecast_entry daily times i tt) as [[e|entry] []] eqn:E; [discriminate|].
    intros Hl. apply IH in Hl as (new & -> & Hnew).
    exists (entry :: new). rewrite <- app_assoc. split; [reflexivity|].
    constructor; [rewrite E; reflexivity|exact Hnew].
Qed.

(** A forecast that is returned was read off the dates and the arrays of
    the answer, one entry per index of the range. *)
Lemma forecast_from_json_inv (data : weather_json F) (days : Z)
    (forecast : list (forecast_day F)) :
  forecast_from_json data days = inr forecast ->
  exists d times,
    daily data = Some d /\ daily_time d = Some times
    /\ length forecast = Z.to_nat (Z.min days (Z.of_nat (length times)))
    /\ Forall2 (fun i entry => fst (forecast_entry d times i tt) = inr entry)
         (forecast_range days times) forecast.
Proof.
  unfold forecast_from_json, json_item, mbind, M_bind, mret, M_ret, raise.
  destruct (daily data) as [d|]; simpl; [|discriminate].
  destruct (daily_time d) as [times|] eqn:Ht; simpl; [|discriminate].
  intros Hrun. apply forecast_loop_inv in Hrun as (new & -> & Hall). simpl.
  exists d, times. split; [reflexivity|]. split; [exact Ht|]. split; [|exact Hall].
  rewrite <- (Forall2_length _ _ _ Hall). apply length_seq.
Qed.

Lemma forecast_entry_total (daily : daily_json F) (times : list string) (n i : nat) :
  (n <= length times)%nat -> arrays_cover daily n -> (i < n)%nat ->
  exists entry, forecast_entry daily times i tt = (inr entry, tt).
Proof.
  intros Hn [Hkeys Hpressure] Hi.
  assert (Hget : forall (arr : list F), (n <= length arr)%nat -> exists x, arr !! i = Some x).
  { intros arr Harr. apply lookup_lt_is_Some. lia. }
  destruct (lookup_lt_is_Some_2 times i ltac:(lia)) as [date Hdate].
  destruct (Hkeys "temperature_2m_max") as (tmax & H1 & L1); [left|].
  destruct (Hkeys "temperature_2m_min") as (tmin & H2 & L2); [right; left|].
  destruct (Hkeys "relative_humidity_2m_max") as (hmax & H3 & L3); [do 2 right; left|].
  destruct (Hkeys "relative_humidity_2m_min") as (hmin & H4 & L4); [do 3 right; left|].
  destruct (Hget _ L1) as [a Ha]. destruct (Hget _ L2) as [b Hb].
  destruct (Hget _ L3) as [c Hc]. destruct (Hget _ L4) as [d Hd].
  assert (Hp : exists p, dict_get (daily_series daily) "pressure_msl"
                           (replicate (length times) (lit 1013)) !! i = Some p).
  { unfold dict_get. destruct (dict_find (daily_series daily) "pressure_msl") as [arr|] eqn:E.
    - apply Hget, Hpressure. reflexivity.
    - apply lookup_lt_is_Some. rewrite length_replicate. lia. }
  destruct Hp as [p Hp].
  unfold forecast_entry, mbind, M_bind, mret, M_ret, dict_item, list_item, raise.
  rewrite Hdate; simpl. rewrite H1; simpl. rewrite Ha; simpl. rewrite H2; simpl.
  rewrite Hb; simpl. rewrite H3; simpl. rewrite Hc; simpl. rewrite H4; simpl.
  rewrite Hd; simpl. rewrite Hp; simpl. eauto.
Qed.

Lemma forecast_loop_total (daily : daily_json F) (times : list string) (n : nat)
    (indices : list nat) :
  (n <= length times)%nat -> arrays_cover daily n ->
  Forall (fun i => (i < n)%nat) indices ->
  forall acc, exists l, forecast_loop daily times indices acc tt = (inr l, tt).
Proof.
  intros Hn Hcover. induction 1 as [|i indices Hi _ IH]; intros acc; simpl; [eauto|].
  destruct (forecast_entry_total daily times n i Hn Hcover Hi) as [entry E].
  unfold mbind, M_bind. rewrite E. apply IH.
Qed.

Lemma forecast_from_json_dates (data : weather_json F) (days : Z)
    (forecast : list (forecast_day F)) (d : daily_json F) (times : list string) :
  daily data = Some d -> daily_time d = Some times ->
  forecast_from_json data days = inr forecast ->
  map date forecast = take (length forecast) times.
Proof.
  intros Hd Ht Hrun.
  apply forecast_from_json_inv in Hrun as (d0 & times0 & Hd0 & Ht0 & Hlen & Hall).
  assert (d0 = d) as -> by congruence. assert (times0 = times) as -> by congruence.
  apply list_eq. intros i. rewrite list_lookup_fmap.
  destruct (forecast !! i) as [entry|] eqn:Hi; simpl.
  - destruct (Forall2_lookup_r _ _ _ _ _ Hall Hi) as (j & Hj & Hentry).
    apply lookup_seq in Hj as [-> _]. simpl in Hentry.
    apply forecast_entry_inv in Hentry as (Hdate & _).
    rewrite lookup_take_lt by (apply lookup_lt_Some in Hi; lia). symmetry. exact Hdate.
  - apply lookup_ge_None in Hi. symmetry. apply lookup_ge_None.
    rewrite length_take. lia.
Qed.

(** X2. What [fetch_weather_forecast] builds from an answer: as many days as
    asked for, or as the answer has dates, whichever is less; day [i]
    carries date [i], the means of the two temperature and of the two
    humidity arrays at [i], and the pressure array at [i]. *)
Theorem forecast_from_json_days (data : weather_json F) (days : Z)
    (forecast : list (forecast_day F)) :
  forecast_from_json data days = inr forecast ->
  exists d times,
    daily data = Some d /\ daily_time d = Some times
    /\ length forecast = Z.to_nat (Z.min days (Z.of_nat (length times)))
    /\ (Z.of_nat (length forecast) <= Z.max 0 days)%Z
    /\ map date forecast = take (length forecast) times
    /\ forall i entry, forecast !! i = Some entry ->
         exists tmax tmin hmax hmin a b c d',
           dict_find (daily_series d) "temperature_2m_max" = Some tmax /\ tmax !! i = Some a
           /\ dict_find (daily_series d) "temperature_2m_min" = Some tmin /\ tmin !! i = Some b
           /\ dict_find (daily_series d) "relative_humidity_2m_max" = Some hmax
           /\ hmax !! i = Some c
           /\ dict_find (daily_series d) "relative_humidity_2m_min" = Some hmin
           /\ hmin !! i = Some d'
           /\ day_temp_C entry = fdiv (fadd a b) (lit 2)
           /\ day_humidity entry = fdiv (fadd c d') (lit 2)
           /\ dict_get (daily_series d) "pressure_msl" (replicate (length times) (lit 1013)) !! i
              = Some (day_pressure_hPa entry).
Proof.
  intros Hrun0.
  destruct (forecast_from_json_inv data days forecast Hrun0) as (d & times & Hd & Ht & Hlen & Hall).
  exists d, times. split; [exact Hd|]. split; [exact Ht|]. split; [exact Hlen|].
  split; [lia|]. split; [exact (forecast_from_json_dates data days forecast d times Hd Ht Hrun0)|].
  intros i entry Hi.
  destruct (Forall2_lookup_r _ _ _ _ _ Hall Hi) as (j & Hj & Hentry).
  apply lookup_seq in Hj as [-> _]. simpl in Hentry.
  apply forecast_entry_inv in Hentry
    as (_ & (tmax & tmin & a & b & ? & ? & ? & ? & ?)
          & (hmax & hmin & c & d' & ? & ? & ? & ? & ?) & ?).
  exists tmax, tmin, hmax, hmin, a, b, c, d'. repeat split; assumption.
Qed.

(** X3. An answer without the key [pressure_msl] gives 1013 hPa on every
    day of the forecast. *)
Theorem forecast_default_pressure (data : weather_json F) (days : Z)
    (forecast : list (forecast_day F)) (d : daily_json F) :
  daily data = Some d ->
  dict_find (daily_series d) "pressure_msl" = None ->
  forecast_from_json data days = inr forecast ->
  forall entry, entry ∈ forecast -> day_pressure_hPa entry = lit 1013.
Proof.
  intros Hd Hnone Hrun entry Hentry.
  apply forecast_from_json_inv in Hrun as (d0 & times & Hd0 & Ht & Hlen & Hall).
  assert (d0 = d) as -> by congruence.
  apply list_elem_of_lookup in Hentry as [i Hi].
  destruct (Forall2_lookup_r _ _ _ _ _ Hall Hi) as (j & Hj & Hrun).
  apply forecast_entry_inv in Hrun as (_ & _ & _ & Hp).
  unfold dict_get in Hp. rewrite Hnone in Hp.
  apply lookup_replicate in Hp as [Hp _]. exact Hp.
Qed.

(** X4. An answer without ["daily"], or without ["time"] in it, is a
    [KeyError].  With no day to read (none asked for, or none dated) the
    forecast is empty and no array is looked at; otherwise the forecast is
    built exactly when the four arrays, and the pressure array if there is
    one, are as long as the number of days read: a missing or shorter array
    raises. *)
Theorem forecast_from_json_needs_arrays (data : weather_json F) (days : Z) :
  match daily data with
  | None => forecast_from_json data days = inl (KeyError "daily")
  | Some d =>
      match daily_time d with
      | None => forecast_from_json data days = inl (KeyError "time")
      | Some times =>
          let n := Z.to_nat (Z.min days (Z.of_nat (length times))) in
          (n = 0%nat -> forecast_from_json data days = inr [])
          /\ ((0 < n)%nat ->
              ((exists forecast, forecast_from_json data days = inr forecast)
               <-> arrays_cover d n))
      end
  end.
Proof.
  destruct (daily data) as [d|] eqn:Hd;
    [|unfold forecast_from_json; rewrite Hd; reflexivity].
  destruct (daily_time d) as [times|] eqn:Ht;
    [|unfold forecast_from_json; rewrite Hd; simpl; unfold mbind, M_bind; simpl;
      rewrite Ht; reflexivity].
  intros n.
  assert (Hrun : forecast_from_json data days
                 = fst (forecast_loop d times (seq 0 n) [] tt)).
  { unfold forecast_from_json, mbind, M_bind. rewrite Hd. simpl. rewrite Ht. reflexivity. }
  split.
  - intros Hn. rewrite Hrun, Hn. reflexivity.
  - intros Hn. split.
    + intros [forecast Hf]. rewrite Hrun in Hf.
      apply forecast_loop_inv in Hf as (new & -> & Hall).
      assert (Hlast : seq 0 n !! (n - 1)%nat = Some (n - 1)%nat)
        by (apply lookup_seq; split; [reflexivity|lia]).
      destruct (Forall2_lookup_l _ _ _ _ _ Hall Hlast) as (entry & _ & Hentry).
      apply forecast_entry_inv in Hentry
        as (_ & (tmax & tmin & a & b & H1 & Ha & H2 & Hb & _)
              & (hmax & hmin & c & d' & H3 & Hc & H4 & Hd' & _) & Hp).
      apply lookup_lt_Some in Ha, Hb, Hc, Hd'.
      split.
      * intros key Hkey.
        repeat (apply elem_of_cons in Hkey as [->|Hkey]; [eexists; split; [eassumption|lia]|]).
        inversion Hkey.
      * intros arr Harr. unfold dict_get in Hp. rewrite Harr in Hp.
        apply lookup_lt_Some in Hp. lia.
    + intros Hcover.
      destruct (forecast_loop_total d times n (seq 0 n) ltac:(subst n; lia) Hcover
                  ltac:(apply Forall_forall; intros i Hi; apply elem_of_seq in Hi; lia) [])
        as [l Hl].
      exists l. rewrite Hrun, Hl. reflexivity.
Qed.

End WeatherFacts.

(** ** The forecast path, in every outcome *)

Section ForecastRuns.
Context {F : Type} `{PyFloat F}.
Variable Model : Type.
Variable predict : Model -> list F -> F.
Variable get_gps_location : exn + (F * F).
Variable fetch_weather_forecast : F -> F -> Z -> exn + list (forecast_day F).

(** A day of the loop, whether it returns a row or raises, prints and does
    nothing else. *)
Lemma func1_day_frame (s : sample_input F) (day : forecast_day F) (w w' : world F Model)
    (r : exn + outcome F) :
  func1_day Model predict s day w = (r, w') ->
  fs w' = fs w /\ exists out, stdout w' = (stdout w ++ out)%list.
Proof.
  unfold func1_day.
  destruct (predict_outputs_returns Model predict (day_input s day) w) as (out & E).
  fold (day_input s day). run. rewrite E. simpl.
  repeat (destruct (f2 _) as [?err|?val] in |- *; simpl).
  all: intros [= <- <-]; simpl; split; [reflexivity|];
    rewrite <- app_assoc; eexists; reflexivity.
Qed.

Lemma func1_loop_frame (s : sample_input F) (forecast : list (forecast_day F)) :
  forall (l : list (outcome F)) (w w' : world F Model) (r : exn + list (outcome F)),
  func1_loop Model predict s forecast l w = (r, w') ->
  fs w' = fs w /\ exists out, stdout w' = (stdout w ++ out)%list.
Proof.
  induction forecast as [|day forecast IH]; intros l w w' r; simpl.
  - intros [= <- <-]. split; [reflexivity|]. exists []. rewrite app_nil_r. reflexivity.
  - unfold mbind, M_bind.
    destruct (func1_day Model predict s day w) as [[e|row] w1] eqn:Eday.
    + intros [= <- <-]. eapply func1_day_frame, Eday.
    + intros Hloop. apply IH in Hloop as (Hfs & out2 & Hout2).
      apply func1_day_frame in Eday as (Hfs1 & out1 & Hout1).
      split; [congruence|]. exists (out1 ++ out2)%list.
      rewrite Hout2, Hout1, app_assoc. reflexivity.
Qed.

(** What a day returns or raises depends on the inputs and the weather of
    the day, and on nothing else. *)
Lemma func1_day_result (s : sample_input F) (day : forecast_day F) (w : world F Model)
    (Model2 : Type) (predict2 : Model2 -> list F -> F) (w2 : world F Model2) :
  fst (func1_day Model predict s day w) = fst (func1_day Model2 predict2 s day w2).
Proof.
  unfold func1_day.
  destruct (predict_outputs_returns Model predict (day_input s day) w) as (out & E).
  destruct (predict_outputs_returns Model2 predict2 (day_input s day) w2) as (out2 & E2).
  fold (day_input s day). run. rewrite E, E2. simpl.
  repeat (destruct (f2 _) as [?err|?val] in |- *; simpl; [reflexivity|]). reflexivity.
Qed.

Lemma func1_loop_result (s : sample_input F) (forecast : list (forecast_day F))
    (Model2 : Type) (predict2 : Model2 -> list F -> F) :
  forall (l : list (outcome F)) (w : world F Model) (w2 : world F Model2),
  fst (func1_loop Model predict s forecast l w)
  = fst (func1_loop Model2 predict2 s forecast l w2).
Proof.
  induction forecast as [|day forecast IH]; intros l w w2; simpl; [reflexivity|].
  unfold mbind, M_bind.
  pose proof (func1_day_result s day w Model2 predict2 w2) as Hday.
  destruct (func1_day Model predict s day w) as [[e|row] w1];
    destruct (func1_day Model2 predict2 s day w2) as [[e2|row2] w3];
    simpl in Hday; try discriminate.
  - injection Hday as <-. reflexivity.
  - injection Hday as <-. apply IH.
Qed.

(** X5. [func1] writes no file and removes no line of output, whether it
    returns, raises or exits. *)
Theorem func1_writes_no_file (s : sample_input F) (w w' : world F Model)
    (r : exn + list (outcome F)) :
  func1 Model predict get_gps_location fetch_weather_forecast s w = (r, w') ->
  fs w' = fs w /\ exists out, stdout w' = (stdout w ++ out)%list.
Proof.
  unfold func1, try_except, mbind, M_bind, mret, M_ret, lift_result, print, raise.
  destruct get_gps_location as [e|[lat lon]]; simpl.
  - destruct (is_Exception e); simpl.
    + destruct (fetch_weather_forecast _ _ 7) as [e2|forecast]; simpl.
      * destruct (is_Exception e2); simpl; intros [= <- <-]; simpl;
          (split; [reflexivity|]); rewrite <- ?app_assoc; eexists; reflexivity.
      * intros Hloop. apply func1_loop_frame in Hloop as (Hfs & out & Hout). simpl in *.
        split; [exact Hfs|]. rewrite Hout, <- !app_assoc. eexists; reflexivity.
    + intros [= <- <-]. simpl. split; [reflexivity|]. eexists; reflexivity.
  - destruct (fetch_weather_forecast _ _ 7) as [e2|forecast]; simpl.
    + destruct (is_Exception e2); simpl; intros [= <- <-]; simpl;
        (split; [reflexivity|]); rewrite <- ?app_assoc; eexists; reflexivity.
    + intros Hloop. apply func1_loop_frame in Hloop as (Hfs & out & Hout). simpl in *.
      split; [exact Hfs|]. rewrite Hout, <- !app_assoc. eexists; reflexivity.
Qed.

(** X6. When the forecast cannot be fetched, [func1] exits with status 1
    whatever the error was: it prints the error last, reports on no day and
    leaves the files alone.  Without a location the forecast is asked for
    Chennai. *)
Theorem forecast_failure_exits (s : sample_input F) (w : world F Model) (e : exn) :
  (forall code, get_gps_location <> inl (SystemExit code)) ->
  fetch_weather_forecast (fst (location get_gps_location)) (snd (location get_gps_location)) 7
  = inl e ->
  is_Exception e = true ->
  exists w',
    func1 Model predict get_gps_location fetch_weather_forecast s w = (inl (SystemExit 1), w')
    /\ fs w' = fs w
    /\ last (stdout w') = Some (ForecastFailed e)
    /\ (forall m, m ∈ stdout w' -> m ∈ stdout w \/
          m ∈ [FetchingLocation; LocationFailed; FetchingForecast; ForecastFailed e]
          \/ exists lat lon, get_gps_location = inr (lat, lon) /\ m = CurrentLocation lat lon).
Proof.
  intros Hgps Hfetch He.
  unfold func1, try_except, mbind, M_bind, mret, M_ret, lift_result, print, raise.
  destruct get_gps_location as [e0|[lat lon]]; simpl in *.
  - destruct e0; simpl; try (exfalso; eapply Hgps; reflexivity).
    all: rewrite Hfetch; simpl; rewrite He; simpl; eexists; split; [reflexivity|]; simpl.
    all: split; [reflexivity|]; split; [apply last_snoc|].
    all: intros m Hm; rewrite !elem_of_app, !list_elem_of_singleton in Hm;
      rewrite !elem_of_cons; tauto.
  - rewrite Hfetch. simpl. rewrite He. simpl. eexists. split; [reflexivity|]. simpl.
    split; [reflexivity|]. split; [apply last_snoc|].
    intros m Hm. rewrite !elem_of_app, !list_elem_of_singleton in Hm.
    rewrite !elem_of_cons.
    destruct Hm as [[[[Hm|Hm]|Hm]|Hm]|Hm]; try tauto.
    right. right. exists lat, lon. split; [reflexivity|exact Hm].
Qed.

End ForecastRuns.

(** X7. The model has no part in what is returned: for the same inputs,
    [predict_outputs] returns the same dict, and [func1] the same rows or
    the same error, whatever the files hold and whatever the models
    predict. *)
Theorem outputs_ignore_the_model {F : Type} `{PyFloat F}
    (Model1 Model2 : Type) (predict1 : Model1 -> list F -> F)
    (predict2 : Model2 -> list F -> F) (w1 : world F Model1) (w2 : world F Model2) :
  (forall d : input_data F,
     fst (predict_outputs Model1 predict1 d w1) = fst (predict_outputs Model2 predict2 d w2))
  /\ (forall gps fetch (s : sample_input F),
        fst (func1 Model1 predict1 gps fetch s w1) = fst (func1 Model2 predict2 gps fetch s w2)).
Proof.
  split.
  - intros d. rewrite !predict_outputs_value. reflexivity.
  - intros gps fetch s.
    unfold func1, try_except, mbind, M_bind, mret, M_ret, lift_result, print, raise.
    destruct gps as [e|[lat lon]]; simpl.
    + destruct (is_Exception e); simpl; [|reflexivity].
      destruct (fetch _ _ _) as [e2|forecast]; simpl.
      * destruct (is_Exception e2); reflexivity.
      * apply func1_loop_result.
    + destruct (fetch _ _ _) as [e2|forecast]; simpl.
      * destruct (is_Exception e2); reflexivity.
      * apply func1_loop_result.
Qed.

(** X8. [func1] over [fetch_weather_forecast]: the rows returned are those
    of the first days the answer dates, seven at most, under their dates
    and in their order. *)
Theorem func1_first_seven_days {F : Type} `{PyFloat F} (Model : Type)
    (predict : Model -> list F -> F) (gps : exn + (F * F))
    (http_get : F -> F -> exn + weather_json F) (s : sample_input F)
    (w w' : world F Model) (rows : list (outcome F)) :
  func1 Model predict gps (fetch_weather_forecast http_get) s w = (inr rows, w') ->
  exists data d times,
    http_get (fst (location gps)) (snd (location gps)) = inr data
    /\ daily data = Some d /\ daily_time d = Some times
    /\ length rows = Nat.min 7 (length times)
    /\ map fst rows = take 7 times.
Proof.
  intros Hrun. apply func1_returns_inv in Hrun as (forecast & w1 & Hfetch & _ & Hloop).
  apply func1_loop_returns in Hloop as (_ & new & -> & Hnew). rewrite app_nil_l.
  unfold fetch_weather_forecast in Hfetch.
  destruct (http_get _ _) as [e|data]; [discriminate|].
  destruct (forecast_from_json_inv data 7 forecast Hfetch) as (d & times & Hd & Ht & Hlen & _).
  pose proof (forecast_from_json_dates data 7 forecast d times Hd Ht Hfetch) as Hdates.
  exists data, d, times. split; [reflexivity|]. split; [exact Hd|]. split; [exact Ht|].
  assert (Hl : length new = length forecast) by (symmetry; eapply Forall2_length, Hnew).
  assert (Hfst : map fst new = map date forecast).
  { clear -Hnew. induction Hnew as [|day row forecast new Hrow _ IH]; [reflexivity|].
    simpl. rewrite IH. f_equal.
    destruct (Hrow {| fs := ∅; stdout := [] |})
      as (? & ? & ? & ? & ? & ? & ? & ? & ? & ? & ? & ? & ? & Hout).
    decompose [and] Hout. subst row. reflexivity. }
  split; [lia|]. rewrite Hfst, Hdates.
  destruct (decide (7 <= length times)%nat) as [Hge|Hlt].
  - replace (length forecast) with 7%nat by lia. reflexivity.
  - rewrite !take_ge by lia. reflexivity.
Qed.

(** ** The recommended scenario under the weather, and the cut to two decimals *)

Lemma Qmult_nonneg_mono (a b c d : Q) :
  (0 <= a <= b -> 0 <= c <= d -> 0 <= a * c <= b * d)%Q.
Proof.
  intros Hab Hcd. split; [apply Qmult_le_0_compat; lra|].
  apply Qmult_le_compat_nonneg; assumption.
Qed.

(** The base efficiency and the fuel per kWh of the engine are positive for
    every fuel type, known or not. *)
Lemma engine_rates_positive (fuel : string) :
  (0 < dict_get [("coal", 0.38); ("oil", 0.42); ("natural_gas", 0.50)] fuel 0.40
   /\ 0 < dict_get [("coal", 0.35); ("oil", 0.25); ("natural_gas", 0.20)] fuel 0.3)%Q.
Proof.
  unfold dict_get, dict_find.
  destruct (String.eqb "coal" fuel), (String.eqb "oil" fuel), (String.eqb "natural_gas" fuel);
    split; reflexivity.
Qed.

(** X9. In exact arithmetic, for a plant of non-negative capacity and
    hours: of two days, the one that is no cooler, no drier and at no higher
    pressure gets no higher an efficiency, generation and fuel use
    recommended, and no lower a fuel saving (temperatures up to 525 degrees,
    humidities up to 1040 %, pressures from 0 hPa, where the three factors
    are not negative). *)
Theorem harsher_day_recommends_less (s : sample_input Q) (day1 day2 : forecast_day Q) :
  (0 <= max_capacity_mw s)%Q -> (0 <= run_hours s)%Q ->
  (day_temp_C day1 <= day_temp_C day2 <= 525)%Q ->
  (day_humidity day1 <= day_humidity day2 <= 1040)%Q ->
  (0 <= day_pressure_hPa day2 <= day_pressure_hPa day1)%Q ->
  exists e1 e2 g1 g2 u1 u2 v1 v2 : Q,
    dict_find (recommended_outputs (day_input s day1)) "recommended_efficiency" = Some e1
    /\ dict_find (recommended_outputs (day_input s day2)) "recommended_efficiency" = Some e2
    /\ dict_find (recommended_outputs (day_input s day1)) "recommended_generation_mw" = Some g1
    /\ dict_find (recommended_outputs (day_input s day2)) "recommended_generation_mw" = Some g2
    /\ dict_find (recommended_outputs (day_input s day1)) "fuel_used_recommended" = Some u1
    /\ dict_find (recommended_outputs (day_input s day2)) "fuel_used_recommended" = Some u2
    /\ dict_find (recommended_outputs (day_input s day1)) "fuel_saved" = Some v1
    /\ dict_find (recommended_outputs (day_input s day2)) "fuel_saved" = Some v2
    /\ (0 <= e2 <= e1 /\ 0 <= g2 <= g1 /\ 0 <= u2 <= u1 /\ v1 <= v2)%Q.
Proof.
  intros Hcap Hrun Ht Hh Hp.
  do 8 eexists. do 8 (split; [reflexivity|]).
  unfold calc_recommended_efficiency. simpl.
  destruct (engine_rates_positive (fuel_type s)) as [Hbase Hrate].
  set (base := dict_get _ (fuel_type s) 0.40%Q) in *.
  set (rate := dict_get _ (fuel_type s) 0.3%Q) in *. clearbody base rate.
  destruct day1 as [d1 t1 h1 p1], day2 as [d2 t2 h2 p2]. simpl in *.
  assert (He : (0 <= base * (1 - 0.002 * (t2 - 25)) * (1 - 0.001 * (h2 - 40))
                    * (1 + 0.0005 * (p2 - 1013.25))
                <= base * (1 - 0.002 * (t1 - 25)) * (1 - 0.001 * (h1 - 40))
                   * (1 + 0.0005 * (p1 - 1013.25)))%Q).
  { repeat apply Qmult_nonneg_mono; lra. }
  set (e1 := (base * _ * _ * (1 + 0.0005 * (p1 - 1013.25)))%Q) in *.
  set (e2 := (base * _ * _ * (1 + 0.0005 * (p2 - 1013.25)))%Q) in *. clearbody e1 e2.
  assert (Hg : (0 <= max_capacity_mw s * e2 <= max_capacity_mw s * e1)%Q).
  { apply Qmult_nonneg_mono; [lra|exact He]. }
  set (g1 := (max_capacity_mw s * e1)%Q) in *.
  set (g2 := (max_capacity_mw s * e2)%Q) in *. clearbody g1 g2.
  assert (Hu : (0 <= g2 * 1000 * run_hours s * rate <= g1 * 1000 * run_hours s * rate)%Q).
  { repeat apply Qmult_nonneg_mono; lra. }
  set (k1 := (g1 * 1000 * run_hours s * rate)%Q) in *.
  set (k2 := (g2 * 1000 * run_hours s * rate)%Q) in *. clearbody k1 k2.
  unfold Qdiv. change (/ 1000)%Q with (1 # 1000)%Q.
  repeat split; lra.
Qed.

(** X11. On binary64 [f2] raises exactly when the product by 100 is an
    infinity or a NaN, which it is for a finite number from about 1.8e306
    on; and it does not leave every number of two decimals as it is: the
    product of 0.57 by 100 is below 57, and [f2] gives 0.56. *)
Theorem f2_binary64 :
  (forall x : float,
     (exists y, f2 x = inr y)
     <-> Prim2SF (x * lit 100)%float <> S754_nan
         /\ forall s, Prim2SF (x * lit 100)%float <> S754_infinity s)
  /\ (forall x : float, (forall y, f2 x <> inr y) <-> f2 x = inl CannotConvert)
  /\ f2 (lit 1.8e306 : float) = inl CannotConvert
  /\ f2 (lit 0.57 : float) = inr (lit 0.56).
Proof.
  split; [|split; [|split]].
  - intros x. rewrite <- py_int_float_finite. unfold f2.
    change fmul with PrimFloat.mul.
    destruct (py_int (x * lit 100)%float) as [n|]; split.
    + intros _. eexists; reflexivity.
    + intros _. eexists; reflexivity.
    + intros [y [=]].
    + intros [n [=]].
  - intros x. unfold f2. destruct (py_int _) as [n|]; split.
    + intros Hno. exfalso. eapply Hno. reflexivity.
    + discriminate.
    + reflexivity.
    + intros _ y. discriminate.
  - vm_compute. reflexivity.
  - vm_compute. reflexivity.
Qed.

(** ** The trainer, in every outcome *)

Section TrainingRuns.
Context {F : Type} `{PyFloat F}.
Variable Model : Type.
Variable predict : Model -> list F -> F.
Variable train_test_split :
  list (list F) -> list F -> Q -> Z -> list (list F) * list (list F) * list F * list F.
Variable fit : RandomForestRegressor -> list (list F) -> list F -> Model.
Variable r2_score : list F -> list F -> F.
Variable mean_absolute_error : list F -> list F -> F.

Abbreviation train_fuel := (train_fuel Model predict train_test_split fit r2_score mean_absolute_error).
Abbreviation train_all := (train_all Model predict train_test_split fit r2_score mean_absolute_error).
Abbreviation trainer := (trainer Model predict train_test_split fit r2_score mean_absolute_error).
Abbreviation trained_model := (trained_model Model train_test_split fit).
Abbreviation train_line :=
  (train_line Model predict train_test_split fit r2_score mean_absolute_error).
Abbreviation train_store := (train_store Model train_test_split fit).

(** One turn of the loop: the fuel is dealt with, or a column is missing
    and nothing has been done. *)
Lemma train_fuel_outcome (cols : list string) (rows : list (OperatingSample F)) (fuel : string)
    (w : world F Model) :
  train_fuel {| df_columns := cols; df_rows := rows |} fuel w
  = (inr tt, {| fs := train_store rows (fs w) fuel;
                stdout := stdout w ++ [train_line rows fuel] |})
  \/ exists c, train_fuel {| df_columns := cols; df_rows := rows |} fuel w = (inl (KeyError c), w)
               /\ c ∈ trainer_columns /\ c ∉ cols.
Proof.
  unfold train_fuel, train_store, train_line, trained_model. simpl.
  fold (fuel_rows rows fuel).
  destruct (length (fuel_rows rows fuel) <? 5)%nat; [left; reflexivity|].
  unfold mbind, M_bind, df_select, df_series, FEATURES. simpl.
  unfold mbind, M_bind, raise. simpl.
  repeat (destruct (decide (_ ∈ cols)) as [_|Hno]; simpl;
          [|right; eexists; split; [reflexivity|]; split; [|exact Hno];
            apply (bool_decide_unpack _); vm_compute; reflexivity]).
  left. destruct (train_test_split _ _ _ _) as [[[X_train X_test] y_train] y_test].
  reflexivity.
Qed.

(** The loop: the fuels done, in order, and then the end or a missing
    column. *)
Lemma train_loop_outcome (cols : list string) (rows : list (OperatingSample F))
    (fuels : list string) :
  forall (w w' : world F Model) (r : exn + unit),
  for_each fuels (train_fuel {| df_columns := cols; df_rows := rows |}) w = (r, w') ->
  exists done rest,
    fuels = (done ++ rest)%list
    /\ fs w' = foldl (train_store rows) (fs w) done
    /\ stdout w' = (stdout w ++ map (train_line rows) done)%list
    /\ ((r = inr tt /\ rest = [])
        \/ exists c, r = inl (KeyError c) /\ c ∈ trainer_columns /\ c ∉ cols).
Proof.
  induction fuels as [|fuel fuels IH]; intros w w' r; simpl.
  - intros [= <- <-]. exists [], []. split; [reflexivity|]. split; [reflexivity|].
    split; [simpl; rewrite app_nil_r; reflexivity|]. left. split; reflexivity.
  - unfold mbind, M_bind.
    destruct (train_fuel_outcome cols rows fuel w) as [E|(c & E & Hc & Hno)]; rewrite E.
    + intros Hloop. apply IH in Hloop as (done & rest & -> & Hfs & Hout & Hend).
      exists (fuel :: done), rest. simpl in *. split; [reflexivity|]. split; [exact Hfs|].
      split; [rewrite Hout, <- app_assoc; reflexivity|exact Hend].
    + intros [= <- <-]. exists [], (fuel :: fuels). split; [reflexivity|].
      split; [reflexivity|]. split; [simpl; rewrite app_nil_r; reflexivity|].
      right. exists c. repeat split; assumption.
Qed.

(** A run of the trainer, whatever the store holds. *)
Lemma trainer_outcome (w w' : world F Model) (r : exn + unit) :
  trainer w = (r, w') ->
  ((fs w !! CSV_FILE = None \/ fs w !! CSV_FILE = Some EmptyFile)
   /\ r = inl (SystemExit 0) /\ w' = say w NoTrainingData)
  \/ ((exists m, fs w !! CSV_FILE = Some (JoblibFile m))
      /\ r = inl (LoadError CSV_FILE) /\ w' = w)
  \/ exists cols rows done rest,
       fs w !! CSV_FILE = Some (CsvFile cols rows)
       /\ (done ++ rest)%list = unique (map s_fuel_type rows)
       /\ ((r = inr tt /\ rest = [] /\ "fuel_type" ∈ cols
            /\ fs w' = <[CSV_FILE := CsvFile cols []]> (foldl (train_store rows) (fs w) done)
            /\ stdout w' = ((stdout w ++ map (train_line rows) done) ++ [DataCleared])%list)
           \/ (exists c, r = inl (KeyError c) /\ c ∈ trainer_columns /\ (c ∉ cols)
                         /\ fs w' = foldl (train_store rows) (fs w) done
                         /\ stdout w' = (stdout w ++ map (train_line rows) done)%list)).
Proof.
  unfold trainer, missing_or_empty, read_csv, train_all, df_fuel_type, to_csv_no_rows,
    write_file, print, raise, mbind, M_bind, mret, M_ret.
  destruct (fs w !! CSV_FILE) as [[|cols rows|m]|] eqn:Hcsv; simpl; try rewrite Hcsv; simpl.
  - intros [= <- <-]. left. split; [right; reflexivity|]. split; reflexivity.
  - intros Hrun. right. right. exists cols, rows. revert Hrun.
    destruct (decide ("fuel_type" ∈ cols)) as [Hft|Hno]; simpl.
    + destruct (for_each _ _ w) as [[e|[]] w1] eqn:Hloop; intros [= <- <-];
        apply train_loop_outcome in Hloop as (done & rest & Hsplit & Hfs & Hout & Hend);
        destruct Hend as [[Hr ->]|(c & Hr & Hc & Hnoc)]; try discriminate Hr.
      * injection Hr as ->. exists done, rest. split; [reflexivity|]. split; [auto|].
        right. exists c. repeat split; assumption.
      * exists done, []. split; [reflexivity|]. split; [auto|].
        left. simpl. rewrite Hfs, Hout. repeat split. exact Hft.
    + intros [= <- <-]. exists [], (unique (map s_fuel_type rows)).
      split; [reflexivity|]. split; [reflexivity|].
      right. exists "fuel_type". simpl. rewrite app_nil_r. repeat split; [left|exact Hno].
  - intros [= <- <-]. right. left. split; [eauto|]. split; reflexivity.
  - intros [= <- <-]. left. split; [left; reflexivity|]. split; reflexivity.
Qed.

(** A fuel type with 5 samples or more is one of the store. *)
Lemma fuel_rows_in_store (rows : list (OperatingSample F)) (fuel : string) :
  (0 < length (fuel_rows rows fuel))%nat -> fuel ∈ map s_fuel_type rows.
Proof.
  unfold fuel_rows. intros Hlen.
  destruct (filter _ rows) as [|r l] eqn:E; [simpl in Hlen; lia|].
  assert (Hr : r ∈ filter (fun r => s_fuel_type r = fuel) rows) by (rewrite E; left).
  apply list_elem_of_filter in Hr as [<- Hr]. apply list_elem_of_fmap. eauto.
Qed.

(** The model files after part of the loop. *)
Lemma train_store_models (rows : list (OperatingSample F)) (done : list string)
    (m : gmap string (file F Model)) (fuel : string) :
  NoDup done ->
  foldl (train_store rows) m done !! ("model_" +:+ fuel +:+ ".joblib")
  = m !! ("model_" +:+ fuel +:+ ".joblib")
  \/ ((5 <= length (fuel_rows rows fuel))%nat
      /\ foldl (train_store rows) m done !! ("model_" +:+ fuel +:+ ".joblib")
         = Some (JoblibFile (trained_model rows fuel))).
Proof.
  intros Hnd. destruct (decide (fuel ∈ done)) as [Hin|Hno].
  - rewrite (train_store_lookup Model train_test_split fit rows done m fuel Hnd Hin).
    destruct (length (fuel_rows rows fuel) <? 5)%nat eqn:E; [left; reflexivity|].
    right. apply Nat.ltb_ge in E. split; [exact E|reflexivity].
  - left. apply train_store_frame. intros f Hf Heq. apply model_path_inj in Heq.
    subst f. exact (Hno Hf).
Qed.

(** The trainer leaves alone every file but the sample store and the model
    files, in every outcome. *)
Lemma trainer_frame (w w' : world F Model) (r : exn + unit) (path : string) :
  trainer w = (r, w') ->
  path <> CSV_FILE -> (forall fuel, path <> "model_" +:+ fuel +:+ ".joblib") ->
  fs w' !! path = fs w !! path.
Proof.
  intros Hrun Hcsv Hmodel.
  apply trainer_outcome in Hrun
    as [(_ & _ & ->)|[(_ & _ & ->)|(cols & rows & done & rest & _ & _ & Hend)]];
    [reflexivity..|].
  assert (Hframe : foldl (train_store rows) (fs w) done !! path = fs w !! path).
  { apply train_store_frame. intros fuel _. apply Hmodel. }
  destruct Hend as [(_ & _ & _ & Hfs & _)|(c & _ & _ & _ & Hfs & _)]; rewrite Hfs.
  - rewrite lookup_insert_ne by congruence. exact Hframe.
  - exact Hframe.
Qed.


(** X12. The trainer writes to the sample store and to model files and to
    nothing else; the sample store is as it was unless the run completes; a
    model file that has changed holds the model fitted on the samples of its
    fuel type, which are 5 or more. *)
Theorem trainer_touches_only_its_files (w w' : world F Model) (r : exn + unit) :
  trainer w = (r, w') ->
  (forall path, path <> CSV_FILE -> (forall fuel, path <> "model_" +:+ fuel +:+ ".joblib") ->
     fs w' !! path = fs w !! path)
  /\ (r <> inr tt -> fs w' !! CSV_FILE = fs w !! CSV_FILE)
  /\ (forall fuel,
        fs w' !! ("model_" +:+ fuel +:+ ".joblib") = fs w !! ("model_" +:+ fuel +:+ ".joblib")
        \/ exists cols rows,
             fs w !! CSV_FILE = Some (CsvFile cols rows)
             /\ fuel ∈ map s_fuel_type rows
             /\ (5 <= length (fuel_rows rows fuel))%nat
             /\ fs w' !! ("model_" +:+ fuel +:+ ".joblib")
                = Some (JoblibFile (trained_model rows fuel))).
Proof.
  intros Hrun. split; [intros path; apply (trainer_frame w w' r path Hrun)|].
  apply trainer_outcome in Hrun
    as [(_ & -> & ->)|[(_ & -> & ->)|(cols & rows & done & rest & Hcsv & Hsplit & Hend)]].
  1,2: split; [reflexivity|]; left; reflexivity.
  assert (Hnd : NoDup done).
  { destruct (unique_spec (map s_fuel_type rows)) as [Hnd _]. rewrite <- Hsplit in Hnd.
    apply NoDup_app in Hnd as [Hnd _]. exact Hnd. }
  assert (Hframe : forall path, (forall fuel, path <> "model_" +:+ fuel +:+ ".joblib") ->
            foldl (train_store rows) (fs w) done !! path = fs w !! path).
  { intros path Hpath. apply train_store_frame. intros fuel _. apply Hpath. }
  assert (Hmodels : forall fuel,
            foldl (train_store rows) (fs w) done !! ("model_" +:+ fuel +:+ ".joblib")
            = fs w !! ("model_" +:+ fuel +:+ ".joblib")
            \/ exists cols0 rows0,
                 fs w !! CSV_FILE = Some (CsvFile cols0 rows0)
                 /\ fuel ∈ map s_fuel_type rows0
                 /\ (5 <= length (fuel_rows rows0 fuel))%nat
                 /\ foldl (train_store rows) (fs w) done !! ("model_" +:+ fuel +:+ ".joblib")
                    = Some (JoblibFile (trained_model rows0 fuel))).
  { intros fuel. destruct (train_store_models rows done (fs w) fuel Hnd) as [E|[Hlen E]];
      [left; exact E|right]. exists cols, rows. split; [exact Hcsv|].
    split; [apply fuel_rows_in_store; lia|]. split; assumption. }
  destruct Hend as [(-> & -> & _ & Hfs & _)|(c & -> & _ & _ & Hfs & _)]; rewrite Hfs.
  - split.
    + intros Hr. exfalso. apply Hr. reflexivity.
    + intros fuel.
      rewrite lookup_insert_ne
        by (intros Heq; symmetry in Heq; exact (model_path_not_csv fuel Heq)).
      apply Hmodels.
  - split.
    + intros _. apply Hframe. intros fuel Heq. symmetry in Heq.
      exact (model_path_not_csv fuel Heq).
    + apply Hmodels.
Qed.


(** X14. A second run right after a completed one finds the header and no
    sample: it trains nothing, changes no file, and prints only that the data
    was cleared. *)
Theorem trainer_again_is_idle (w w' : world F Model) :
  trainer w = (inr tt, w') -> trainer w' = (inr tt, say w' DataCleared).
Proof.
  intros Hrun. apply trainer_outcome in Hrun
    as [(_ & [=] & _)|[(_ & [=] & _)|(cols & rows & done & rest & Hcsv & _ & Hend)]].
  destruct Hend as [(_ & _ & Hft & Hfs & _)|(c & [=] & _)].
  assert (Hcsv' : fs w' !! CSV_FILE = Some (CsvFile cols [])) by (rewrite Hfs; apply lookup_insert_eq).
  unfold trainer, missing_or_empty, read_csv, train_all, df_fuel_type, to_csv_no_rows,
    write_file, print, raise, mbind, M_bind, mret, M_ret.
  rewrite Hcsv'. simpl. rewrite Hcsv'. simpl.
  destruct (decide ("fuel_type" ∈ cols)) as [_|Hno]; [|contradiction]. simpl.
  unfold say. rewrite (insert_id (fs w') CSV_FILE _ Hcsv'). reflexivity.
Qed.


(** X16. The trainer right after the generator module is loaded: the two
    stores hold the header and no sample, and the trainer trains nothing; it
    neither exits for lack of data nor changes a file. *)
Theorem fresh_store_trains_nothing (w : world F Model) :
  exists w1,
    write_headers Model w = (inr tt, w1)
    /\ fs w1 !! CSV_FILE = Some (CsvFile HEADERS [])
    /\ fs w1 !! BACKUP_CSV_FILE = Some (CsvFile HEADERS [])
    /\ (forall path, path <> CSV_FILE -> path <> BACKUP_CSV_FILE -> fs w1 !! path = fs w !! path)
    /\ stdout w1 = stdout w
    /\ trainer w1 = (inr tt, say w1 DataCleared).
Proof.
  eexists. split; [reflexivity|]. simpl.
  assert (Hcsv : (<[BACKUP_CSV_FILE := CsvFile HEADERS []]>
                    (<[CSV_FILE := CsvFile HEADERS []]> (fs w)) : gmap string (file F Model))
                 !! CSV_FILE = Some (CsvFile HEADERS [])).
  { rewrite lookup_insert_ne by discriminate. apply lookup_insert_eq. }
  split; [exact Hcsv|]. split; [apply lookup_insert_eq|]. split; [|split; [reflexivity|]].
  - intros path H1 H2. rewrite !lookup_insert_ne by congruence. reflexivity.
  - unfold trainer, missing_or_empty, read_csv, train_all, df_fuel_type, to_csv_no_rows,
      write_file, print, raise, mbind, M_bind, mret, M_ret. simpl.
    rewrite Hcsv. simpl. rewrite Hcsv. simpl.
    destruct (decide ("fuel_type" ∈ HEADERS)) as [_|Hno];
      [|exfalso; apply Hno; apply (bool_decide_unpack _); vm_compute; reflexivity].
    simpl. unfold say. simpl. rewrite (insert_id _ CSV_FILE _ Hcsv). reflexivity.
Qed.

End TrainingRuns.

(** ** The generator in exact arithmetic *)

(** Rounding half to even moves a number by a half at most, and not across
    an integer. *)
Lemma Qround_half_even_near (y : Q) :
  (inject_Z (Qround_half_even y) - (1 # 2) <= y <= inject_Z (Qround_half_even y) + (1 # 2))%Q.
Proof.
  unfold Qround_half_even.
  pose proof (Qfloor_le y) as Hlo. pose proof (Qlt_floor y) as Hhi.
  rewrite inject_Z_plus in Hhi. change (inject_Z 1) with 1%Q in Hhi.
  destruct (Qcompare_spec (y - inject_Z (Qfloor y)) (1 # 2)) as [Heq|Hlt|Hgt].
  - destruct (Z.even (Qfloor y)).
    + lra.
    + rewrite inject_Z_plus. change (inject_Z 1) with 1%Q. lra.
  - lra.
  - rewrite inject_Z_plus. change (inject_Z 1) with 1%Q. lra.
Qed.

Lemma Qround_half_even_between (y : Q) (k : Z) :
  ((inject_Z k <= y)%Q -> (k <= Qround_half_even y)%Z)
  /\ ((y <= inject_Z k)%Q -> (Qround_half_even y <= k)%Z).
Proof.
  unfold Qround_half_even.
  pose proof (Qfloor_le y) as Hlo. pose proof (Qlt_floor y) as Hhi.
  split; intros Hk.
  - assert (Hf : (k <= Qfloor y)%Z).
    { rewrite <- (Qfloor_Z k). apply Qfloor_resp_le, Hk. }
    destruct (Qcompare _ _); [destruct (Z.even _)|..]; lia.
  - destruct (Z.eq_dec (Qfloor y) k) as [Heq|Hne].
    + assert (Hy : (y == inject_Z (Qfloor y))%Q) by (rewrite Heq in *; lra).
      destruct (Qcompare_spec (y - inject_Z (Qfloor y)) (1 # 2)) as [He|Hl|Hg]; [lra|lia|lra].
    + assert (Hf : (Qfloor y <= k)%Z).
      { rewrite <- (Qfloor_Z k). apply Qfloor_resp_le, Hk. }
      destruct (Qcompare _ _); [destruct (Z.even _)|..]; lia.
Qed.

(** [round(x, 4)] in exact arithmetic lies within half a unit of the fourth
    decimal of [x]. *)
Lemma py_round_4_near (x : Q) : (x - 0.00005 <= py_round x 4 <= x + 0.00005)%Q.
Proof.
  unfold py_round, Q_round. change (Qpow10 4) with 10000%Q.
  pose proof (Qround_half_even_near (x * 10000)) as Hnear.
  set (r := inject_Z _) in *. clearbody r.
  unfold Qdiv. change (/ 10000)%Q with (1 # 10000)%Q. lra.
Qed.

(** The efficiency returned for a draw [u] of the noise. *)
Lemma calculate_efficiency_draw (env : Type) (random_random : M env Q)
    (config : fuel_config Q) (temp_C humidity pressure_hPa : Q) (run_hours : Z)
    (timestamp : datetime) (load_factor : Q) (e e' : env) (u : Q) :
  random_random e = (inr u, e') ->
  (0 <= u <= 1)%Q ->
  (0 <= fst (efficiency_range config) <= snd (efficiency_range config))%Q ->
  exists r : Q,
    calculate_efficiency env random_random config temp_C humidity pressure_hPa run_hours
      timestamp load_factor e = (inr r, e')
    /\ (0.995 * fst (efficiency_range config) - 0.00005 <= r
        <= 1.005 * snd (efficiency_range config) + 0.00005)%Q.
Proof.
  intros Hu [Hu0 Hu1] [Hmin Hrange].
  unfold calculate_efficiency, random_uniform, mbind, M_bind, mret, M_ret.
  rewrite Hu. eexists. split; [reflexivity|].
  assert (Hclip : in_efficiency_range config
            (clipped_efficiency config temp_C humidity pressure_hPa run_hours timestamp
               load_factor)).
  { unfold in_efficiency_range, clipped_efficiency.
    destruct (efficiency_range config) as [min_eff max_eff]. simpl in Hmin, Hrange.
    apply clip_in_range. apply Qle_bool_iff, Hrange. }
  destruct Hclip as [Hlo Hhi]. simpl in Hlo, Hhi. apply Qle_bool_iff in Hlo, Hhi.
  set (c := clipped_efficiency _ _ _ _ _ _ _) in *. clearbody c.
  set (lo := fst (efficiency_range config)) in *.
  set (hi := snd (efficiency_range config)) in *. clearbody lo hi.
  simpl.
  set (noise := (0.995 + (1.005 - 0.995) * u)%Q).
  assert (Hnoise : (0.995 <= noise <= 1.005)%Q) by (unfold noise; lra).
  clearbody noise.
  pose proof (Qmult_nonneg_mono lo c 0.995 noise ltac:(lra) ltac:(lra)) as [_ H1].
  pose proof (Qmult_nonneg_mono c hi noise 1.005 ltac:(lra) ltac:(lra)) as [_ H2].
  pose proof (py_round_4_near (c * noise)) as Hround.
  simpl in Hround. lra.
Qed.

(** X17. In exact arithmetic, for a profile with 0 <= minimum <= maximum
    and a draw of [random.random()] between 0 and 1, the efficiency
    [calculate_efficiency] returns leaves the range of the profile by the
    noise of half a percent and the rounding at most:
    0.995 min - 0.00005 <= efficiency <= 1.005 max + 0.00005. *)
Theorem calculate_efficiency_near_range (env : Type) (random_random : M env Q)
    (config : fuel_config Q) (temp_C humidity pressure_hPa : Q) (run_hours : Z)
    (timestamp : datetime) (load_factor : Q) (e e' : env) (u : Q) :
  random_random e = (inr u, e') ->
  (0 <= u <= 1)%Q ->
  (0 <= fst (efficiency_range config) <= snd (efficiency_range config))%Q ->
  exists r : Q,
    calculate_efficiency env random_random config temp_C humidity pressure_hPa run_hours
      timestamp load_factor e = (inr r, e')
    /\ (0.995 * fst (efficiency_range config) - 0.00005 <= r
        <= 1.005 * snd (efficiency_range config) + 0.00005)%Q.
Proof.
  intros Hu Hu01 Hrange.
  exact (calculate_efficiency_draw env random_random config temp_C humidity pressure_hPa
           run_hours timestamp load_factor e e' u Hu Hu01 Hrange).
Qed.

(** ** The rows of the generator *)

Lemma py_round_2_between (x lo hi : Q) (a b : Z) :
  (lo == inject_Z a / 100)%Q -> (hi == inject_Z b / 100)%Q ->
  (lo <= x <= hi)%Q -> (lo <= py_round x 2 <= hi)%Q.
Proof.
  unfold py_round, Q_round. change (Qpow10 2) with 100%Q.
  unfold Qdiv. change (/ 100)%Q with (1 # 100)%Q. intros Hlo Hhi [Ha Hb].
  destruct (Qround_half_even_between (x * 100) a) as [Hlo' _].
  destruct (Qround_half_even_between (x * 100) b) as [_ Hhi'].
  specialize (Hlo' ltac:(lra)). specialize (Hhi' ltac:(lra)).
  rewrite Zle_Qle in Hlo', Hhi'. set (r := inject_Z (Qround_half_even _)) in *. clearbody r.
  lra.
Qed.

(** Every day has one of the twelve months. *)
Lemma month_of_days_range (d : Z) : (1 <= month_of_days d <= 12)%Z.
Proof.
  unfold month_of_days. cbv zeta.
  destruct (_ <? 10)%Z eqn:Hmp; [apply Z.ltb_lt in Hmp|apply Z.ltb_ge in Hmp];
    revert Hmp; Z.to_euclidean_division_equations; lia.
Qed.

Section GeneratorRuns.
Variable env : Type.
Variable random_random : M env Q.
Variable random_randint : Z -> Z -> M env Z.
Variable datetime_now : M env datetime.
Variable np_sin : Q -> Q.
Variable np_pi : Q.

(** What is assumed of the three sources: [random.random()] gives a number
    between 0 and 1, [random.randint(a, b)] an integer between [a] and [b],
    and [datetime.now()] a datetime, none before [earliest]. *)
Variable earliest : datetime.
Hypothesis random_random_unit :
  forall e, exists u e', random_random e = (inr u, e') /\ (0 <= u <= 1)%Q.
Hypothesis random_randint_between :
  forall a b e, (a <= b)%Z ->
    exists n e', random_randint a b e = (inr n, e') /\ (a <= n <= b)%Z.
Hypothesis datetime_now_returns :
  forall e, exists t e', datetime_now e = (inr t, e') /\ (earliest <= t <= datetime_max)%Z.

Abbreviation random_uniform := (random_uniform env random_random).
Abbreviation get_seasonal_temperature :=
  (get_seasonal_temperature env random_random np_sin np_pi).
Abbreviation calculate_efficiency := (calculate_efficiency env random_random).
Abbreviation fuel_calculations := (fuel_calculations env random_random).
Abbreviation generate_row := (generate_row env random_random random_randint np_sin np_pi).
Abbreviation generate_fuels := (generate_fuels env random_random random_randint np_sin np_pi).
Abbreviation generate_samples :=
  (generate_samples env random_random random_randint datetime_now np_sin np_pi).
Abbreviation generate_realistic_data :=
  (generate_realistic_data env random_random random_randint datetime_now np_sin np_pi).

Lemma random_uniform_between (a b : Q) (e : env) :
  exists x e', random_uniform a b e = (inr x, e') /\ ((a <= b)%Q -> (a <= x <= b)%Q).
Proof.
  destruct (random_random_unit e) as (u & e' & Hu & Hu0 & Hu1).
  unfold random_uniform, mbind, M_bind, mret, M_ret. rewrite Hu.
  eexists _, _. split; [reflexivity|]. intros Hab. simpl.
  pose proof (Qmult_nonneg_mono (b - a) (b - a) u 1 ltac:(lra) ltac:(lra)) as [H0 H1].
  lra.
Qed.

Lemma py_div_run (a b : Q) (e : env) : ~ (b == 0)%Q -> py_div a b e = (inr (a / b)%Q, e).
Proof.
  intros Hb. unfold py_div. simpl.
  destruct (Qeq_bool b 0) eqn:E; [|reflexivity].
  exfalso. apply Hb, Qeq_bool_iff, E.
Qed.

(** The temperature of a timestamp: the base of its season, the daily
    swing and the noise. *)
Lemma get_seasonal_temperature_run (timestamp : datetime) (e : env) :
  exists base u e',
    random_random e = (inr u, e') /\ (0 <= u <= 1)%Q
    /\ (existsb (Z.eqb (dt_month timestamp)) [12; 1; 2]%Z = true -> base = 15%Q)
    /\ (existsb (Z.eqb (dt_month timestamp)) [12; 1; 2]%Z = false ->
        existsb (Z.eqb (dt_month timestamp)) [3; 4; 5]%Z = true -> base = 22%Q)
    /\ (existsb (Z.eqb (dt_month timestamp)) [12; 1; 2]%Z = false ->
        existsb (Z.eqb (dt_month timestamp)) [3; 4; 5]%Z = false ->
        existsb (Z.eqb (dt_month timestamp)) [6; 7; 8]%Z = true -> base = 32%Q)
    /\ (existsb (Z.eqb (dt_month timestamp)) [12; 1; 2]%Z = false ->
        existsb (Z.eqb (dt_month timestamp)) [3; 4; 5]%Z = false ->
        existsb (Z.eqb (dt_month timestamp)) [6; 7; 8]%Z = false -> base = 25%Q)
    /\ get_seasonal_temperature timestamp e
       = (inr (base + 6 * np_sin (2 * np_pi * inject_Z (dt_hour timestamp) / 24)
               + (-1 + (1 - -1) * u))%Q, e').
Proof.
  destruct (random_random_unit e) as (u & e' & Hu & Hu01).
  unfold get_seasonal_temperature, random_uniform,
    mbind, M_bind, mret, M_ret, dict_item. cbv zeta.
  destruct (existsb _ [12; 1; 2]%Z) eqn:E1; [|destruct (existsb _ [3; 4; 5]%Z) eqn:E2;
    [|destruct (existsb _ [6; 7; 8]%Z) eqn:E3]]; simpl; rewrite Hu; simpl;
    [exists 15%Q, u, e'|exists 22%Q, u, e'|exists 32%Q, u, e'|exists 25%Q, u, e'];
    (split; [reflexivity|]); (split; [exact Hu01|]);
    repeat split; intros; congruence.
Qed.

Lemma calculate_efficiency_run (config : fuel_config Q) (temp_C humidity pressure_hPa : Q)
    (run_hours : Z) (timestamp : datetime) (load_factor : Q) (e : env) :
  (0 <= fst (efficiency_range config) <= snd (efficiency_range config))%Q ->
  exists r e',
    calculate_efficiency config temp_C humidity pressure_hPa run_hours timestamp load_factor e
    = (inr r, e')
    /\ (0.995 * fst (efficiency_range config) - 0.00005 <= r
        <= 1.005 * snd (efficiency_range config) + 0.00005)%Q.
Proof.
  intros Hrange. destruct (random_random_unit e) as (u & e' & Hu & Hu01).
  destruct (calculate_efficiency_draw env random_random config temp_C humidity pressure_hPa
              run_hours timestamp load_factor e e' u Hu Hu01 Hrange) as (r & Hrun & Hr).
  exists r, e'. split; assumption.
Qed.

Abbreviation sound_profile := (sound_profile env random_random).

Lemma generate_row_run (fuel : string) (config : fuel_config Q) (timestamp : datetime)
    (data : list (OperatingSample Q)) (e : env) :
  sound_profile fuel config ->
  exists row e',
    generate_row timestamp fuel data e = (inr (data ++ [row])%list, e')
    /\ s_fuel_type row = fuel /\ s_timestamp row = timestamp /\ generated_row row.
Proof.
  intros (Hfind & (a & b & Hcapa & Hcapb' & Hab) & Heff & Hcalc).
  unfold generate_row. unfold dict_item at 1. rewrite Hfind.
  unfold mbind, M_bind, mret, M_ret at 1. cbn [lit Q_float].
  destruct (random_uniform_between (fst (capacity_range config)) (snd (capacity_range config)) e)
    as (cap & e1 & Hrun1 & Hcapb). rewrite Hrun1. cbv beta iota.
  destruct (get_seasonal_temperature_run timestamp e1)
    as (tb & tu & e2 & _ & _ & _ & _ & _ & _ & Hrun2).
  rewrite Hrun2. cbv beta iota.
  destruct (random_uniform_between 30 70 e2) as (hum & e3 & Hrun3 & Hhum).
  rewrite Hrun3. cbv beta iota.
  destruct (random_uniform_between (-10) 10 e3) as (d & e4 & Hrun4 & _).
  rewrite Hrun4. cbv beta iota.
  destruct (random_randint_between 12 24 e4 ltac:(lia)) as (hours & e5 & Hrun5 & Hhours).
  rewrite Hrun5. cbv beta iota.
  destruct (random_uniform_between 0.6 1.0 e5) as (load & e6 & Hrun6 & _).
  rewrite Hrun6. cbv beta iota.
  match goal with
  | |- context [calculate_efficiency config ?t ?h ?p ?rh ?ts ?lf e6] =>
      destruct (calculate_efficiency_run config t h p rh ts lf e6 ltac:(lra))
        as (eff & e7 & Hrun7 & Heffb)
  end.
  rewrite Hrun7. cbv beta iota.
  rewrite py_div_run by lra. cbv beta iota.
  destruct (random_random_unit e7) as (u8 & e8 & Hu8 & _).
  match goal with
  | |- context [fuel_calculations fuel config ?c ?bg ?hr ?rh e7] =>
      destruct (Hcalc c bg hr rh e7 u8 e8 Hu8) as (g & Hrun8)
  end.
  rewrite Hrun8. cbv beta iota.
  assert (Ha1 : (inject_Z 1 <= inject_Z a)%Q) by (rewrite <- Zle_Qle; lia).
  assert (Hab' : (inject_Z a <= inject_Z b)%Q) by (rewrite <- Zle_Qle; lia).
  change (inject_Z 1) with 1%Q in Ha1.
  assert (Hcap0 : (fst (capacity_range config) <= cap <= snd (capacity_range config))%Q).
  { apply Hcapb. rewrite Hcapa, Hcapb'. unfold Qdiv. change (/ 100)%Q with (1 # 100)%Q. lra. }
  assert (Hpos : (0 < cap)%Q).
  { destruct Hcap0 as [Hcap0 _]. rewrite Hcapa in Hcap0. revert Hcap0. unfold Qdiv.
    change (/ 100)%Q with (1 # 100)%Q. lra. }
  rewrite py_div_run by lra. cbv beta iota.
  eexists _, _. split; [reflexivity|]. split; [reflexivity|]. split; [reflexivity|].
  exists config. cbn [s_fuel_type s_max_capacity_mw s_humidity s_run_hours
                      s_predicted_efficiency].
  split; [exact Hfind|].
  split; [apply (py_round_2_between cap _ _ a b); assumption|].
  split; [apply (py_round_2_between hum 30 70 3000 7000); [reflexivity..|apply Hhum; lra]|].
  split; [exact Hhours|exact Heffb].
Qed.

Lemma fuel_types_sound :
  Forall (fun p => sound_profile (fst p) (snd p)) (fuel_types (F:=Q)).
Proof.
  assert (Hcalc : co2_conversions Q)
    by (apply co2_conversions_nonzero; vm_compute; reflexivity).
  repeat constructor; simpl.
  - exists 20000%Z, 80000%Z. repeat split; discriminate.
  - discriminate.
  - discriminate.
  - intros cur base rate hours e u e' Hu.
    destruct (Hcalc env random_random cur base rate hours e e' u Hu)
      as ((config & g & [= <-] & Hrun & _) & _). eauto.
  - exists 10000%Z, 40000%Z. repeat split; discriminate.
  - discriminate.
  - discriminate.
  - intros cur base rate hours e u e' Hu.
    destruct (Hcalc env random_random cur base rate hours e e' u Hu)
      as (_ & (config & g & [= <-] & Hrun & _) & _). eauto.
  - exists 5000%Z, 60000%Z. repeat split; discriminate.
  - discriminate.
  - discriminate.
  - intros cur base rate hours e u e' Hu.
    destruct (Hcalc env random_random cur base rate hours e e' u Hu)
      as (_ & _ & (config & g & [= <-] & Hrun & _)). eauto.
Qed.

(** The inner loop: one row per fuel type, in the order of the table. *)
Lemma generate_fuels_run (timestamp : datetime) (data : list (OperatingSample Q)) (e : env) :
  exists new e',
    generate_fuels timestamp (map fst (fuel_types (F:=Q))) data e
    = (inr (data ++ new)%list, e')
    /\ map s_fuel_type new = ["coal"; "oil"; "natural_gas"]
    /\ Forall (fun r => s_timestamp r = timestamp) new
    /\ Forall generated_row new.
Proof.
  pose proof fuel_types_sound as Hsound.
  apply Forall_cons in Hsound as [Hcoal Hsound].
  apply Forall_cons in Hsound as [Hoil Hsound].
  apply Forall_cons in Hsound as [Hgas _].
  cbn [fst snd] in Hcoal, Hoil, Hgas.
  change (map fst (fuel_types (F:=Q))) with ["coal"; "oil"; "natural_gas"].
  cbn [generate_fuels]. unfold mbind, M_bind, mret, M_ret.
  destruct (generate_row_run _ _ timestamp data e Hcoal) as (r1 & e1 & -> & F1 & T1 & G1).
  destruct (generate_row_run _ _ timestamp (data ++ [r1]) e1 Hoil)
    as (r2 & e2 & -> & F2 & T2 & G2).
  destruct (generate_row_run _ _ timestamp ((data ++ [r1]) ++ [r2]) e2 Hgas)
    as (r3 & e3 & -> & F3 & T3 & G3).
  exists [r1; r2; r3], e3. rewrite <- !app_assoc. split; [reflexivity|].
  split; [simpl; congruence|]. split; repeat constructor; assumption.
Qed.

(** The outer loop, while the earliest timestamp, [num_samples] hours before
    now, has a year of four digits: three rows per turn. *)
Lemma generate_samples_run (num_samples : Z) (todo : nat) :
  (year_1000 + 3600 * num_samples <= earliest)%Z ->
  forall (i : Z) (data : list (OperatingSample Q)) (e : env),
  (0 <= i)%Z -> (Z.of_nat todo <= Z.max 0 (num_samples - i))%Z ->
  exists new e',
    generate_samples num_samples i todo data e = (inr (data ++ new)%list, e')
    /\ map s_fuel_type new = concat (replicate todo ["coal"; "oil"; "natural_gas"])
    /\ Forall generated_row new.
Proof.
  intros Hearly. induction todo as [|todo IH]; intros i data e Hi Htodo.
  - exists [], e. rewrite app_nil_r. repeat split. constructor.
  - cbn [generate_samples]. unfold mbind, M_bind.
    destruct (datetime_now_returns e) as (now & e1 & -> & Hnow0 & Hnow1).
    assert (Hh : (1 <= num_samples - i)%Z) by lia.
    unfold timedelta_hours.
    destruct (999999999 <? Z.abs ((num_samples - i) / 24))%Z eqn:Hdays.
    { exfalso. apply Z.ltb_lt in Hdays. unfold year_1000, datetime_max in *.
      revert Hdays. Z.to_euclidean_division_equations. lia. }
    unfold mret at 1, M_ret at 1. unfold datetime_sub.
    destruct (_ || _) eqn:Hrange.
    { exfalso. apply orb_true_iff in Hrange as [Hlow|Hhigh];
        [apply Z.ltb_lt in Hlow|apply Z.ltb_lt in Hhigh];
        unfold year_1000, datetime_min, datetime_max in *; lia. }
    unfold mret at 1, M_ret at 1. unfold strftime.
    destruct (_ <? year_1000)%Z eqn:Hyear.
    { exfalso. apply Z.ltb_lt in Hyear. lia. }
    destruct (generate_fuels_run (now - 3600 * (num_samples - i))%Z data e1)
      as (new1 & e2 & -> & Hfuels & _ & Hrows).
    destruct (IH (i + 1)%Z (data ++ new1)%list e2 ltac:(lia) ltac:(lia))
      as (new2 & e3 & -> & Hfuels2 & Hrows2).
    exists (new1 ++ new2)%list, e3. rewrite app_assoc. split; [reflexivity|].
    split; [|apply Forall_app; split; assumption].
    rewrite map_app, Hfuels, Hfuels2. reflexivity.
Qed.

(** X18. In exact arithmetic, with draws of [random.random()] between 0
    and 1 (and [randint] within its bounds), for a number of samples that
    takes no timestamp before the year 1000 ([num_samples] hours before the
    earliest [datetime.now()]), [generate_realistic_data] raises nothing, no
    overflow of the dates and no division by zero among it: it returns three
    rows for each of the [num_samples] timestamps (none for a negative
    number), of coal, oil and natural gas in this order, each with a capacity
    and a humidity in the range drawn from, 12 to 24 hours, and an efficiency
    within half a percent and half a unit of the fourth decimal of the range
    of its profile. *)
Theorem generate_realistic_data_rows (num_samples : Z) (e : env) :
  (year_1000 + 3600 * num_samples <= earliest)%Z ->
  exists rows e',
    generate_realistic_data num_samples e = (inr rows, e')
    /\ map s_fuel_type rows
       = concat (replicate (Z.to_nat num_samples) ["coal"; "oil"; "natural_gas"])
    /\ length rows = (3 * Z.to_nat num_samples)%nat
    /\ Forall generated_row rows.
Proof.
  intros Hearly.
  destruct (generate_samples_run num_samples (Z.to_nat num_samples) Hearly 0 [] e
              ltac:(lia) ltac:(lia))
    as (rows & e' & Hrun & Hfuels & Hrows).
  exists rows, e'. split; [exact Hrun|]. split; [exact Hfuels|]. split; [|exact Hrows].
  rewrite <- (length_map s_fuel_type), Hfuels. clear.
  induction (Z.to_nat num_samples) as [|n IH]; [reflexivity|].
  simpl. rewrite IH. lia.
Qed.

(** X19. The temperature of a timestamp, where the sine lies between -1
    and 1 and the draw between 0 and 1: within 7 degrees (a daily swing of 6
    and a noise of 1) of the base of the season of its month, which is 15
    degrees from December to February, 22 from March to May, 32 from June to
    August and 25 from September to November (the month is one of the
    twelve); hence between 8 and 39 degrees. *)
Theorem seasonal_temperature_bounds (timestamp : datetime) (e : env) :
  (forall x, (-1 <= np_sin x <= 1)%Q) ->
  exists (t base : Q) e',
    get_seasonal_temperature timestamp e = (inr t, e')
    /\ (1 <= dt_month timestamp <= 12)%Z
    /\ (dt_month timestamp ∈ [12; 1; 2]%Z -> base = 15%Q)
    /\ (dt_month timestamp ∈ [3; 4; 5]%Z -> base = 22%Q)
    /\ (dt_month timestamp ∈ [6; 7; 8]%Z -> base = 32%Q)
    /\ (dt_month timestamp ∈ [9; 10; 11]%Z -> base = 25%Q)
    /\ (base - 7 <= t <= base + 7)%Q
    /\ (8 <= t <= 39)%Q.
Proof.
  intros Hsin.
  destruct (get_seasonal_temperature_run timestamp e)
    as (base & u & e' & _ & Hu & Hwinter & Hspring & Hsummer & Hautumn & Hrun).
  eexists _, base, e'. split; [exact Hrun|].
  split; [apply month_of_days_range|].
  pose proof (Hsin (2 * np_pi * inject_Z (dt_hour timestamp) / 24)%Q) as Hs.
  set (s := np_sin _) in *. clearbody s.
  assert (Hin : forall months, dt_month timestamp ∈ months ->
            existsb (Z.eqb (dt_month timestamp)) months = true).
  { intros months Hm. apply existsb_exists. exists (dt_month timestamp).
    split; [apply list_elem_of_In, Hm|apply Z.eqb_refl]. }
  assert (Hout : forall months others, dt_month timestamp ∈ months ->
            forallb (fun m => negb (existsb (Z.eqb m) others)) months = true ->
            existsb (Z.eqb (dt_month timestamp)) others = false).
  { intros months others Hm Hall. rewrite forallb_forall in Hall.
    apply negb_true_iff, Hall, list_elem_of_In, Hm. }
  assert (Hb : (15 <= base <= 32)%Q).
  { destruct (existsb (Z.eqb (dt_month timestamp)) [12; 1; 2]%Z) eqn:E1;
      [rewrite Hwinter by reflexivity; lra|].
    destruct (existsb (Z.eqb (dt_month timestamp)) [3; 4; 5]%Z) eqn:E2;
      [rewrite Hspring by reflexivity; lra|].
    destruct (existsb (Z.eqb (dt_month timestamp)) [6; 7; 8]%Z) eqn:E3;
      [rewrite Hsummer by reflexivity; lra|].
    rewrite Hautumn by reflexivity. lra. }
  split; [intros Hm; apply Hwinter, Hin, Hm|].
  split; [intros Hm; apply Hspring; [eapply Hout; [exact Hm|reflexivity]|apply Hin, Hm]|].
  split; [intros Hm; apply Hsummer;
          [eapply Hout; [exact Hm|reflexivity]..|apply Hin, Hm]|].
  split; [intros Hm; apply Hautumn; (eapply Hout; [exact Hm|reflexivity])|].
  split; lra.
Qed.

End GeneratorRuns.

Section GeneratorDates.
Context {F : Type} `{PyFloat F} `{PyRound F}.
Variable env : Type.
Variable random_random : M env F.
Variable random_randint : Z -> Z -> M env Z.
Variable datetime_now : M env datetime.
Variable np_sin : F -> F.
Variable np_pi : F.

(** X27. The dates [generate_realistic_data] cannot reach.  Its first
    timestamp lies [num_samples] hours before now.  Where that is before the
    year 1, the subtraction at the top of the loop raises an OverflowError,
    nothing drawn.  Where it is in a year before 1000, [strftime] writes a
    year of fewer than four digits (with glibc), and the first
    [get_seasonal_temperature] raises the ValueError of [strptime], the
    capacity of the coal plant drawn.  No row is returned either way. *)
Theorem generate_realistic_data_out_of_range (num_samples : Z) (e e1 : env) (now : datetime) :
  datetime_now e = (inr now, e1) ->
  (0 < num_samples)%Z ->
  (datetime_min <= now <= datetime_max)%Z ->
  ((now - 3600 * num_samples < datetime_min)%Z ->
   generate_realistic_data env random_random random_randint datetime_now np_sin np_pi
     num_samples e = (inl OverflowError, e1))
  /\ ((datetime_min <= now - 3600 * num_samples < year_1000)%Z ->
      forall u e2, random_random e1 = (inr u, e2) ->
        generate_realistic_data env random_random random_randint datetime_now np_sin np_pi
          num_samples e = (inl ValueError, e2)).
Proof.
  intros Hnow Hpos Hvalid. unfold generate_realistic_data.
  destruct (Z.to_nat num_samples) as [|todo] eqn:Htodo; [lia|].
  cbn [generate_samples]. unfold mbind, M_bind. rewrite Hnow.
  rewrite Z.sub_0_r. unfold timedelta_hours, datetime_sub, raise.
  split.
  - intros Hlow. destruct (999999999 <? _)%Z; [reflexivity|].
    unfold mret at 1, M_ret at 1. cbv zeta.
    apply Z.ltb_lt in Hlow. rewrite Hlow. reflexivity.
  - intros [Hlow Hyear] u e2 Hu.
    destruct (999999999 <? _)%Z eqn:Hdays.
    { exfalso. apply Z.ltb_lt in Hdays. unfold datetime_min, datetime_max in *.
      revert Hdays. Z.to_euclidean_division_equations. lia. }
    unfold mret at 1, M_ret at 1. cbv zeta.
    apply Z.ltb_ge in Hlow. rewrite Hlow.
    assert (Hhigh : (datetime_max <? now - 3600 * num_samples)%Z = false)
      by (apply Z.ltb_ge; lia).
    rewrite Hhigh. cbn [orb]. unfold mret at 1, M_ret at 1. unfold strftime.
    apply Z.ltb_lt in Hyear. rewrite Hyear.
    cbn [map fuel_types fst generate_fuels_unreadable dict_item dict_find String.eqb].
    unfold random_uniform, mbind, M_bind, raise. simpl. rewrite Hu. reflexivity.
Qed.

End GeneratorDates.

(** ** The two test scripts *)

Section TesterRuns.
Context {F : Type} `{PyFloat F}.
Variable Model : Type.
Variable predict : Model -> list F -> F.
Variable train_test_split :
  list (list F) -> list F -> Q -> Z -> list (list F) * list (list F) * list F * list F.
Variable fit : RandomForestRegressor -> list (list F) -> list F -> Model.
Variable r2_score : list F -> list F -> F.
Variable mean_absolute_error : list F -> list F -> F.

Abbreviation trainer := (trainer Model predict train_test_split fit r2_score mean_absolute_error).
Abbreviation trained_model := (trained_model Model train_test_split fit).
Abbreviation train_store := (train_store Model train_test_split fit).

(** The block [tester.py] prints for a model. *)
Abbreviation model_result label m :=
  (tester.ModelResult label tester.sample_input (predict m tester.sample_input)
     tester.current_generation
     (fsub tester.current_generation (predict m tester.sample_input))
     (fmul (fdiv (fsub tester.current_generation (predict m tester.sample_input))
              tester.current_generation) (lit 100))).



End TesterRuns.

Lemma py_round_4_between (x lo hi : Q) (a b : Z) :
  (lo == inject_Z a / 10000)%Q -> (hi == inject_Z b / 10000)%Q ->
  (lo <= x <= hi)%Q -> (lo <= py_round x 4 <= hi)%Q.
Proof.
  unfold py_round, Q_round. change (Qpow10 4) with 10000%Q.
  unfold Qdiv. change (/ 10000)%Q with (1 # 10000)%Q. intros Hlo Hhi [Ha Hb].
  destruct (Qround_half_even_between (x * 10000) a) as [Hlo' _].
  destruct (Qround_half_even_between (x * 10000) b) as [_ Hhi'].
  specialize (Hlo' ltac:(lra)). specialize (Hhi' ltac:(lra)).
  rewrite Zle_Qle in Hlo', Hhi'. set (r := inject_Z (Qround_half_even _)) in *. clearbody r.
  lra.
Qed.

(** ** The test data of [test_model.py] in exact arithmetic *)

Section TestModelRuns.
Variable env : Type.
Variable random_random : M env Q.
Variable random_randint : Z -> Z -> M env Z.
Variable random_randbelow : nat -> M env nat.

(** What is assumed of [random]: [random.random()] gives a number between
    0 and 1, [random.randint(a, b)] an integer between [a] and [b], and the
    index drawn for a sequence of [n] elements is below [n]. *)
Hypothesis random_random_unit :
  forall e, exists u e', random_random e = (inr u, e') /\ (0 <= u <= 1)%Q.
Hypothesis random_randint_between :
  forall a b e, (a <= b)%Z ->
    exists n e', random_randint a b e = (inr n, e') /\ (a <= n <= b)%Z.
Hypothesis random_randbelow_below :
  forall n e, (0 < n)%nat ->
    exists i e', random_randbelow n e = (inr i, e') /\ (i < n)%nat.

Abbreviation uniform_between := (random_uniform_between env random_random random_random_unit).
Abbreviation generate_plant_config :=
  (test_model.generate_plant_config env random_random random_randbelow).
Abbreviation calculate_efficiency_from_physics :=
  (test_model.calculate_efficiency_from_physics env random_random).
Abbreviation generate_sample :=
  (test_model.generate_sample env random_random random_randint random_randbelow).
Abbreviation generate_samples :=
  (test_model.generate_samples env random_random random_randint random_randbelow).
Abbreviation generate_realistic_data :=
  (test_model.generate_realistic_data env random_random random_randint random_randbelow).

(** The ranges of the three plant types: four decimals at most, ordered,
    within 0.32 and 0.46. *)
Lemma plant_types_ranges (plant_type : string) (config : test_model.plant_type_config Q) :
  dict_find test_model.plant_types plant_type = Some config ->
  plant_type ∈ ["subcritical"; "supercritical"; "ultra_supercritical"]
  /\ exists a b : Z,
       (fst (test_model.efficiency_range config) == inject_Z a / 10000)%Q
       /\ (snd (test_model.efficiency_range config) == inject_Z b / 10000)%Q
       /\ (0.32 <= fst (test_model.efficiency_range config)
           <= snd (test_model.efficiency_range config))%Q
       /\ (snd (test_model.efficiency_range config) <= 0.46)%Q.
Proof.
  unfold test_model.plant_types, dict_find.
  destruct (String.eqb_spec "subcritical" plant_type) as [<-|_];
    [|destruct (String.eqb_spec "supercritical" plant_type) as [<-|_];
      [|destruct (String.eqb_spec "ultra_supercritical" plant_type) as [<-|_];
        [|discriminate]]];
    intros [= <-]; simpl.
  - split; [left|]. exists 3200%Z, 3800%Z. repeat split; discriminate.
  - split; [right; left|]. exists 3800%Z, 4200%Z. repeat split; discriminate.
  - split; [do 2 right; left|]. exists 4200%Z, 4600%Z. repeat split; discriminate.
Qed.

Lemma calculate_efficiency_from_physics_run (temp_C humidity pressure_hPa : Q)
    (run_hours : Z) (plant_type : string) (config : test_model.plant_type_config Q) (e : env) :
  dict_find test_model.plant_types plant_type = Some config ->
  exists r e',
    calculate_efficiency_from_physics temp_C humidity pressure_hPa run_hours plant_type e
    = (inr r, e')
    /\ (fst (test_model.efficiency_range config) <= r
        <= snd (test_model.efficiency_range config))%Q.
Proof.
  intros Hfind.
  destruct (plant_types_ranges plant_type config Hfind) as (_ & a & b & Ha & Hb & Hrange & _).
  unfold test_model.calculate_efficiency_from_physics, dict_item. rewrite Hfind.
  unfold mbind, M_bind, mret, M_ret. cbn [lit Q_float].
  destruct (uniform_between 0.95 1.0 e) as (deg & e1 & -> & _). cbv beta iota.
  destruct (uniform_between 0.98 1.02 e1) as (noise & e2 & -> & _). cbv beta iota.
  destruct (test_model.efficiency_range config) as [min_eff max_eff] eqn:Er.
  cbn [fst snd] in *.
  eexists _, _. split; [reflexivity|].
  apply (py_round_4_between _ min_eff max_eff a b Ha Hb).
  match goal with
  | |- (_ <= py_max _ (py_min _ ?x) <= _)%Q =>
      destruct (clip_in_range min_eff max_eff x) as [Hlo Hhi]
  end.
  - apply Qle_bool_iff. lra.
  - simpl in Hlo, Hhi. apply Qle_bool_iff in Hlo, Hhi. split; assumption.
Qed.

(** X21. The efficiency of the physics of [test_model.py], in exact
    arithmetic: for one of the three plant types it lies in the efficiency
    range of the plant type, whatever the weather, the hours and the draws
    (the clamp comes after the noise, and the rounding to four decimals does
    not leave a range of two decimals); any other plant type is a
    [KeyError], before anything is drawn. *)
Theorem physics_efficiency_in_range (temp_C humidity pressure_hPa : Q) (run_hours : Z)
    (plant_type : string) (e : env) :
  match dict_find test_model.plant_types plant_type with
  | Some config =>
      exists r e',
        calculate_efficiency_from_physics temp_C humidity pressure_hPa run_hours plant_type e
        = (inr r, e')
        /\ (fst (test_model.efficiency_range config) <= r
            <= snd (test_model.efficiency_range config))%Q
        /\ (0.32 <= r <= 0.46)%Q
  | None =>
      calculate_efficiency_from_physics temp_C humidity pressure_hPa run_hours plant_type e
      = (inl (KeyError plant_type), e)
  end.
Proof.
  destruct (dict_find test_model.plant_types plant_type) as [config|] eqn:Hfind.
  - destruct (calculate_efficiency_from_physics_run temp_C humidity pressure_hPa run_hours
                plant_type config e Hfind) as (r & e' & Hrun & Hr).
    destruct (plant_types_ranges plant_type config Hfind) as (_ & a & b & _ & _ & Hrange & Hhi).
    exists r, e'. split; [exact Hrun|]. split; [exact Hr|]. lra.
  - unfold test_model.calculate_efficiency_from_physics, dict_item, mbind, M_bind.
    rewrite Hfind. reflexivity.
Qed.

(** The plant drawn: one of the three types, with a capacity between 200
    and 800 MW. *)
Lemma generate_plant_config_run (e : env) :
  exists plant_type max_capacity config e',
    generate_plant_config e = (inr (plant_type, max_capacity, config), e')
    /\ dict_find test_model.plant_types plant_type = Some config
    /\ (200 <= max_capacity <= 800)%Q.
Proof.
  unfold test_model.generate_plant_config, test_model.random_choice.
  unfold mbind, M_bind, mret, M_ret.
  destruct (random_randbelow_below (length (map fst (test_model.plant_types (F:=Q)))) e)
    as (i & e1 & -> & Hi); [simpl; lia|].
  simpl in Hi. unfold list_item.
  destruct i as [|[|[|i]]]; [| | |lia]; simpl; cbn [lit Q_float].
  - destruct (uniform_between 200 500 e1) as (cap & e2 & -> & Hcap).
    eexists _, _, _, _. split; [reflexivity|]. split; [reflexivity|].
    specialize (Hcap ltac:(lra)). lra.
  - destruct (uniform_between 300 600 e1) as (cap & e2 & -> & Hcap).
    eexists _, _, _, _. split; [reflexivity|]. split; [reflexivity|].
    specialize (Hcap ltac:(lra)). lra.
  - destruct (uniform_between 400 800 e1) as (cap & e2 & -> & Hcap).
    eexists _, _, _, _. split; [reflexivity|]. split; [reflexivity|].
    specialize (Hcap ltac:(lra)). lra.
Qed.

Lemma py_min_Q (a b : Q) : (py_min a b <= a /\ (0 < a -> 0 < b -> 0 < py_min a b))%Q.
Proof.
  unfold py_min. simpl. destruct (Qle_bool a b) eqn:E; simpl.
  - split; [lra|tauto].
  - assert (~ (a <= b)%Q) by (intros Hab; apply Qle_bool_iff in Hab; congruence).
    split; [lra|tauto].
Qed.

Lemma generate_sample_run (data : list (test_model.row Q)) (e : env) :
  exists r e', generate_sample data e = (inr (data ++ [r])%list, e') /\ generated_test_row r.
Proof.
  unfold test_model.generate_sample. unfold mbind, M_bind, mret, M_ret.
  cbn [lit Q_float].
  destruct (generate_plant_config_run e) as (pt & cap & config & e1 & -> & Hfind & Hcap).
  cbv beta iota.
  destruct (uniform_between 15 45 e1) as (temp & e2 & -> & Htemp). cbv beta iota.
  destruct (uniform_between 20 80 e2) as (hum & e3 & -> & Hhum). cbv beta iota.
  destruct (uniform_between 980 1030 e3) as (pres & e4 & -> & Hpres). cbv beta iota.
  destruct (random_randint_between 8 24 e4 ltac:(lia)) as (hours & e5 & -> & Hhours).
  cbv beta iota.
  destruct (calculate_efficiency_from_physics_run temp hum pres hours pt config e5 Hfind)
    as (eff & e6 & -> & Heff). cbv beta iota.
  destruct (plant_types_ranges pt config Hfind) as (_ & a & b & _ & _ & Hrange & Hhi).
  destruct (uniform_between 0.85 1.15 e6) as (var & e7 & -> & Hvar). cbv beta iota.
  rewrite py_div_run by lra. cbv beta iota.
  rewrite py_div_run by lra. cbv beta iota.
  destruct (uniform_between 5000 7000 e7) as (cost & e8 & -> & _). cbv beta iota.
  eexists _, _. split; [reflexivity|].
  unfold generated_test_row. cbn [test_model.max_capacity_mw test_model.current_generation_mw
    test_model.run_hours test_model.temp_C test_model.humidity test_model.pressure_hPa
    test_model.predicted_efficiency].
  specialize (Htemp ltac:(lra)). specialize (Hhum ltac:(lra)).
  specialize (Hpres ltac:(lra)). specialize (Hvar ltac:(lra)).
  split; [exact Hcap|]. split; [|repeat split; try lra; lia].
  destruct (py_min_Q cap (cap * eff * var)) as [Hle Hpos]. split; [|exact Hle].
  apply Hpos; [lra|]. simpl.
  apply Qmult_lt_0_compat; [apply Qmult_lt_0_compat|]; lra.
Qed.

Lemma generate_samples_run_test (todo : nat) :
  forall (data : list (test_model.row Q)) (e : env),
  exists new e',
    generate_samples todo data e = (inr (data ++ new)%list, e')
    /\ length new = todo /\ Forall generated_test_row new.
Proof.
  induction todo as [|todo IH]; intros data e.
  - exists [], e. rewrite app_nil_r. repeat split. constructor.
  - cbn [test_model.generate_samples]. unfold mbind, M_bind.
    destruct (generate_sample_run data e) as (r & e1 & -> & Hr).
    destruct (IH (data ++ [r])%list e1) as (new & e2 & -> & Hlen & Hnew).
    exists (r :: new), e2. rewrite <- app_assoc. split; [reflexivity|].
    split; [simpl; lia|constructor; assumption].
Qed.

(** X22. The test data of [test_model.py] in exact arithmetic, with draws
    of [random.random()] between 0 and 1, of [randint] within its bounds and
    of the index of [random.choice] below the length: [generate_realistic_data]
    raises nothing and returns [num_samples] rows (none for a negative number),
    each with a capacity between 200 and 800 MW, a generation that is positive
    and at most the capacity, 8 to 24 hours, a temperature in [15, 45], a
    humidity in [20, 80], a pressure in [980, 1030] and an efficiency in
    [0.32, 0.46]. *)
Theorem test_data_rows (num_samples : Z) (e : env) :
  exists rows e',
    generate_realistic_data num_samples e = (inr rows, e')
    /\ length rows = Z.to_nat num_samples
    /\ Forall generated_test_row rows.
Proof.
  destruct (generate_samples_run_test (Z.to_nat num_samples) [] e)
    as (rows & e' & Hrun & Hlen & Hrows).
  exists rows, e'. split; [exact Hrun|]. split; assumption.
Qed.

Section Main.
Variable Model : Type.
Variable predict : Model -> list Q -> Q.
Variable mean_absolute_error : list Q -> list Q -> Q.
Variable mean_squared_error : list Q -> list Q -> Q.
Variable r2_score : list Q -> list Q -> Q.
Variable np_sqrt : Q -> Q.
Variable np_mean : list Q -> Q.

Abbreviation run_tests :=
  (test_model.run_tests Model predict env random_random random_randint random_randbelow
     mean_absolute_error mean_squared_error r2_score np_sqrt np_mean).
Abbreviation main :=
  (test_model.main Model predict env random_random random_randint random_randbelow
     mean_absolute_error mean_squared_error r2_score np_sqrt np_mean).

(** The loop of [main]: one line per test, numbered from the index. *)
Lemma run_tests_run (model : Model) (tests : list nat) :
  forall (metrics_list : list (test_model.metrics Q)) (s : test_model.state Q env),
  exists new e',
    run_tests model (map Z.of_nat tests) metrics_list s
    = (inr (metrics_list ++ new)%list,
       {| test_model.rng := e';
          test_model.stdout := (test_model.stdout s ++ zip_with test_result tests new)%list |})
    /\ length new = length tests
    /\ Forall (measured_on_test_data Model predict mean_absolute_error mean_squared_error
                 r2_score np_sqrt np_mean model) new.
Proof.
  induction tests as [|i tests IH]; intros metrics_list s.
  - exists [], (test_model.rng s). simpl. rewrite !app_nil_r. destruct s.
    split; [reflexivity|]. split; [reflexivity|constructor].
  - cbn [map test_model.run_tests]. unfold mbind, M_bind, test_model.with_random.
    destruct (test_data_rows 200 (test_model.rng s)) as (rows & e1 & -> & Hrows & Hall).
    cbv beta iota zeta. unfold test_model.print at 1. cbv beta iota.
    match goal with
    | |- context [test_model.run_tests _ _ _ _ _ _ _ _ _ _ _ _ _ (?ml0 ++ [?m])%list ?s1] =>
        destruct (IH (ml0 ++ [m])%list s1) as (new & e2 & -> & Hlen & Hnew);
        exists (m :: new), e2
    end.
    split; [|split; [simpl; lia|]].
    + cbn [test_model.rng test_model.stdout zip_with]. rewrite <- !app_assoc. reflexivity.
    + constructor; [|exact Hnew]. exists rows. split; [exact Hrows|]. split; [exact Hall|].
      reflexivity.
Qed.

(** X23. [main] of [test_model.py] over a model on file, in exact
    arithmetic and under the same draws: it raises nothing, and prints the
    banner, that the model was loaded, ten test lines numbered 1 to 10, each
    with the metrics [evaluate_model_accuracy] gives the model on 200 fresh
    rows of test data, the averages of the ten and the summary. *)
Theorem main_reports_ten_tests (files : gmap string (file Q Model)) (model : Model)
    (s : test_model.state Q env) :
  files !! test_model.MODEL_FILE = Some (JoblibFile model) ->
  exists (metrics_list : list (test_model.metrics Q)) e',
    length metrics_list = 10%nat
    /\ Forall (measured_on_test_data Model predict mean_absolute_error mean_squared_error
                 r2_score np_sqrt np_mean model) metrics_list
    /\ main files s
       = (inr tt,
          {| test_model.rng := e';
             test_model.stdout :=
               (test_model.stdout s ++ [test_model.Testing; test_model.ModelLoaded]
                ++ imap test_result metrics_list
                ++ [test_model.AveragePerformance
                      (np_mean (map test_model.R2_Score metrics_list))
                      (np_mean (map test_model.MAE metrics_list))
                      (np_mean (map test_model.Accuracy_Percentage metrics_list));
                    test_model.Summary])%list |}).
Proof.
  intros Hfile. unfold test_model.main. rewrite Hfile.
  unfold mbind, M_bind, mret, M_ret, test_model.print at 1 2. cbv beta iota.
  cbn [test_model.rng test_model.stdout].
  match goal with
  | |- context [test_model.run_tests _ _ _ _ _ _ _ _ _ _ _ _ (map Z.of_nat ?t) [] ?s1] =>
      destruct (run_tests_run model t [] s1) as (new & e1 & -> & Hlen & Hnew)
  end.
  cbv beta iota. rewrite app_nil_l.
  rewrite length_seq in Hlen. change (Z.to_nat 10) with 10%nat in Hlen.
  revert Hnew. do 10 (destruct new as [|? new]; [discriminate Hlen|]).
  destruct new; [|discriminate Hlen]. intros Hnew.
  match type of Hlen with length ?l = _ => exists l, e1 end. split; [reflexivity|].
  split; [exact Hnew|].
  unfold list_item, test_model.print, mret, M_ret. simpl.
  rewrite <- !app_assoc. reflexivity.
Qed.

End Main.

End TestModelRuns.

(** X24. No program of the repository writes the file [test_model.py]
    loads: if [coal_adjustment_model.joblib] is not there, it is not there
    after the generator module is loaded or after a run of the trainer,
    however that ends, and [main] then prints that the model file was not
    found and returns, having drawn nothing and tested nothing. *)
Theorem test_model_finds_no_model {F : Type} `{PyFloat F} `{PyRound F} (Model : Type)
    (predict : Model -> list F -> F)
    (train_test_split :
       list (list F) -> list F -> Q -> Z -> list (list F) * list (list F) * list F * list F)
    (fit : RandomForestRegressor -> list (list F) -> list F -> Model)
    (r2_score mean_absolute_error mean_squared_error : list F -> list F -> F)
    (env : Type) (random_random : M env F) (random_randint : Z -> Z -> M env Z)
    (random_randbelow : nat -> M env nat) (np_sqrt : F -> F) (np_mean : list F -> F)
    (w : world F Model) :
  fs w !! test_model.MODEL_FILE = None ->
  forall (w' : world F Model) (s : test_model.state F env),
    (exists r, trainer Model predict train_test_split fit r2_score mean_absolute_error w
               = (r, w'))
    \/ write_headers Model w = (inr tt, w') ->
    fs w' !! test_model.MODEL_FILE = None
    /\ test_model.main Model predict env random_random random_randint random_randbelow
         mean_absolute_error mean_squared_error r2_score np_sqrt np_mean (fs w') s
       = (inr tt,
          {| test_model.rng := test_model.rng s;
             test_model.stdout :=
               (test_model.stdout s ++ [test_model.Testing; test_model.ModelFileNotFound])%list
          |}).
Proof.
  intros Hnone w' s Hrun.
  assert (Hnone' : fs w' !! test_model.MODEL_FILE = None).
  { destruct Hrun as [[r Hrun]|Hrun].
    - rewrite (trainer_frame Model predict train_test_split fit r2_score mean_absolute_error
                 w w' r test_model.MODEL_FILE Hrun); [exact Hnone|discriminate|].
      intros fuel Heq. discriminate Heq.
    - injection Hrun as <-. simpl. rewrite !lookup_insert_ne by discriminate. exact Hnone. }
  split; [exact Hnone'|].
  unfold test_model.main, mbind, M_bind, test_model.print. simpl.
  rewrite Hnone'. simpl. rewrite <- app_assoc. reflexivity.
Qed.

(** ** The routes of [app.py] *)

Lemma dict_find_set {V} (d : pydict V) (k : string) (v : V) :
  dict_find (dict_set d k v) k = Some v.
Proof.
  induction d as [|[k' v'] d IH]; simpl.
  - rewrite String.eqb_refl. reflexivity.
  - destruct (String.eqb k' k) eqn:E; simpl; rewrite E; [reflexivity|exact IH].
Qed.

Section AppRuns.
Context {F : Type} `{PyFloat F}.
Variable Model : Type.
Variable predict : Model -> list F -> F.
Variable get_gps_location : exn + (F * F).
Variable fetch_weather_forecast : F -> F -> Z -> exn + list (forecast_day F).
Variable int_of_str : string -> exn + Z.

Abbreviation performance :=
  (app.performance Model predict get_gps_location fetch_weather_forecast int_of_str).
Abbreviation func1 := (func1 Model predict get_gps_location fetch_weather_forecast).
Abbreviation analytics := (app.analytics Model).
Abbreviation predictions := (app.predictions Model).

(** The inputs [performance] passes to [func1]. *)
Abbreviation inputs_of fuel cap runtime cur :=
  {| fuel_type := fuel; max_capacity_mw := of_int cap; run_hours := of_int runtime;
     fuel_used_current := of_int cur |}.

(** [performance] up to the call of [func1], for a query with its four
    keys and numbers that [int] reads. *)
Lemma performance_unfold (request : app.request) (s : app.state F Model)
    (fuel runtime_s cap_s cur_s : string) (runtime cap cur : Z) :
  dict_find (app.args request) "fuel" = Some fuel ->
  dict_find (app.args request) "runtime" = Some runtime_s ->
  int_of_str runtime_s = inr runtime ->
  dict_find (app.args request) "cap" = Some cap_s -> int_of_str cap_s = inr cap ->
  dict_find (app.args request) "cur" = Some cur_s -> int_of_str cur_s = inr cur ->
  performance request s
  = match func1 (inputs_of fuel cap runtime cur) (app.plant s) with
    | (inl e, w) =>
        (inl e, {| app.plant := w; app.printed := app.printed s; app.session := app.session s |})
    | (inr result, w) =>
        let s' := {| app.plant := w; app.printed := (app.printed s ++ [result])%list;
                     app.session := dict_set (app.session s) "result" result |} in
        match result with
        | [] => (inl IndexError, s')
        | outputs :: _ =>
            (fuel ← list_item (app.cells outputs) 2;
             gen ← list_item (app.cells outputs) 1;
             co2 ← list_item (app.cells outputs) 5;
             fuelsaved ← list_item (app.cells outputs) 3;
             costsaved ← list_item (app.cells outputs) 4;
             mret (app.performance_html fuel gen co2 fuelsaved costsaved)) s'
        end
    end.
Proof.
  intros Hfuel Hruntime Hr Hcap Hc Hcur Hu.
  unfold app.performance, dict_item. rewrite Hfuel, Hruntime, Hcap, Hcur.
  unfold mbind at 1 2 3 4 5 6 7 8, M_bind, mret at 1 2 3 4, M_ret, lift_result.
  rewrite Hr, Hc, Hu. unfold app.in_plant.
  destruct (func1 _ (app.plant s)) as [[e|result] w]; [reflexivity|].
  unfold mbind at 1 2 3 4 5, M_bind, app.session_set, app.session_item, app.print, dict_item.
  cbn [app.session app.plant app.printed]. rewrite dict_find_set.
  unfold mret at 1 2, M_ret. cbn [app.session app.plant app.printed].
  rewrite dict_find_set. unfold mret at 1, M_ret.
  destruct result as [|outputs result]; reflexivity.
Qed.

(** X25. The page of [performance] and the session: for a query with its
    four keys whose numbers [int] reads, when [func1] returns its rows, the
    rows are kept under [result] in the session and printed; with no row
    the route raises an [IndexError]; otherwise the page shows the numbers
    of the first day only: under [gen] the recommended generation, under
    [fuel] the recommended fuel use, then the fuel, the cost and the CO2
    saved, each cut to two decimals; and [analytics] and [predictions] then
    hand all the rows to their pages. *)
Theorem performance_shows_first_day (request : app.request) (s : app.state F Model)
    (fuel runtime_s cap_s cur_s : string) (runtime cap cur : Z)
    (rows : list (outcome F)) (w : world F Model) :
  dict_find (app.args request) "fuel" = Some fuel ->
  dict_find (app.args request) "runtime" = Some runtime_s ->
  int_of_str runtime_s = inr runtime ->
  dict_find (app.args request) "cap" = Some cap_s -> int_of_str cap_s = inr cap ->
  dict_find (app.args request) "cur" = Some cur_s -> int_of_str cur_s = inr cur ->
  func1 (inputs_of fuel cap runtime cur) (app.plant s) = (inr rows, w) ->
  exists s',
    app.plant s' = w /\ fs w = fs (app.plant s)
    /\ app.printed s' = (app.printed s ++ [rows])%list
    /\ dict_find (app.session s') "result" = Some rows
    /\ match rows with
       | [] => performance request s = (inl IndexError, s')
       | row :: _ =>
           exists g u v c o e : F,
             snd row = [g; u; v; c; o; e]
             /\ performance request s
                = (inr (app.performance_html (app.Number u) (app.Number g) (app.Number o)
                          (app.Number v) (app.Number c)), s')
       end
    /\ analytics s' = (inr (app.analytics_html rows), s')
    /\ predictions s' = (inr (app.predictions_html rows), s').
Proof.
  intros Hfuel Hruntime Hr Hcap Hc Hcur Hu Hrun.
  rewrite (performance_unfold request s fuel runtime_s cap_s cur_s runtime cap cur)
    by assumption.
  rewrite Hrun. cbv zeta.
  exists {| app.plant := w; app.printed := (app.printed s ++ [rows])%list;
            app.session := dict_set (app.session s) "result" rows |}.
  cbn [app.plant app.printed app.session].
  split; [reflexivity|].
  split.
  { apply func1_returns_inv in Hrun as (forecast & w1 & _ & Hfs1 & Hloop).
    apply func1_loop_returns in Hloop as (Hfs & _). congruence. }
  split; [reflexivity|]. split; [apply dict_find_set|].
  split; [|split].
  - destruct rows as [|row rows]; [reflexivity|].
    apply func1_returns_inv in Hrun as (forecast & w1 & _ & _ & Hloop).
    apply func1_loop_returns in Hloop as (_ & new & Hnew & Hall).
    rewrite app_nil_l in Hnew. subst new.
    inversion Hall as [|day row' forecast' rows' Hrow _]; subst.
    destruct (Hrow w) as (outputs & g & u & v & c & o & e & g' & u' & v' & c' & o' & e' & Hout).
    decompose [and] Hout. subst row.
    exists g', u', v', c', o', e'. split; reflexivity.
  - unfold app.analytics, app.session_item, dict_item, mbind, M_bind.
    cbn [app.session]. rewrite dict_find_set. reflexivity.
  - unfold app.predictions, app.session_item, dict_item, mbind, M_bind.
    cbn [app.session]. rewrite dict_find_set. reflexivity.
Qed.

(** X26. Where the routes fail: [analytics] and [predictions] raise the
    [KeyError] of [result] as long as the session has none, that is before
    [performance] has succeeded; [performance] raises the [KeyError] of the
    first of [fuel], [runtime], [cap], [cur] the query lacks, or the error of
    [int] on the first number it cannot read, without calling [func1] and
    leaving the state as it is; and when [func1] raises or exits,
    [performance] ends the same way with the session as it was. *)
Theorem routes_fail (request : app.request) (s : app.state F Model) :
  (dict_find (app.session s) "result" = None ->
   analytics s = (inl (KeyError "result"), s)
   /\ predictions s = (inl (KeyError "result"), s))
  /\ (dict_find (app.args request) "fuel" = None ->
      performance request s = (inl (KeyError "fuel"), s))
  /\ (forall fuel, dict_find (app.args request) "fuel" = Some fuel ->
      match dict_find (app.args request) "runtime" with
      | None => performance request s = (inl (KeyError "runtime"), s)
      | Some runtime_s =>
          match int_of_str runtime_s with
          | inl e => performance request s = (inl e, s)
          | inr runtime =>
              match dict_find (app.args request) "cap" with
              | None => performance request s = (inl (KeyError "cap"), s)
              | Some cap_s =>
                  match int_of_str cap_s with
                  | inl e => performance request s = (inl e, s)
                  | inr cap =>
                      match dict_find (app.args request) "cur" with
                      | None => performance request s = (inl (KeyError "cur"), s)
                      | Some cur_s =>
                          match int_of_str cur_s with
                          | inl e => performance request s = (inl e, s)
                          | inr cur =>
                              forall e w,
                                func1 (inputs_of fuel cap runtime cur) (app.plant s)
                                = (inl e, w) ->
                                performance request s
                                = (inl e, {| app.plant := w; app.printed := app.printed s;
                                             app.session := app.session s |})
                          end
                      end
                  end
              end
          end
      end).
Proof.
  split; [|split].
  - intros Hnone. unfold app.analytics, app.predictions, app.session_item, dict_item,
      mbind, M_bind. rewrite Hnone. split; reflexivity.
  - intros Hnone. unfold app.performance, dict_item, mbind, M_bind. rewrite Hnone.
    reflexivity.
  - intros fuel Hfuel.
    destruct (dict_find (app.args request) "runtime") as [runtime_s|] eqn:Hruntime;
      [|unfold app.performance, dict_item, mbind, M_bind; rewrite Hfuel; simpl;
        rewrite Hruntime; reflexivity].
    destruct (int_of_str runtime_s) as [e|runtime] eqn:Hr;
      [unfold app.performance, dict_item, mbind, M_bind, lift_result; rewrite Hfuel; simpl;
       rewrite Hruntime; simpl; rewrite Hr; reflexivity|].
    destruct (dict_find (app.args request) "cap") as [cap_s|] eqn:Hcap;
      [|unfold app.performance, dict_item, mbind, M_bind, lift_result; rewrite Hfuel; simpl;
        rewrite Hruntime; simpl; rewrite Hr, Hcap; reflexivity].
    destruct (int_of_str cap_s) as [e|cap] eqn:Hc;
      [unfold app.performance, dict_item, mbind, M_bind, lift_result; rewrite Hfuel; simpl;
       rewrite Hruntime; simpl; rewrite Hr, Hcap; simpl; rewrite Hc; reflexivity|].
    destruct (dict_find (app.args request) "cur") as [cur_s|] eqn:Hcur;
      [|unfold app.performance, dict_item, mbind, M_bind, lift_result; rewrite Hfuel; simpl;
        rewrite Hruntime; simpl; rewrite Hr, Hcap; simpl; rewrite Hc, Hcur; reflexivity].
    destruct (int_of_str cur_s) as [e|cur] eqn:Hu;
      [unfold app.performance, dict_item, mbind, M_bind, lift_result; rewrite Hfuel; simpl;
       rewrite Hruntime; simpl; rewrite Hr, Hcap; simpl; rewrite Hc, Hcur; simpl;
       rewrite Hu; reflexivity|].
    intros e w Hrun.
    rewrite (performance_unfold request s fuel runtime_s cap_s cur_s runtime cap cur)
      by assumption.
    rewrite Hrun. reflexivity.
Qed.

End AppRuns.

(** ** Concrete runs of the further properties *)

(** Two days asked of the answer of three: the first two dates. *)
Lemma forecast_from_json_days_answer :
  exists forecast : list (forecast_day Q),
    forecast_from_json three_day_answer 2 = inr forecast
    /\ length forecast = 2%nat
    /\ map date forecast = ["2026-11-03"; "2026-11-04"].
Proof.
  eexists. split; [reflexivity|].
  destruct (forecast_from_json_days (three_day_answer (F:=Q)) 2 _ eq_refl)
    as (d & times & Hd & Ht & Hlen & _ & Hdates & _).
  injection Hd as <-. injection Ht as <-. split; [exact Hlen|exact Hdates].
Defined.

(** The same answer has no pressure: 1013 hPa on its first day. *)
Lemma forecast_default_pressure_answer :
  exists (forecast : list (forecast_day Q)) (entry : forecast_day Q),
    forecast_from_json three_day_answer 2 = inr forecast
    /\ forecast !! 0%nat = Some entry
    /\ day_pressure_hPa entry = 1013%Q.
Proof.
  eexists _, _. split; [reflexivity|]. split; [reflexivity|].
  exact (forecast_default_pressure (three_day_answer (F:=Q)) 2 _ _ eq_refl eq_refl eq_refl
           _ ltac:(left)).
Defined.

(** The forecast of two days for the plant of the scenario, with no
    location: the files are as before. *)
Lemma func1_writes_no_file_two_days :
  exists r w',
    func1 unit (fun _ _ => 0%Q) (inl RuntimeError) (fun _ _ _ => inr two_days)
      (inputs scenario) empty_world = (r, w')
    /\ fs w' = fs (empty_world : world Q unit).
Proof.
  destruct (func1 unit (fun _ _ => 0%Q) (inl RuntimeError) (fun _ _ _ => inr two_days)
              (inputs scenario) empty_world) as [r w'] eqn:Hrun.
  exists r, w'. split; [reflexivity|].
  exact (proj1 (func1_writes_no_file unit (fun _ _ => 0%Q) (inl RuntimeError)
                  (fun _ _ _ => inr two_days) (inputs scenario) empty_world w' r Hrun)).
Defined.

(** Neither the location nor the forecast can be fetched: exit status 1. *)
Lemma forecast_failure_exits_offline :
  exists w',
    func1 unit (fun _ _ => 0%Q) (inl RuntimeError) (fun _ _ _ => inl RuntimeError)
      (inputs scenario) empty_world = (inl (SystemExit 1), w')
    /\ last (stdout w') = Some (ForecastFailed RuntimeError).
Proof.
  destruct (forecast_failure_exits unit (fun _ _ => 0%Q) (inl RuntimeError)
              (fun _ _ _ => inl RuntimeError) (inputs scenario) empty_world RuntimeError)
    as (w' & Hrun & _ & Hlast & _); [discriminate|reflexivity|reflexivity|].
  exists w'. split; assumption.
Defined.

(** [func1] over the answer of three days: three rows, under its dates. *)
Lemma func1_first_seven_days_answer :
  exists rows w',
    func1 unit (fun _ _ => 0%Q) (inl RuntimeError)
      (fetch_weather_forecast (fun _ _ => inr three_day_answer))
      (inputs scenario) empty_world = (inr rows, w')
    /\ map fst rows = ["2026-11-03"; "2026-11-04"; "2026-11-05"].
Proof.
  destruct (func1 unit (fun _ _ => 0%Q) (inl RuntimeError)
              (fetch_weather_forecast (fun _ _ => inr three_day_answer))
              (inputs scenario) empty_world) as [[e|rows] w'] eqn:Hrun;
    [vm_compute in Hrun; discriminate|].
  exists rows, w'. split; [reflexivity|].
  destruct (func1_first_seven_days unit (fun _ _ => 0%Q) (inl RuntimeError)
              (fun _ _ => inr three_day_answer) (inputs scenario) empty_world w' rows Hrun)
    as (data & d & times & Hdata & Hd & Ht & _ & Hdates).
  injection Hdata as <-. injection Hd as <-. injection Ht as <-. exact Hdates.
Defined.

(** The plant of the scenario on the two days of [two_days]: the second is
    cooler and drier, at a higher pressure, and gets the higher efficiency. *)
Lemma harsher_day_recommends_less_two_days :
  exists e1 e2 : Q,
    dict_find (recommended_outputs (day_input (inputs scenario) mild_day))
      "recommended_efficiency" = Some e1
    /\ dict_find (recommended_outputs (day_input (inputs scenario) hot_day))
         "recommended_efficiency" = Some e2
    /\ (e2 <= e1)%Q.
Proof.
  destruct (harsher_day_recommends_less (inputs scenario) mild_day hot_day)
    as (e1 & e2 & g1 & g2 & u1 & u2 & v1 & v2 & He1 & He2 & _ & _ & _ & _ & _ & _ & Hle & _);
    try (split; discriminate); try discriminate.
  exists e1, e2. split; [exact He1|]. split; [exact He2|]. apply Hle.
Defined.

(** The trainer over the small store: [backup.csv] is not there before, and
    not after. *)
Lemma trainer_touches_only_its_files_small_store :
  exists w',
    trainer nat predict_zero split_all_train fit_count score_zero score_zero small_store
    = (inr tt, w')
    /\ fs w' !! BACKUP_CSV_FILE = None.
Proof.
  pose proof (trainer_run nat predict_zero split_all_train fit_count score_zero score_zero
                HEADERS small_rows small_store eq_refl trainer_columns_in_HEADERS) as Hrun.
  eexists. split; [exact Hrun|].
  destruct (trainer_touches_only_its_files nat predict_zero split_all_train fit_count
              score_zero score_zero small_store _ _ Hrun) as (Hframe & _).
  rewrite Hframe; [reflexivity|discriminate|].
  intros fuel Heq. discriminate Heq.
Defined.

(** A second run over the small store. *)
Lemma trainer_again_is_idle_small_store :
  exists w',
    trainer nat predict_zero split_all_train fit_count score_zero score_zero small_store
    = (inr tt, w')
    /\ trainer nat predict_zero split_all_train fit_count score_zero score_zero w'
       = (inr tt, say w' DataCleared).
Proof.
  pose proof (trainer_run nat predict_zero split_all_train fit_count score_zero score_zero
                HEADERS small_rows small_store eq_refl trainer_columns_in_HEADERS) as Hrun.
  eexists. split; [exact Hrun|].
  exact (trainer_again_is_idle nat predict_zero split_all_train fit_count score_zero
           score_zero small_store _ Hrun).
Defined.


(** The coal profile at the weather of the scenario, the draw being one
    half: an efficiency between 0.31835 and 0.46235. *)
Lemma calculate_efficiency_near_range_coal :
  exists (config : fuel_config Q) (r : Q),
    dict_find fuel_types "coal" = Some config
    /\ calculate_efficiency unit (constant_random (1 # 2)) config 30%Q 50%Q 1010%Q 20%Z
         215827200%Z 0.9%Q tt = (inr r, tt)
    /\ (0.31835 <= r <= 0.46235)%Q.
Proof.
  assert (Hfind : exists config : fuel_config Q,
            dict_find fuel_types "coal" = Some config
            /\ efficiency_range config = (0.32, 0.46)%Q) by (eexists; split; reflexivity).
  destruct Hfind as (config & Hfind & Hrange).
  destruct (calculate_efficiency_near_range unit (constant_random (1 # 2)) config 30%Q 50%Q
              1010%Q 20%Z 215827200%Z 0.9%Q tt tt (1 # 2) eq_refl) as (r & Hrun & Hr).
  - split; discriminate.
  - rewrite Hrange. split; discriminate.
  - exists config, r. split; [exact Hfind|]. split; [exact Hrun|].
    rewrite Hrange in Hr. simpl in Hr. lra.
Defined.

(** Two timestamps on 2026-11-03, with constant draws: six rows. *)
Lemma generate_realistic_data_rows_two :
  exists rows e',
    generate_realistic_data unit (constant_random (1 # 2)) randint_low now_fixed sin_zero 3%Q
      2 tt = (inr rows, e')
    /\ map s_fuel_type rows = ["coal"; "oil"; "natural_gas"; "coal"; "oil"; "natural_gas"]
    /\ Forall generated_row rows.
Proof.
  destruct (generate_realistic_data_rows unit (constant_random (1 # 2)) randint_low now_fixed
              sin_zero 3%Q 215827200%Z) with (num_samples := 2%Z) (e := tt)
    as (rows & e' & Hrun & Hfuels & _ & Hrows).
  - intros e. exists (1 # 2)%Q, e. split; [reflexivity|]. split; discriminate.
  - intros a b e Hab. exists a, e. split; [reflexivity|]. lia.
  - intros e. eexists _, e. split; [reflexivity|]. split; discriminate.
  - discriminate.
  - exists rows, e'. split; [exact Hrun|]. split; [exact Hfuels|exact Hrows].
Defined.

(** Midnight on 2026-11-03, a day of November, with a draw of one half and
    a sine of zero: within 7 degrees of the 25 of autumn. *)
Lemma seasonal_temperature_bounds_autumn :
  exists t : Q,
    get_seasonal_temperature unit (constant_random (1 # 2)) sin_zero 3%Q 215827200%Z tt
    = (inr t, tt)
    /\ dt_month 215827200%Z = 11%Z
    /\ (25 - 7 <= t <= 25 + 7)%Q.
Proof.
  destruct (seasonal_temperature_bounds unit (constant_random (1 # 2)) sin_zero 3%Q)
    with (timestamp := 215827200%Z) (e := tt)
    as (t & base & e' & Hrun & _ & _ & _ & _ & Hautumn & Hnear & _).
  - intros e. exists (1 # 2)%Q, e. split; [reflexivity|]. split; discriminate.
  - intros x. split; discriminate.
  - destruct e'. exists t. split; [exact Hrun|]. split; [reflexivity|].
    rewrite <- Hautumn; [exact Hnear|].
    apply list_elem_of_In. right; right; left. reflexivity.
Defined.

(** Counted back from 2026-11-03, eighteen million hours end before the
    year 1, and nine million one hundred thousand in the year 988. *)
Lemma generate_realistic_data_out_of_range_far :
  generate_realistic_data unit (constant_random (1 # 2)) randint_low now_fixed sin_zero 3%Q
    18000000 tt = (inl OverflowError, tt)
  /\ generate_realistic_data unit (constant_random (1 # 2)) randint_low now_fixed sin_zero 3%Q
       9100000 tt = (inl ValueError, tt).
Proof.
  split.
  - apply (generate_realistic_data_out_of_range unit (constant_random (1 # 2)) randint_low
             now_fixed sin_zero 3%Q 18000000 tt tt 215827200%Z eq_refl);
      [reflexivity|split; discriminate|reflexivity].
  - apply (generate_realistic_data_out_of_range unit (constant_random (1 # 2)) randint_low
             now_fixed sin_zero 3%Q 9100000 tt tt 215827200%Z eq_refl) with (u := (1 # 2)%Q);
      [reflexivity|split; discriminate|split; [discriminate|reflexivity]|reflexivity].
Defined.

(** ** Concrete runs of the scripts and the routes *)

Lemma constant_random_unit :
  forall e : unit, exists (u : Q) (e' : unit),
    constant_random (1 # 2) e = (inr u, e') /\ (0 <= u <= 1)%Q.
Proof. intros e. exists (1 # 2)%Q, e. split; [reflexivity|]. split; discriminate. Qed.

Lemma randint_low_between :
  forall (a b : Z) (e : unit), (a <= b)%Z ->
    exists (n : Z) (e' : unit), randint_low a b e = (inr n, e') /\ (a <= n <= b)%Z.
Proof. intros a b e Hab. exists a, e. split; [reflexivity|lia]. Qed.

Lemma randbelow_zero_below :
  forall (n : nat) (e : unit), (0 < n)%nat ->
    exists (i : nat) (e' : unit), randbelow_zero n e = (inr i, e') /\ (i < n)%nat.
Proof. intros n e Hn. exists 0%nat, e. split; [reflexivity|exact Hn]. Qed.


(** A supercritical plant at the weather of the scenario. *)
Lemma physics_efficiency_in_range_supercritical :
  exists r : Q,
    test_model.calculate_efficiency_from_physics unit (constant_random (1 # 2))
      30%Q 50%Q 1010%Q 20%Z "supercritical" tt = (inr r, tt)
    /\ (0.38 <= r <= 0.42)%Q.
Proof.
  pose proof (physics_efficiency_in_range unit (constant_random (1 # 2)) constant_random_unit
                30%Q 50%Q 1010%Q 20%Z "supercritical" tt) as Hp.
  change (dict_find test_model.plant_types "supercritical")
    with (Some {| test_model.efficiency_range := (0.38, 0.42)%Q;
                  test_model.heat_rate_range := (2200, 2400)%Q |}) in Hp.
  destruct Hp as (r & [] & Hrun & Hr & _). exists r. split; [exact Hrun|exact Hr].
Defined.

(** Three rows of test data with constant draws. *)
Lemma test_data_rows_three :
  exists rows e',
    test_model.generate_realistic_data unit (constant_random (1 # 2)) randint_low
      randbelow_zero 3 tt = (inr rows, e')
    /\ length rows = 3%nat
    /\ Forall generated_test_row rows.
Proof.
  exact (test_data_rows unit (constant_random (1 # 2)) randint_low randbelow_zero
           constant_random_unit randint_low_between randbelow_zero_below 3 tt).
Defined.

(** [main] over the model on file: twelve lines follow the banner and the
    loading. *)
Lemma main_reports_ten_tests_model_on_file :
  exists (s' : test_model.state Q unit),
    test_model.main nat predict_zero unit (constant_random (1 # 2)) randint_low randbelow_zero
      score_zero score_zero score_zero sqrt_zero mean_zero model_on_file
      {| test_model.rng := tt; test_model.stdout := [] |} = (inr tt, s')
    /\ length (test_model.stdout s') = 14%nat.
Proof.
  destruct (main_reports_ten_tests unit (constant_random (1 # 2)) randint_low randbelow_zero
              constant_random_unit randint_low_between randbelow_zero_below
              nat predict_zero score_zero score_zero score_zero sqrt_zero mean_zero
              model_on_file 5%nat {| test_model.rng := tt; test_model.stdout := [] |} eq_refl)
    as (metrics_list & e' & Hlen & _ & Hrun).
  eexists. split; [exact Hrun|]. cbn [test_model.stdout].
  rewrite !length_app, length_imap, Hlen. reflexivity.
Defined.

(** The small store has no [coal_adjustment_model.joblib], and none after
    the trainer: [main] finds no model. *)
Lemma test_model_finds_no_model_small_store :
  exists w',
    trainer nat predict_zero split_all_train fit_count score_zero score_zero small_store
    = (inr tt, w')
    /\ test_model.main nat predict_zero unit (constant_random (1 # 2)) randint_low
         randbelow_zero score_zero score_zero score_zero sqrt_zero mean_zero (fs w')
         {| test_model.rng := tt; test_model.stdout := [] |}
       = (inr tt, {| test_model.rng := tt;
                     test_model.stdout := [test_model.Testing; test_model.ModelFileNotFound] |}).
Proof.
  pose proof (trainer_run nat predict_zero split_all_train fit_count score_zero score_zero
                HEADERS small_rows small_store eq_refl trainer_columns_in_HEADERS) as Hrun.
  eexists. split; [exact Hrun|].
  exact (proj2 (test_model_finds_no_model nat predict_zero split_all_train fit_count
                  score_zero score_zero score_zero unit (constant_random (1 # 2)) randint_low
                  randbelow_zero sqrt_zero mean_zero small_store eq_refl _
                  {| test_model.rng := tt; test_model.stdout := [] |}
                  (or_introl (ex_intro _ _ Hrun)))).
Defined.

(** The page of the plant of the scenario over the forecast of two days. *)
Lemma performance_shows_first_day_scenario :
  exists s' rows g u v c o,
    app.performance unit (fun _ _ => 0%Q) (inl RuntimeError) (fun _ _ _ => inr two_days)
      int_of_scenario scenario_request fresh_client
    = (inr (app.performance_html (app.Number u) (app.Number g) (app.Number o) (app.Number v)
              (app.Number c)), s')
    /\ dict_find (app.session s') "result" = Some rows
    /\ app.printed s' = [rows].
Proof.
  destruct (func1 unit (fun _ _ => 0%Q) (inl RuntimeError) (fun _ _ _ => inr two_days)
              {| fuel_type := "coal"; max_capacity_mw := of_int 150; run_hours := of_int 20;
                 fuel_used_current := of_int 9000 |} (app.plant fresh_client))
    as [[e|[|row rows]] w] eqn:Hrun;
    [vm_compute in Hrun; discriminate..|].
  destruct (performance_shows_first_day unit (fun _ _ => 0%Q) (inl RuntimeError)
              (fun _ _ _ => inr two_days) int_of_scenario scenario_request fresh_client
              "coal" "20" "150" "9000" 20 150 9000 (row :: rows) w
              eq_refl eq_refl eq_refl eq_refl eq_refl eq_refl eq_refl Hrun)
    as (s' & _ & _ & Hprinted & Hsession & (g & u & v & c & o & e & _ & Hpage) & _).
  exists s', (row :: rows), g, u, v, c, o.
  split; [exact Hpage|]. split; [exact Hsession|exact Hprinted].
Defined.

(** The answer of ipinfo.io for Chennai: the two numbers of its [loc]. *)
Lemma get_gps_location_outcomes_chennai :
  get_gps_location float_of_chennai ipinfo_chennai = inr (13.0878, 80.2785)%Q.
Proof.
  apply (proj1 (get_gps_location_outcomes float_of_chennai ipinfo_chennai)).
  exists [("city", "Chennai"); ("loc", "13.0878,80.2785")], "13.0878,80.2785",
    "13.0878", "80.2785".
  repeat split; reflexivity.
Defined.
